(** * yahoo_search: a shallow embedding of [src/yahoo_search/core.py]

    The extractors of [core.py] are embedded as Rocq functions over
    - Python values ([pyval]), with dictionaries as finite maps,
    - an exception-or-result type [Res],
    - the libraries the module calls into ([urllib.parse], [selectolax],
      the builtin [int]) as type classes, so that every theorem holds for
      whatever these libraries answer; a small tree implementation of the
      interfaces is given further down to run the extractors on fixtures. *)

From Stdlib Require Import ZArith NArith Ascii String List Lia PrimFloat.
From stdpp Require Import gmap strings list fin_maps.

Local Open Scope N_scope.

(** ** Python strings

    A Python [str] is a sequence of Unicode code points; slicing, [split]
    and [startswith] count code points, not bytes. *)

Abbreviation char := N (only parsing).
Abbreviation str := (list N) (only parsing).

(** [u "abc"] is the [str] of an ASCII literal. *)
Definition u (s : string) : str :=
  (fun a => N_of_ascii a) <$> list_ascii_of_string s.

(** [s.startswith(p)] *)
Fixpoint startswith (p s : str) : bool :=
  match p, s with
  | [], _ => true
  | _ :: _, [] => false
  | a :: p', b :: s' => (a =? b) && startswith p' s'
  end.

(** The remainder of [s] after the prefix [p], when [s] starts with [p]. *)
Fixpoint strip_prefix (p s : str) : option str :=
  match p, s with
  | [], _ => Some s
  | _ :: _, [] => None
  | a :: p', b :: s' => if a =? b then strip_prefix p' s' else None
  end.

(** [s.partition(sep)] at the leftmost occurrence of [sep]: the text before
    it and the text after it, or [None] when [sep] does not occur. *)
Fixpoint break_on (sep s : str) : option (str * str) :=
  match strip_prefix sep s with
  | Some rest => Some ([], rest)
  | None =>
      match s with
      | [] => None
      | c :: s' =>
          match break_on sep s' with
          | Some (a, b) => Some (c :: a, b)
          | None => None
          end
      end
  end.

(** [sep in s] *)
Definition contains (sep s : str) : bool :=
  match break_on sep s with Some _ => true | None => false end.

Fixpoint split_aux (fuel : nat) (sep s : str) : list str :=
  match fuel with
  | O => [s]
  | S fuel' =>
      match break_on sep s with
      | None => [s]
      | Some (a, b) => a :: split_aux fuel' sep b
      end
  end.

(** [s.split(sep)] for a non-empty separator: cut at the leftmost
    occurrences, left to right.  Every cut removes at least one code point,
    so [length s] rounds are enough ([split_unfold] below). *)
Definition split (sep s : str) : list str := split_aux (length s) sep s.

(** The text of [s] before the leftmost [sep], all of [s] without one:
    [s.split(sep)[0]]. *)
Definition before (sep s : str) : str :=
  match break_on sep s with
  | Some (a, _) => a
  | None => s
  end.

(** [s[n:]] and [s[:-1]] *)
Definition slice_from (n : nat) (s : str) : str := drop n s.
Definition slice_to_minus1 (s : str) : str := take (length s - 1) s.

(** ** Exceptions and results *)

Inductive exn :=
| HTTPStatusError
| AssertionError (msg : string)
| IndexError
| KeyError (key : str)
| AttributeError
| TypeError
| ValueError
| ValidationError
| JSONDecodeError.

(** The class of an exception, which is what an [except] clause tells
    apart; the message is not part of it. *)
Inductive exn_kind :=
| KHTTPStatusError | KAssertionError | KIndexError | KKeyError
| KAttributeError | KTypeError | KValueError | KValidationError
| KJSONDecodeError.

Definition kind_of (e : exn) : exn_kind :=
  match e with
  | HTTPStatusError => KHTTPStatusError
  | AssertionError _ => KAssertionError
  | IndexError => KIndexError
  | KeyError _ => KKeyError
  | AttributeError => KAttributeError
  | TypeError => KTypeError
  | ValueError => KValueError
  | ValidationError => KValidationError
  | JSONDecodeError => KJSONDecodeError
  end.

Inductive Res (A : Type) : Type :=
| Ok (a : A)
| Raise (e : exn).
Arguments Ok {A} a.
Arguments Raise {A} e.

Definition res_bind {A B} (c : Res A) (k : A -> Res B) : Res B :=
  match c with
  | Ok a => k a
  | Raise e => Raise e
  end.

Notation "x <- c ;; k" := (res_bind c (fun x => k))
  (at level 100, c at next level, right associativity).

Definition raised {A} (r : Res A) : Prop :=
  match r with Raise _ => True | Ok _ => False end.

(** [for x in xs: acc = f(acc, x)], stopping at the first exception. *)
Fixpoint res_fold {A B} (f : A -> B -> Res A) (acc : A) (xs : list B) : Res A :=
  match xs with
  | [] => Ok acc
  | x :: xs' => acc' <- f acc x;; res_fold f acc' xs'
  end.

Fixpoint res_map {A B} (f : A -> Res B) (xs : list A) : Res (list B) :=
  match xs with
  | [] => Ok []
  | x :: xs' => y <- f x;; ys <- res_map f xs';; Ok (y :: ys)
  end.

(** [xs[i]] on a list *)
Definition getitem {A} (xs : list A) (i : nat) : Res A :=
  match xs !! i with
  | Some x => Ok x
  | None => Raise IndexError
  end.

(** ** [urllib.parse] and the builtin [int] *)

Record SplitResult := {
  scheme : str;
  netloc : str;
  path : str;
  query : str;
  fragment : str
}.

(** What [core.py] takes from the standard library without this development
    fixing its behaviour: [urlsplit], which raises [ValueError] on some
    hosts, and [int] on a [str], which raises [ValueError] on text that
    is not a decimal literal. *)
Class PyLib := {
  urlsplit : str -> Res SplitResult;
  int : str -> Res Z
}.

(** *** [urllib.parse.unquote]

    Percent escapes of each run of ASCII characters are replaced by their
    bytes and the run is decoded as UTF-8 with [errors='replace']; code
    points above 127 pass through. *)

Definition hexval (c : N) : option N :=
  if (48 <=? c) && (c <=? 57) then Some (c - 48)
  else if (65 <=? c) && (c <=? 70) then Some (c - 55)
  else if (97 <=? c) && (c <=? 102) then Some (c - 87)
  else None.

(** [inl b] is a byte of an ASCII run, [inr c] a code point above 127. *)
Fixpoint unquote_to_bytes (s : str) : list (N + N) :=
  match s with
  | [] => []
  | c :: s' =>
      if c =? 37 then
        match s' with
        | h1 :: h2 :: rest =>
            match hexval h1, hexval h2 with
            | Some a, Some b => inl (16 * a + b) :: unquote_to_bytes rest
            | _, _ => inl c :: unquote_to_bytes s'
            end
        | _ => inl c :: unquote_to_bytes s'
        end
      else if c <? 128 then inl c :: unquote_to_bytes s'
      else inr c :: unquote_to_bytes s'
  end.

Definition in_range (lo hi b : N) : bool := (lo <=? b) && (b <=? hi).

(** Bounds of the second byte of a 3- or 4-byte sequence led by [b0]. *)
Definition second_lo (b0 : N) : N :=
  if b0 =? 224 then 160 else if b0 =? 240 then 144 else 128.
Definition second_hi (b0 : N) : N :=
  if b0 =? 237 then 159 else if b0 =? 244 then 143 else 191.

Definition replacement : N := 65533.

Fixpoint utf8_decode (l : list (N + N)) : str :=
  match l with
  | [] => []
  | inr c :: l1 => c :: utf8_decode l1
  | inl b0 :: l1 =>
      if b0 <? 128 then b0 :: utf8_decode l1
      else if b0 <? 194 then replacement :: utf8_decode l1
      else if b0 <? 224 then
        match l1 with
        | inl b1 :: l2 =>
            if in_range 128 191 b1
            then ((b0 - 192) * 64 + (b1 - 128)) :: utf8_decode l2
            else replacement :: utf8_decode l1
        | _ => replacement :: utf8_decode l1
        end
      else if b0 <? 240 then
        match l1 with
        | inl b1 :: l2 =>
            if in_range (second_lo b0) (second_hi b0) b1 then
              match l2 with
              | inl b2 :: l3 =>
                  if in_range 128 191 b2
                  then ((b0 - 224) * 4096 + (b1 - 128) * 64 + (b2 - 128))
                         :: utf8_decode l3
                  else replacement :: utf8_decode l2
              | _ => replacement :: utf8_decode l2
              end
            else replacement :: utf8_decode l1
        | _ => replacement :: utf8_decode l1
        end
      else if b0 <? 245 then
        match l1 with
        | inl b1 :: l2 =>
            if in_range (second_lo b0) (second_hi b0) b1 then
              match l2 with
              | inl b2 :: l3 =>
                  if in_range 128 191 b2 then
                    match l3 with
                    | inl b3 :: l4 =>
                        if in_range 128 191 b3
                        then ((b0 - 240) * 262144 + (b1 - 128) * 4096
                              + (b2 - 128) * 64 + (b3 - 128))
                               :: utf8_decode l4
                        else replacement :: utf8_decode l3
                    | _ => replacement :: utf8_decode l3
                    end
                  else replacement :: utf8_decode l2
              | _ => replacement :: utf8_decode l2
              end
            else replacement :: utf8_decode l1
        | _ => replacement :: utf8_decode l1
        end
      else replacement :: utf8_decode l1
  end.

Definition unquote (s : str) : str := utf8_decode (unquote_to_bytes s).

(** ** [get_abs_link] (core.py, lines 110-116) *)

Definition get_abs_link `{PyLib} (r_search_link : option str) : Res str :=
  match r_search_link with
  | None => Ok []
  | Some [] => Ok []
  | Some link =>
      parts <- urlsplit link;;
      after <- getitem (split (u "RU=") (path parts)) 1;;
      first <- getitem (split (u "/") after) 0;;
      Ok (unquote first)
  end.

(** [get_abs_image] (core.py, lines 118-122) *)
Definition get_abs_image (yimg_link : option str) : Res str :=
  match yimg_link with
  | None => Ok []
  | Some [] => Ok []
  | Some link =>
      rest <- getitem (split (u "https://") link) 1;;
      Ok (u "https://" ++ rest)
  end.

(** ** Python values and dictionaries

    The extractors assemble untyped dictionaries and hand them to the
    pydantic models at the end.  A [dict] with [str] keys is a finite map;
    [d.update({k: v})] and [d[k] = v] are [<[k:=v]> d]. *)

#[warnings="-register-all"]
Inductive pyval :=
| VNone
| VStr (s : str)
| VBool (b : bool)
| VInt (z : Z)
| VFloat (f : float)
| VList (l : list pyval)
| VDict (d : gmap (list N) pyval).

(** Truth value of a Python value, as [if v:] tests it. *)
Definition truthy (v : pyval) : bool :=
  match v with
  | VNone => false
  | VStr s => negb (bool_decide (s = []))
  | VBool b => b
  | VInt z => negb (Z.eqb z 0)
  | VFloat f => negb (PrimFloat.eqb f 0%float)
  | VList l => match l with [] => false | _ :: _ => true end
  | VDict d => negb (bool_decide (d = ∅))
  end.

(** [v[k]] with a [str] key. *)
Definition subscript_str (v : pyval) (k : list N) : Res pyval :=
  match v with
  | VDict d =>
      match d !! k with
      | Some x => Ok x
      | None => Raise (KeyError k)
      end
  | _ => Raise TypeError
  end.

(** [v[1]]: the second item of a list, the second character of a [str];
    a dictionary decoded from JSON has only [str] keys. *)
Definition subscript_1 (v : pyval) : Res pyval :=
  match v with
  | VList l => getitem l 1
  | VStr s => c <- getitem s 1;; Ok (VStr [c])
  | VDict d => Raise (KeyError (u "1"))
  | _ => Raise TypeError
  end.

(** An attribute value or an optional string as a Python value. *)
Definition of_optional_str (o : option (list N)) : pyval :=
  match o with
  | Some s => VStr s
  | None => VNone
  end.

(** [d[k].update({k2: v})] on a dictionary held under key [k] of [d]. *)
Definition update_in (k k2 : list N) (v : pyval) (d : gmap (list N) pyval)
  : gmap (list N) pyval :=
  alter (fun inner =>
           match inner with
           | VDict i => VDict (<[k2 := v]> i)
           | other => other
           end) k d.

(** ** pydantic models (core.py, lines 20-107)

    A model built from the keywords of a dictionary [d] validates [d]
    field by field: a field without default that is missing raises a
    validation error, a key that names no field is ignored, a [str] field
    takes a [str], an [int] field an [int], [Optional[T]] also takes
    [None], a model-typed field takes a dictionary and validates it in
    turn.  pydantic also converts some values of another type (a number
    given for a [str] field, say); the extractors put a [str], [None] or
    an [int] of their own making in every field but [video_preview], which
    comes out of a JSON document. *)

Definition required {A} (validate : pyval -> Res A)
    (d : gmap (list N) pyval) (k : string) : Res A :=
  match d !! u k with
  | Some v => validate v
  | None => Raise ValidationError
  end.

Definition with_default {A} (validate : pyval -> Res A) (default : A)
    (d : gmap (list N) pyval) (k : string) : Res A :=
  match d !! u k with
  | Some v => validate v
  | None => Ok default
  end.

Definition v_str (v : pyval) : Res (list N) :=
  match v with
  | VStr s => Ok s
  | _ => Raise ValidationError
  end.

Definition v_int (v : pyval) : Res Z :=
  match v with
  | VInt z => Ok z
  | _ => Raise ValidationError
  end.

Definition v_optional {A} (validate : pyval -> Res A) (v : pyval)
  : Res (option A) :=
  match v with
  | VNone => Ok None
  | _ => a <- validate v;; Ok (Some a)
  end.

Definition v_list {A} (validate : pyval -> Res A) (v : pyval) : Res (list A) :=
  match v with
  | VList l => res_map validate l
  | _ => Raise ValidationError
  end.

Definition v_model {A} (validate : gmap (list N) pyval -> Res A) (v : pyval)
  : Res A :=
  match v with
  | VDict d => validate d
  | _ => Raise ValidationError
  end.

Module AlsoTryItem.
Record t := { link : list N; text : list N }.
Definition validate (d : gmap (list N) pyval) : Res t :=
  link <- required v_str d "link";;
  text <- required v_str d "text";;
  Ok {| link := link; text := text |}.
End AlsoTryItem.

Module PageResult.
Record t := { title : list N; link : list N; text : option (list N) }.
Definition validate (d : gmap (list N) pyval) : Res t :=
  title <- required v_str d "title";;
  link <- required v_str d "link";;
  text <- with_default (v_optional v_str) None d "text";;
  Ok {| title := title; link := link; text := text |}.
End PageResult.

Module CardResultSource.
Record t := { link : list N; text : list N }.
Definition validate (d : gmap (list N) pyval) : Res t :=
  link <- required v_str d "link";;
  text <- required v_str d "text";;
  Ok {| link := link; text := text |}.
End CardResultSource.

Module CardResult.
Record t := {
  image : option (list N);
  heading : option (list N);
  text : option (list N);
  source : option CardResultSource.t
}.
Definition validate (d : gmap (list N) pyval) : Res t :=
  image <- with_default (v_optional v_str) None d "image";;
  heading <- with_default (v_optional v_str) None d "heading";;
  text <- with_default (v_optional v_str) None d "text";;
  source <- with_default
              (v_optional (v_model CardResultSource.validate)) None d "source";;
  Ok {| image := image; heading := heading; text := text; source := source |}.
End CardResult.

Module RelatedSearch.
Record t := { link : list N; text : list N }.
Definition validate (d : gmap (list N) pyval) : Res t :=
  link <- required v_str d "link";;
  text <- required v_str d "text";;
  Ok {| link := link; text := text |}.
End RelatedSearch.

Module SearchResult.
Record t := {
  also_try : list AlsoTryItem.t;
  pages : list PageResult.t;
  card : option CardResult.t;
  related_searches : list RelatedSearch.t
}.
Definition validate (d : gmap (list N) pyval) : Res t :=
  also_try <- required (v_list (v_model AlsoTryItem.validate)) d "also_try";;
  pages <- required (v_list (v_model PageResult.validate)) d "pages";;
  card <- with_default
            (v_optional (v_model CardResult.validate)) None d "card";;
  related_searches <-
    required (v_list (v_model RelatedSearch.validate)) d "related_searches";;
  Ok {| also_try := also_try; pages := pages; card := card;
        related_searches := related_searches |}.
End SearchResult.

Module News.
Record t := {
  title : list N;
  thumbnail : option (list N);
  source : option (list N);
  last_updated : option (list N);
  text : option (list N)
}.
Definition validate (d : gmap (list N) pyval) : Res t :=
  title <- required v_str d "title";;
  thumbnail <- with_default (v_optional v_str) None d "thumbnail";;
  source <- with_default (v_optional v_str) None d "source";;
  last_updated <- with_default (v_optional v_str) None d "last_updated";;
  text <- with_default (v_optional v_str) None d "text";;
  Ok {| title := title; thumbnail := thumbnail; source := source;
        last_updated := last_updated; text := text |}.
End News.

Module NewsSearchResult.
Record t := { news : list News.t }.
Definition validate (d : gmap (list N) pyval) : Res t :=
  news <- required (v_list (v_model News.validate)) d "news";;
  Ok {| news := news |}.
End NewsSearchResult.

Module Video.
Record t := {
  age : option (list N);
  cite : option (list N);
  thumbnail : option (list N);
  video_preview : option (list N);
  title : list N;
  link : list N
}.
Definition validate (d : gmap (list N) pyval) : Res t :=
  age <- with_default (v_optional v_str) None d "age";;
  cite <- with_default (v_optional v_str) None d "cite";;
  thumbnail <- with_default (v_optional v_str) None d "thumbnail";;
  video_preview <- with_default (v_optional v_str) None d "video_preview";;
  title <- required v_str d "title";;
  link <- required v_str d "link";;
  Ok {| age := age; cite := cite; thumbnail := thumbnail;
        video_preview := video_preview; title := title; link := link |}.
End Video.

Module VideoSearchResult.
Record t := { videos : list Video.t }.
Definition validate (d : gmap (list N) pyval) : Res t :=
  videos <- required (v_list (v_model Video.validate)) d "videos";;
  Ok {| videos := videos |}.
End VideoSearchResult.

Module HighLowTemperature.
Record t := { highest : Z; lowest : Z }.
Definition validate (d : gmap (list N) pyval) : Res t :=
  highest <- required v_int d "highest";;
  lowest <- required v_int d "lowest";;
  Ok {| highest := highest; lowest := lowest |}.
End HighLowTemperature.

Module WeatherForecastInner.
Record t := { text : list N; icon : list N }.
Definition validate (d : gmap (list N) pyval) : Res t :=
  text <- required v_str d "text";;
  icon <- required v_str d "icon";;
  Ok {| text := text; icon := icon |}.
End WeatherForecastInner.

Module Precipitation.
Record t := { icon : list N; percentage : list N }.
Definition validate (d : gmap (list N) pyval) : Res t :=
  icon <- required v_str d "icon";;
  percentage <- required v_str d "percentage";;
  Ok {| icon := icon; percentage := percentage |}.
End Precipitation.

Module WeatherForecast.
Record t := {
  fahrenheit : HighLowTemperature.t;
  celsius : HighLowTemperature.t;
  weather : WeatherForecastInner.t;
  precipitation : Precipitation.t
}.
Definition validate (d : gmap (list N) pyval) : Res t :=
  fahrenheit <- required (v_model HighLowTemperature.validate) d "fahrenheit";;
  celsius <- required (v_model HighLowTemperature.validate) d "celsius";;
  weather <- required (v_model WeatherForecastInner.validate) d "weather";;
  precipitation <- required (v_model Precipitation.validate) d "precipitation";;
  Ok {| fahrenheit := fahrenheit; celsius := celsius; weather := weather;
        precipitation := precipitation |}.
End WeatherForecast.

(** The [Literal] of the keys of [WeatherInformation.forecast]. *)
Definition weekdays : list (list N) :=
  [u "Monday"; u "Tuesday"; u "Wednesday"; u "Thursday"; u "Friday";
   u "Saturday"; u "Sunday"].

Definition v_entry {A} (key_ok : list N -> bool) (validate : pyval -> Res A)
    (kv : list N * pyval) : Res (list N * A) :=
  if key_ok kv.1 then a <- validate kv.2;; Ok (kv.1, a)
  else Raise ValidationError.

(** [Dict[K, T]]: every key is validated against [K], every value
    against [T]. *)
Definition v_dict {A} (key_ok : list N -> bool) (validate : pyval -> Res A)
    (v : pyval) : Res (gmap (list N) A) :=
  match v with
  | VDict d =>
      kvs <- res_map (v_entry key_ok validate) (map_to_list d);;
      Ok (list_to_map kvs)
  | _ => Raise ValidationError
  end.

Module WeatherInformation.
Record t := {
  location : list N;
  country : list N;
  time : list N;
  celsius : Z;
  fahrenheit : Z;
  weather : list N;
  weather_icon : list N;
  forecast : gmap (list N) WeatherForecast.t
}.
Definition validate (d : gmap (list N) pyval) : Res t :=
  location <- required v_str d "location";;
  country <- required v_str d "country";;
  time <- required v_str d "time";;
  celsius <- required v_int d "celsius";;
  fahrenheit <- required v_int d "fahrenheit";;
  weather <- required v_str d "weather";;
  weather_icon <- required v_str d "weather_icon";;
  forecast <- required
                (v_dict (fun k => bool_decide (k ∈ weekdays))
                        (v_model WeatherForecast.validate)) d "forecast";;
  Ok {| location := location; country := country; time := time;
        celsius := celsius; fahrenheit := fahrenheit; weather := weather;
        weather_icon := weather_icon; forecast := forecast |}.
End WeatherInformation.

(** ** The libraries behind the extractors *)

(** [selectolax.lexbor]: a parsed document is a mutable tree.  [document]
    is the state of the tree, [node] a handle on one of its nodes;
    [css d None q] is [parser.css(q)], [css d (Some n) q] is [n.css(q)],
    [text d n deep separator strip] is [n.text(deep, separator, strip)] and
    [unwrap_tags] returns the tree after the in-place edit.  An attribute
    without value reads as [None]. *)
Class Selectolax := {
  document : Type;
  node : Type;
  css : document -> option node -> list N -> list node;
  attributes : document -> node -> gmap (list N) (option (list N));
  text : document -> node -> bool -> list N -> bool -> list N;
  first_child : document -> node -> option node;
  last_child : document -> node -> option node;
  unwrap_tags : document -> node -> list (list N) -> document
}.

(** [json.loads] *)
Class Json := {
  json_loads : list N -> Res pyval
}.

(** An [httpx] response: its status code and its body, given as the
    document [Parser(res.text)] builds from it (HTML pages) or as what
    [res.json()] gives (the suggestion endpoint). *)
Record Response (B : Type) := {
  status_code : Z;
  body : B
}.
Arguments status_code {B} r.
Arguments body {B} r.

(** [res.raise_for_status()] *)
Definition raise_for_status {B} (res : Response B) : Res unit :=
  if (200 <=? status_code res)%Z && (status_code res <? 300)%Z then Ok tt
  else Raise HTTPStatusError.

Definition MD_TAGS : list (list N) := [u "strong"; u "b"; u "s"; u "i"].

(** A double quote, for selectors that quote an attribute value. *)
Definition dquote : list N := [34].

(** [xs.append(v)] on the list held under key [k] of [d]. *)
Definition append_in (k : list N) (v : pyval) (d : gmap (list N) pyval)
  : gmap (list N) pyval :=
  alter (fun xs =>
           match xs with
           | VList l => VList (l ++ [v])
           | other => other
           end) k d.

(** [attrs[k]] and [attrs.get(k)] on the attributes of a node. *)
Definition attr_getitem (attrs : gmap (list N) (option (list N))) (k : list N)
  : Res (option (list N)) :=
  match attrs !! k with
  | Some v => Ok v
  | None => Raise (KeyError k)
  end.

Definition attr_get (attrs : gmap (list N) (option (list N))) (k : list N)
  : option (list N) :=
  match attrs !! k with
  | Some v => v
  | None => None
  end.

Section Extractors.
Context `{PyLib} `{Selectolax} `{Json}.

Definition css_first (d : document) (n : option node) (q : list N)
  : option node :=
  head (css d n q).

(** [n.text()] *)
Definition text0 (d : document) (n : node) : list N := text d n true [] false.

(** [n.unwrap_tags(MD_TAGS)] followed by
    [n.text(deep=True, separator=" ", strip=True)]. *)
Definition clean_text (d : document) (n : node) : document * list N :=
  let d' := unwrap_tags d n MD_TAGS in
  (d', text d' n true (u " ") true).

(** *** [search] (core.py, lines 124-245) *)

(** Body of [for title in webpage.css("div.compTitle h3 a")]. *)
Definition search_title (parser : document) (page_results : gmap (list N) pyval)
    (title : node) : Res (gmap (list N) pyval) :=
  link <- attr_getitem (attributes parser title) (u "href");;
  absLink <- get_abs_link link;;
  let title :=
    match last_child parser title with
    | Some c => text0 parser c
    | None => []
    end in
  Ok (<[u "link" := VStr absLink]> (<[u "title" := VStr title]> page_results)).

(** Body of [for texts in webpage.css(".compText.aAbs p")]. *)
Definition search_texts (st : document * gmap (list N) pyval) (texts : node)
  : document * gmap (list N) pyval :=
  let '(parser, text) := clean_text st.1 texts in
  (parser, <[u "text" := VStr text]> st.2).

(** Body of [for webpage in search.css(".dd.algo.algo-sr")]. *)
Definition search_webpage (st : document * gmap (list N) pyval)
    (webpage : node) : Res (document * gmap (list N) pyval) :=
  let parser := st.1 in
  page_results <-
    res_fold (search_title parser) ∅
             (css parser (Some webpage) (u "div.compTitle h3 a"));;
  let st' :=
    fold_left search_texts
              (css parser (Some webpage) (u ".compText.aAbs p"))
              (parser, page_results) in
  Ok (st'.1, append_in (u "pages") (VDict st'.2) st.2).

(** The block under [if card:]. *)
Definition search_card (st : document * gmap (list N) pyval) (card : node)
  : Res (document * gmap (list N) pyval) :=
  let parser := st.1 in
  contents <-
    match css_first parser (Some card) (u "img") with
    | Some image =>
        src <- attr_getitem (attributes parser image) (u "src");;
        abs <- get_abs_image src;;
        Ok (update_in (u "card") (u "image") (VStr abs) st.2)
    | None => Ok st.2
    end;;
  let st1 :=
    match css_first parser (Some card) (u "p.pl-15.pr-10 span") with
    | Some heading_2 =>
        let '(parser, text) := clean_text parser heading_2 in
        (parser, update_in (u "card") (u "heading") (VStr text) contents)
    | None => (parser, contents)
    end in
  let parser := st1.1 in
  match css_first parser (Some card) (u "div.compText p") with
  | Some inner_content =>
      let text :=
        match first_child parser inner_content with
        | Some t => text0 parser t
        | None => []
        end in
      let contents := update_in (u "card") (u "text") (VStr text) st1.2 in
      match css_first parser (Some inner_content) (u "a") with
      | Some source =>
          link <- get_abs_link (attr_get (attributes parser source) (u "href"));;
          Ok (parser,
              update_in (u "card") (u "source")
                (VDict (<[u "text" := VStr (text0 parser source)]>
                          (<[u "link" := VStr link]> ∅)))
                contents)
      | None => Ok (parser, contents)
      end
  | None => Ok st1
  end.

(** Body of the loop over [also_try]. *)
Definition search_also_try (parser : document)
    (contents : gmap (list N) pyval) (item : node)
  : Res (gmap (list N) pyval) :=
  link <- attr_getitem (attributes parser item) (u "href");;
  Ok (append_in (u "also_try")
        (VDict (<[u "text" := VStr (text0 parser item)]>
                  (<[u "link" := of_optional_str link]> ∅)))
        contents).

(** Body of the loop over [related_searches]. *)
Definition search_related (st : document * gmap (list N) pyval) (item : node)
  : Res (document * gmap (list N) pyval) :=
  let '(parser, text) := clean_text st.1 item in
  link <- attr_getitem (attributes parser item) (u "href");;
  Ok (parser,
      append_in (u "related_searches")
        (VDict (<[u "text" := VStr text]>
                  (<[u "link" := of_optional_str link]> ∅)))
        st.2).

Definition search_contents : gmap (list N) pyval :=
  <[u "related_searches" := VList []]>
    (<[u "card" := VDict ∅]>
       (<[u "pages" := VList []]>
          (<[u "also_try" := VList []]> ∅))).

(** The loop over the organic results: the document and [contents] when
    the card panel is looked up. *)
Definition search_pages (parser : document)
  : Res (document * gmap (list N) pyval) :=
  match css_first parser None (u ".reg.searchCenterMiddle") with
  | None =>
      Raise (AssertionError
               "Could not find '.reg.searchCCenterMiddle' (search results)")
  | Some search =>
      res_fold search_webpage (parser, search_contents)
               (css parser (Some search) (u ".dd.algo.algo-sr"))
  end.

(** The dictionary [contents] as it stands before validation, with the
    document as the loops left it. *)
Definition search_collect (parser : document)
  : Res (document * gmap (list N) pyval) :=
  st <- search_pages parser;;
  st <- match css_first st.1 None (u ".cardReg.searchRightTop") with
        | Some card => search_card st card
        | None => Ok st
        end;;
  contents <-
    res_fold (search_also_try st.1) st.2
             (css st.1 None (u "ol.cardReg.searchTop .compDlink li span a"));;
  res_fold search_related (st.1, contents)
           (css st.1 None (u "ol.scf.reg.searchCenterFooter tbody tr td a")).

Definition search (res : Response document) : Res SearchResult.t :=
  _ <- raise_for_status res;;
  st <- search_collect (body res);;
  SearchResult.validate st.2.

(** *** [search_news] (core.py, lines 274-345) *)

(** Body of [for news in page.css('li .dd.NewsArticle li')]. *)
Definition news_item (st : document * list pyval) (news : node)
  : Res (document * list pyval) :=
  let parser := st.1 in
  this <-
    match css_first parser (Some news) (u "img") with
    | Some thumbnail =>
        src <- attr_getitem (attributes parser thumbnail) (u "src");;
        match src with
        | Some src =>
            Ok (<[u "thumbnail" :=
                    if startswith (u "data:image/") src then VNone
                    else VStr src]> (∅ : gmap (list N) pyval))
        | None => Raise AttributeError
        end
    | None => Ok ∅
    end;;
  this <-
    match css_first parser (Some news) (u "h4 a") with
    | Some title =>
        link <- attr_getitem (attributes parser title) (u "href");;
        Ok (<[u "link" := of_optional_str link]>
              (<[u "title" := VStr (text0 parser title)]> this))
    | None => Ok this
    end;;
  let this :=
    match css_first parser (Some news) (u "span.s-source") with
    | Some source => <[u "source" := VStr (text0 parser source)]> this
    | None => this
    end in
  let this :=
    match css_first parser (Some news) (u "span.fc-2nd.s-time") with
    | Some last_updated =>
        <[u "time" := VStr (slice_from 2 (text0 parser last_updated))]> this
    | None => this
    end in
  match css_first parser (Some news) (u "p.s-desc") with
  | Some description =>
      let '(parser, text) := clean_text parser description in
      Ok (parser, st.2 ++ [VDict (<[u "text" := VStr text]> this)])
  | None => Ok (parser, st.2 ++ [VDict this])
  end.

(** The list [contents] before validation. *)
Definition news_collect (parser : document) : Res (document * list pyval) :=
  match css_first parser None (u "#main #web") with
  | None => Raise (AssertionError "Could not find '#main #web' (news results)")
  | Some page =>
      res_fold news_item (parser, [])
               (css parser (Some page) (u "li .dd.NewsArticle li"))
  end.

Definition search_news (res : Response document) : Res NewsSearchResult.t :=
  st <- news_collect (body res);;
  NewsSearchResult.validate (<[u "news" := VList st.2]> ∅).

(** *** [search_videos] (core.py, lines 347-438) *)

(** Body of [for result in results]. *)
Definition video_item (st : document * list pyval) (result : node)
  : Res (document * list pyval) :=
  let parser := st.1 in
  this <-
    match css_first parser (Some result) (u "a") with
    | Some anchor =>
        href <- attr_getitem (attributes parser anchor) (u "href");;
        this <-
          match href with
          | Some href =>
              Ok (<[u "link" :=
                      VStr (u "https://sg.video.search.yahoo.com" ++ href)]>
                    (∅ : gmap (list N) pyval))
          | None => Raise TypeError
          end;;
        match attr_get (attributes parser anchor) (u "data") with
        | Some ((_ :: _) as preview) =>
            meta <- json_loads preview;;
            m <- subscript_str meta (u "m");;
            if truthy m then
              url <- subscript_str m (u "u");;
              Ok (<[u "video_preview" := url]> this)
            else Ok this
        | _ => Ok this
        end
    | None => Ok ∅
    end;;
  this <-
    match css_first parser (Some result) (u "img") with
    | Some thumbnail =>
        src <- attr_getitem (attributes parser thumbnail) (u "src");;
        Ok (<[u "thumbnail" := of_optional_str src]> this)
    | None => Ok this
    end;;
  let this :=
    match css_first parser (Some result)
                    (u "div.pos-box .vthm .stack.grad span.v-time") with
    | Some duration => <[u "duration" := VStr (text0 parser duration)]> this
    | None => this
    end in
  match css_first parser (Some result) (u "div.v-meta") with
  | Some metadata =>
      let st1 :=
        match first_child parser metadata with
        | Some title =>
            let '(parser, text) := clean_text parser title in
            (parser, <[u "title" := VStr text]> this)
        | None => (parser, this)
        end in
      let parser := st1.1 in
      let this :=
        match css_first parser (Some metadata) (u ".v-age") with
        | Some age => <[u "age" := VStr (text0 parser age)]> st1.2
        | None => st1.2
        end in
      let this :=
        match last_child parser metadata with
        | Some cite => <[u "cite" := VStr (text0 parser cite)]> this
        | None => this
        end in
      Ok (parser, st.2 ++ [VDict this])
  | None => Ok (parser, st.2 ++ [VDict this])
  end.

Definition videos_collect (parser : document) : Res (document * list pyval) :=
  match css parser None (u "#search li.vr.vres") with
  | [] =>
      Raise (AssertionError
               "Couldn't find any results for '#search li.vr.vres'")
  | results => res_fold video_item (parser, []) results
  end.

Definition search_videos (res : Response document) : Res VideoSearchResult.t :=
  _ <- raise_for_status res;;
  st <- videos_collect (body res);;
  VideoSearchResult.validate (<[u "videos" := VList st.2]> ∅).

(** *** [weather] (core.py, lines 440-581) *)

Definition enumerate {A} (xs : list A) : list (nat * A) :=
  zip (seq 0 (length xs)) xs.

(** Body of [for index, item in enumerate(hl_temp)]. *)
Definition weather_temp (parser : document) (info : gmap (list N) pyval)
    (index_item : nat * node) : Res (gmap (list N) pyval) :=
  let text := slice_to_minus1 (text0 parser index_item.2) in
  match index_item.1 with
  | 0%nat =>
      v <- int text;;
      Ok (update_in (u "fahrenheit") (u "highest") (VInt v) info)
  | 1%nat =>
      v <- int text;;
      Ok (update_in (u "celsius") (u "highest") (VInt v) info)
  | 2%nat =>
      v <- int text;;
      Ok (update_in (u "fahrenheit") (u "lowest") (VInt v) info)
  | _ =>
      v <- int text;;
      Ok (update_in (u "celsius") (u "lowest") (VInt v) info)
  end.

(** [row.first_child.last_child.text()] *)
Definition weather_day (parser : document) (row : node) : Res (list N) :=
  match first_child parser row with
  | Some cell =>
      match last_child parser cell with
      | Some label => Ok (text0 parser label)
      | None => Raise AttributeError
      end
  | None => Raise AttributeError
  end.

(** The dictionary [info] of one row. *)
Definition weather_info (parser : document) (row : node)
  : Res (gmap (list N) pyval) :=
  let info : gmap (list N) pyval :=
    <[u "celsius" := VDict ∅]> (<[u "fahrenheit" := VDict ∅]> ∅) in
  info <-
    match css_first parser (Some row) (u "td.Ta\(c\) img") with
    | Some weather =>
        alt <- attr_getitem (attributes parser weather) (u "alt");;
        src <- attr_getitem (attributes parser weather) (u "src");;
        Ok (<[u "weather" :=
                VDict (<[u "icon" := of_optional_str src]>
                         (<[u "text" := of_optional_str alt]> ∅))]> info)
    | None => Ok info
    end;;
  info <-
    match css_first parser (Some row) (u "td.D\(f\).Jc\(c\)") with
    | Some precipitation =>
        let img := first_child parser precipitation in
        percentage <-
          match last_child parser precipitation with
          | Some last => Ok (last_child parser last)
          | None => Raise AttributeError
          end;;
        icon <-
          match img with
          | Some img => attr_getitem (attributes parser img) (u "src")
          | None => Raise AttributeError
          end;;
        percentage <-
          match percentage with
          | Some p => Ok (text0 parser p)
          | None => Raise AttributeError
          end;;
        Ok (<[u "precipitation" :=
                VDict (<[u "percentage" := VStr percentage]>
                         (<[u "icon" := of_optional_str icon]> ∅))]> info)
    | None => Ok info
    end;;
  res_fold (weather_temp parser) info
           (enumerate (css parser (Some row)
                           (u "td.D\(f\).Jc\(fe\).Ta\(end\) dl dd"))).

(** Body of [for row in weather_table[:7]]. *)
Definition weather_row (parser : document) (data : gmap (list N) pyval)
    (row : node) : Res (gmap (list N) pyval) :=
  day <- weather_day parser row;;
  info <- weather_info parser row;;
  Ok (update_in (u "forecast") day (VDict info) data).

Definition forecast_selector : list N :=
  u "table[data-slk=" ++ dquote ++ u "sec:forecast;" ++ dquote ++ u "] tbody tr".

(** The dictionary [data] before validation. *)
Definition weather_collect (parser : document) : Res (gmap (list N) pyval) :=
  let data : gmap (list N) pyval := <[u "forecast" := VDict ∅]> ∅ in
  let data :=
    match css_first parser None (u "div.M\(10px\) h1") with
    | Some location => <[u "location" := VStr (text0 parser location)]> data
    | None => data
    end in
  let data :=
    match css_first parser None (u "h2.D\(b\)") with
    | Some country => <[u "country" := VStr (text0 parser country)]> data
    | None => data
    end in
  let data :=
    match css_first parser None (u "time") with
    | Some now => <[u "time" := VStr (text0 parser now)]> data
    | None => data
    end in
  data <-
    match css_first parser None (u ".celsius.celsius_D\(b\)") with
    | Some celsius =>
        v <- int (text0 parser celsius);;
        Ok (<[u "celsius" := VInt v]> data)
    | None => Ok data
    end;;
  data <-
    match css_first parser None (u ".fahrenheit") with
    | Some fahrenheit =>
        v <- int (text0 parser fahrenheit);;
        Ok (<[u "fahrenheit" := VInt v]> data)
    | None => Ok data
    end;;
  match css_first parser None (u "div#module-location-heading") with
  | Some weather =>
      data <-
        match css_first parser (Some weather) (u "img") with
        | Some img =>
            src <- attr_getitem (attributes parser img) (u "src");;
            Ok (<[u "weather_icon" := of_optional_str src]> data)
        | None => Ok data
        end;;
      let data :=
        match css_first parser (Some weather) (u "p") with
        | Some text => <[u "weather" := VStr (text0 parser text)]> data
        | None => data
        end in
      res_fold (weather_row parser) data
               (take 7 (css parser None forecast_selector))
  | None => Ok data
  end.

Definition weather (res : Response document) : Res WeatherInformation.t :=
  data <- weather_collect (body res);;
  WeatherInformation.validate data.

End Extractors.

(** *** [autocomplete] (core.py, lines 583-607) *)

Definition autocomplete (res : Response (Res pyval)) : Res pyval :=
  suggestions <- body res;;
  subscript_1 suggestions.

(** ** A reference implementation of the library interfaces

    Enough of [urllib.parse.urlsplit], [int], [json.loads] and of a parsed
    HTML tree with descendant selectors to run the extractors on fixtures.
    The statements about all pages do not depend on it. *)

Module Reference.

(** *** [urlsplit]

    The steps of CPython's [urlsplit]: leading control characters and
    spaces are dropped, tabs and newlines removed, then scheme, netloc,
    fragment and query are cut off in this order.  Of the checks on the
    host only the one on unbalanced brackets is included. *)

Fixpoint lstrip_while (f : N -> bool) (s : list N) : list N :=
  match s with
  | [] => []
  | c :: s' => if f c then lstrip_while f s' else s
  end.

Definition lstrip_c0 (s : list N) : list N :=
  lstrip_while (fun c => c <=? 32) s.

Definition remove_unsafe (s : list N) : list N :=
  filter (fun c => c <> 9 /\ c <> 10 /\ c <> 13) s.

Definition is_alpha (c : N) : bool :=
  in_range 65 90 c || in_range 97 122 c.
Definition is_digit (c : N) : bool := in_range 48 57 c.
Definition scheme_char (c : N) : bool :=
  is_alpha c || is_digit c || (c =? 43) || (c =? 45) || (c =? 46).
Definition lower (c : N) : N := if in_range 65 90 c then c + 32 else c.

(** The scheme and the text after its colon. *)
Definition split_scheme (url : list N) : list N * list N :=
  match break_on (u ":") url with
  | Some ((c :: _) as pre, rest) =>
      if is_alpha c && forallb scheme_char pre then (lower <$> pre, rest)
      else ([], url)
  | _ => ([], url)
  end.

(** The text before the first of the characters [stops], and the rest. *)
Fixpoint span_until (stops : list N) (s : list N) : list N * list N :=
  match s with
  | [] => ([], [])
  | c :: s' =>
      if bool_decide (c ∈ stops) then ([], s)
      else let r := span_until stops s' in (c :: r.1, r.2)
  end.

Definition py_urlsplit (url : list N) : Res SplitResult :=
  let url := remove_unsafe (lstrip_c0 url) in
  let '(scheme, url) := split_scheme url in
  located <-
    match url with
    | 47 :: 47 :: rest =>
        let r := span_until (u "/?#") rest in
        if xorb (contains (u "[") r.1) (contains (u "]") r.1)
        then Raise ValueError
        else Ok r
    | _ => Ok ([], url)
    end;;
  let '(netloc, url) := located in
  let '(url, fragment) :=
    match break_on (u "#") url with
    | Some r => r
    | None => (url, [])
    end in
  let '(url, query) :=
    match break_on (u "?") url with
    | Some r => r
    | None => (url, [])
    end in
  Ok {| scheme := scheme; netloc := netloc; path := url; query := query;
        fragment := fragment |}.

(** *** [int] on decimal text in ASCII: optional blanks around, an
    optional sign, digits with single underscores between them. *)

Definition is_space (c : N) : bool := in_range 9 13 c || (c =? 32).

Definition strip (s : list N) : list N :=
  reverse (lstrip_while is_space (reverse (lstrip_while is_space s))).

(** Digits read so far as [acc]; [after_digit] tells whether the last
    character was a digit, the only place where an underscore or the
    end may come. *)
Fixpoint digits (s : list N) (acc : Z) (after_digit : bool) : option Z :=
  match s with
  | [] => if after_digit then Some acc else None
  | c :: s' =>
      if is_digit c then digits s' (10 * acc + Z.of_N (c - 48))%Z true
      else if (c =? 95) && after_digit then digits s' acc false
      else None
  end.

Definition py_int (s : list N) : Res Z :=
  let r :=
    match strip s with
    | 45 :: ds => Z.opp <$> digits ds 0%Z false
    | 43 :: ds => digits ds 0%Z false
    | ds => digits ds 0%Z false
    end in
  match r with
  | Some z => Ok z
  | None => Raise ValueError
  end.

#[export] Instance pylib : PyLib := Build_PyLib py_urlsplit py_int.

(** *** A parsed page as a tree

    A node handle is the path of the node from the root (child indices).
    An edit inside a node leaves the paths of the nodes outside it as
    they are. *)

#[warnings="-register-all"]
Inductive tree :=
| Element (tag : list N) (attrs : list (list N * option (list N)))
          (children : list tree)
| TextNode (s : list N).

Definition children_of (t : tree) : list tree :=
  match t with
  | Element _ _ ch => ch
  | TextNode _ => []
  end.

Definition attrs_of (t : tree) : list (list N * option (list N)) :=
  match t with
  | Element _ a _ => a
  | TextNode _ => []
  end.

Fixpoint subtree (p : list nat) (t : tree) : option tree :=
  match p with
  | [] => Some t
  | i :: p' =>
      match children_of t !! i with
      | Some c => subtree p' c
      | None => None
      end
  end.

(** The tree with [f] applied to the node at path [p]. *)
Fixpoint edit_at (p : list nat) (f : tree -> tree) (t : tree) : tree :=
  match p with
  | [] => f t
  | i :: p' =>
      match t with
      | Element tag a ch => Element tag a (alter (edit_at p' f) i ch)
      | TextNode _ => t
      end
  end.

(** Every node in document order, with its path and its ancestors,
    nearest first. *)
Fixpoint walk (p : list nat) (ancestors : list tree) (t : tree)
  : list (list nat * tree * list tree) :=
  (p, t, ancestors) ::
  match t with
  | Element _ _ ch =>
      (fix go (i : nat) (l : list tree) :=
         match l with
         | [] => []
         | c :: l' => walk (p ++ [i]) (t :: ancestors) c ++ go (S i) l'
         end) 0%nat ch
  | TextNode _ => []
  end.

(** **** Selectors: compound selectors joined by the descendant
    combinator; a compound selector names a tag, an id, classes and
    attribute values.  A backslash takes the next character as it is. *)

Record compound := {
  sel_tag : option (list N);
  sel_id : option (list N);
  sel_classes : list (list N);
  sel_attrs : list (list N * list N)
}.

Inductive part :=
| PTag
| PClass
| PId
| PAttrName
| PAttrValue (name : list N).

Definition flush (k : part) (buf : list N) (c : compound) : compound :=
  let word := reverse buf in
  match k with
  | PTag =>
      match word with
      | [] => c
      | _ => {| sel_tag := Some word; sel_id := sel_id c;
                sel_classes := sel_classes c; sel_attrs := sel_attrs c |}
      end
  | PClass => {| sel_tag := sel_tag c; sel_id := sel_id c;
                 sel_classes := sel_classes c ++ [word];
                 sel_attrs := sel_attrs c |}
  | PId => {| sel_tag := sel_tag c; sel_id := Some word;
              sel_classes := sel_classes c; sel_attrs := sel_attrs c |}
  | PAttrName => c
  | PAttrValue name =>
      {| sel_tag := sel_tag c; sel_id := sel_id c;
         sel_classes := sel_classes c;
         sel_attrs := sel_attrs c ++ [(name, word)] |}
  end.

Fixpoint parse_compound (s : list N) (k : part) (buf : list N)
    (c : compound) : compound :=
  match s with
  | [] => flush k buf c
  | x :: s' =>
      if x =? 92 then
        match s' with
        | y :: s'' => parse_compound s'' k (y :: buf) c
        | [] => flush k buf c
        end
      else
        match k with
        | PAttrName =>
            if x =? 61 then parse_compound s' (PAttrValue (reverse buf)) [] c
            else parse_compound s' k (x :: buf) c
        | PAttrValue _ =>
            if x =? 93 then parse_compound s' PTag [] (flush k buf c)
            else if x =? 34 then parse_compound s' k buf c
            else parse_compound s' k (x :: buf) c
        | _ =>
            if x =? 46 then parse_compound s' PClass [] (flush k buf c)
            else if x =? 35 then parse_compound s' PId [] (flush k buf c)
            else if x =? 91 then parse_compound s' PAttrName [] (flush k buf c)
            else parse_compound s' k (x :: buf) c
        end
  end.

Definition parse_selector (q : list N) : list compound :=
  (fun w => parse_compound w PTag []
              {| sel_tag := None; sel_id := None; sel_classes := [];
                 sel_attrs := [] |})
    <$> filter (fun w => w <> []) (split (u " ") q).

Definition attr_of (t : tree) (name : list N) : option (list N) :=
  match list_find (fun kv => kv.1 = name) (attrs_of t) with
  | Some (_, (_, v)) => v
  | None => None
  end.

Definition classes_of (t : tree) : list (list N) :=
  match attr_of t (u "class") with
  | Some v => filter (fun w => w <> []) (split (u " ") v)
  | None => []
  end.

Definition matches (c : compound) (t : tree) : bool :=
  match t with
  | TextNode _ => false
  | Element tag _ _ =>
      match sel_tag c with
      | Some want => bool_decide (want = tag)
      | None => true
      end
      && match sel_id c with
         | Some want => bool_decide (attr_of t (u "id") = Some want)
         | None => true
         end
      && forallb (fun cl => bool_decide (cl ∈ classes_of t)) (sel_classes c)
      && forallb (fun kv => bool_decide (attr_of t kv.1 = Some kv.2))
                 (sel_attrs c)
  end.

(** The compound selectors [sel], last first, are met going up. *)
Fixpoint matches_up (ancestors : list tree) (sel : list compound) : bool :=
  match sel with
  | [] => true
  | c :: sel' =>
      match ancestors with
      | [] => false
      | a :: ancestors' =>
          (matches c a && matches_up ancestors' sel')
          || matches_up ancestors' sel
      end
  end.

Definition selected (sel : list compound) (t : tree) (ancestors : list tree)
  : bool :=
  match reverse sel with
  | [] => false
  | c :: sel' => matches c t && matches_up ancestors sel'
  end.

(** Is [p] the path of a node strictly below the node at [ctx]? *)
Definition below (ctx : option (list nat)) (p : list nat) : bool :=
  match ctx with
  | None => true
  | Some c => bool_decide (c `prefix_of` p) && negb (bool_decide (c = p))
  end.

Definition tree_css (d : tree) (ctx : option (list nat)) (q : list N)
  : list (list nat) :=
  let sel := parse_selector q in
  omap (fun x : list nat * tree * list tree =>
          if below ctx x.1.1 && selected sel x.1.2 x.2 then Some x.1.1
          else None)
       (walk [] [] d).

Definition tree_attributes (d : tree) (n : list nat)
  : gmap (list N) (option (list N)) :=
  match subtree n d with
  | Some t => list_to_map (attrs_of t)
  | None => ∅
  end.

Fixpoint texts_deep (t : tree) : list (list N) :=
  match t with
  | TextNode s => [s]
  | Element _ _ ch => flat_map texts_deep ch
  end.

Definition texts_shallow (t : tree) : list (list N) :=
  match t with
  | TextNode s => [s]
  | Element _ _ ch =>
      flat_map (fun c => match c with TextNode s => [s] | _ => [] end) ch
  end.

(** Every piece of text is followed by the separator and the last
    separator is cut off. *)
Definition tree_text (d : tree) (n : list nat) (deep : bool)
    (separator : list N) (strip_ : bool) : list N :=
  match subtree n d with
  | Some t =>
      let pieces := if deep then texts_deep t else texts_shallow t in
      let joined :=
        flat_map (fun s => (if strip_ then strip s else s) ++ separator)
                 pieces in
      take (length joined - length separator) joined
  | None => []
  end.

Definition tree_first_child (d : tree) (n : list nat) : option (list nat) :=
  match subtree n d with
  | Some (Element _ _ (_ :: _)) => Some (n ++ [0%nat])
  | _ => None
  end.

Definition tree_last_child (d : tree) (n : list nat) : option (list nat) :=
  match subtree n d with
  | Some (Element _ _ ((_ :: _) as ch)) => Some (n ++ [(length ch - 1)%nat])
  | _ => None
  end.

(** The nodes that replace [t] once the elements named in [tags] are
    unwrapped in it: an unwrapped element leaves its children in place. *)
Fixpoint unwrapped (tags : list (list N)) (t : tree) : list tree :=
  match t with
  | TextNode _ => [t]
  | Element tag a ch =>
      let ch' := flat_map (unwrapped tags) ch in
      if bool_decide (tag ∈ tags) then ch' else [Element tag a ch']
  end.

Definition tree_unwrap_tags (d : tree) (n : list nat) (tags : list (list N))
  : tree :=
  edit_at n (fun t =>
               match t with
               | Element tag a ch => Element tag a (flat_map (unwrapped tags) ch)
               | TextNode _ => t
               end) d.

#[export] Instance selectolax : Selectolax := {|
  document := tree;
  node := list nat;
  css := tree_css;
  attributes := tree_attributes;
  text := tree_text;
  first_child := tree_first_child;
  last_child := tree_last_child;
  unwrap_tags := tree_unwrap_tags
|}.

(** *** [json.loads] for documents without fractions, exponents and
    [\u] escapes; such documents are reported as not decodable. *)

Definition is_json_space (c : N) : bool :=
  (c =? 32) || (c =? 9) || (c =? 10) || (c =? 13).

Definition unescape (c : N) : option N :=
  if (c =? 34) || (c =? 92) || (c =? 47) then Some c
  else if c =? 98 then Some 8
  else if c =? 102 then Some 12
  else if c =? 110 then Some 10
  else if c =? 114 then Some 13
  else if c =? 116 then Some 9
  else None.

(** The text of a string literal after its opening quote. *)
Fixpoint json_string (s : list N) (acc : list N) : option (list N * list N) :=
  match s with
  | [] => None
  | c :: s' =>
      if c =? 34 then Some (reverse acc, s')
      else if c =? 92 then
        match s' with
        | e :: s'' =>
            match unescape e with
            | Some x => json_string s'' (x :: acc)
            | None => None
            end
        | [] => None
        end
      else if c <? 32 then None
      else json_string s' (c :: acc)
  end.

Fixpoint json_digits (s : list N) (acc : Z) : Z * list N :=
  match s with
  | c :: s' =>
      if is_digit c then json_digits s' (10 * acc + Z.of_N (c - 48))%Z
      else (acc, s)
  | [] => (acc, [])
  end.

(** An integer literal: no leading zero, nothing of a fraction or an
    exponent after it. *)
Definition json_int (s : list N) : option (Z * list N) :=
  match s with
  | c :: s' =>
      if is_digit c then
        let r := json_digits s 0%Z in
        let leading_zero := (c =? 48) && negb (bool_decide (length r.2 + 1 = length s)%nat) in
        match r.2 with
        | x :: _ =>
            if (x =? 46) || (x =? 101) || (x =? 69) || leading_zero then None
            else Some r
        | [] => if leading_zero then None else Some r
        end
      else None
  | [] => None
  end.

Fixpoint json_value (fuel : nat) (s : list N) : option (pyval * list N) :=
  match fuel with
  | O => None
  | S fuel' =>
      match lstrip_while is_json_space s with
      | 110 :: 117 :: 108 :: 108 :: rest => Some (VNone, rest)
      | 116 :: 114 :: 117 :: 101 :: rest => Some (VBool true, rest)
      | 102 :: 97 :: 108 :: 115 :: 101 :: rest => Some (VBool false, rest)
      | 34 :: rest =>
          match json_string rest [] with
          | Some (x, rest') => Some (VStr x, rest')
          | None => None
          end
      | 91 :: rest =>
          match lstrip_while is_json_space rest with
          | 93 :: rest' => Some (VList [], rest')
          | _ =>
              match json_items fuel' rest [] with
              | Some (xs, rest') => Some (VList xs, rest')
              | None => None
              end
          end
      | 123 :: rest =>
          match lstrip_while is_json_space rest with
          | 125 :: rest' => Some (VDict ∅, rest')
          | _ =>
              match json_members fuel' rest ∅ with
              | Some (d, rest') => Some (VDict d, rest')
              | None => None
              end
          end
      | 45 :: rest =>
          match json_int rest with
          | Some (z, rest') => Some (VInt (- z), rest')
          | None => None
          end
      | rest =>
          match json_int rest with
          | Some (z, rest') => Some (VInt z, rest')
          | None => None
          end
      end
  end
with json_items (fuel : nat) (s : list N) (acc : list pyval)
  : option (list pyval * list N) :=
  match fuel with
  | O => None
  | S fuel' =>
      match json_value fuel' s with
      | Some (x, rest) =>
          match lstrip_while is_json_space rest with
          | 44 :: rest' => json_items fuel' rest' (acc ++ [x])
          | 93 :: rest' => Some (acc ++ [x], rest')
          | _ => None
          end
      | None => None
      end
  end
with json_members (fuel : nat) (s : list N) (acc : gmap (list N) pyval)
  : option (gmap (list N) pyval * list N) :=
  match fuel with
  | O => None
  | S fuel' =>
      match lstrip_while is_json_space s with
      | 34 :: rest =>
          match json_string rest [] with
          | Some (k, rest) =>
              match lstrip_while is_json_space rest with
              | 58 :: rest =>
                  match json_value fuel' rest with
                  | Some (x, rest) =>
                      match lstrip_while is_json_space rest with
                      | 44 :: rest' => json_members fuel' rest' (<[k := x]> acc)
                      | 125 :: rest' => Some (<[k := x]> acc, rest')
                      | _ => None
                      end
                  | None => None
                  end
              | _ => None
              end
          | None => None
          end
      | _ => None
      end
  end.

(** Every call takes at least one character, so twice the length of
    the text (and two) is enough fuel. *)
Definition py_json_loads (s : list N) : Res pyval :=
  match json_value (2 * length s + 2) s with
  | Some (v, rest) =>
      match lstrip_while is_json_space rest with
      | [] => Ok v
      | _ => Raise JSONDecodeError
      end
  | None => Raise JSONDecodeError
  end.

#[export] Instance json : Json := Build_Json py_json_loads.

End Reference.

(** ** Fixtures *)

Module Fixtures.
Import Reference.

(** An element with valued attributes, and a text node. *)
Definition E (tag : string) (attrs : list (string * string))
    (children : list tree) : tree :=
  Element (u tag) ((fun kv => (u kv.1, Some (u kv.2))) <$> attrs) children.

Definition T (s : string) : tree := TextNode (u s).

Definition ok_response {B} (b : B) : Response B :=
  {| status_code := 200; body := b |}.

(** The response with status 200 whose body parses into [t]. *)
Definition page_response (t : tree) : Response (@document selectolax) :=
  ok_response t.

(** A redirect-wrapper URL as the result pages carry it, and a plain one. *)
Definition wrapped_url : list N :=
  u "https://r.search.yahoo.com/_ylt=Awr/RV=2/RE=17/RO=10/RU=https%3A%2F%2Fexample.com%2Fabc/RK=2/RS=xyz".

Definition plain_url : list N :=
  u "https://sg.search.yahoo.com/search?p=cocoa".

(** A redirect wrapper around a destination that has [RU=] in its query. *)
Definition wrapped_marker_url : list N :=
  u "https://r.search.yahoo.com/_ylt=Awr/RU=https%3A%2F%2Fa.example%2F%3FRU%3Dx/RK=2/RS=y".

Definition wrapped_also_try : list N :=
  u "https://r.search.yahoo.com/_ylt=Awr/RU=https%3A%2F%2Fsg.search.yahoo.com%2Fsearch%3Fp%3Dcocoa/RK=2/RS=x".

(** A result page with one "also try" link, one organic result, one
    related search and no card panel. *)
Definition search_page : tree :=
  E "html" [] [E "body" [] [
    E "ol" [("class", "cardReg searchTop")] [
      E "li" [] [E "div" [("class", "compDlink")] [
        E "ul" [] [E "li" [] [E "span" [] [
          Element (u "a") [(u "href", Some wrapped_also_try)] [T "cocoa"]]]]]]];
    E "ol" [("class", "reg searchCenterMiddle")] [
      E "li" [] [E "div" [("class", "dd algo algo-sr")] [
        E "div" [("class", "compTitle")] [
          E "h3" [] [
            Element (u "a") [(u "href", Some wrapped_url)]
                    [E "span" [] [T "example.com"]; T "Example"]]];
        E "div" [("class", "compText aAbs")] [
          E "p" [] [T " An "; E "b" [] [T "example"]; T " page "]]]]];
    E "ol" [("class", "scf reg searchCenterFooter")] [
      E "li" [] [E "table" [] [E "tbody" [] [E "tr" [] [E "td" [] [
        E "a" [("href", "https://sg.search.yahoo.com/search?p=dark+chocolate")]
          [T "dark "; E "b" [] [T "chocolate"]]]]]]]]]].

(** A page with none of the containers the extractors look for. *)
Definition blank_page : tree :=
  E "html" [] [E "body" [] [E "p" [] [T "Nothing here"]]].

Definition news_page (item : list tree) : tree :=
  E "html" [] [E "body" [] [
    E "div" [("id", "main")] [E "div" [("id", "web")] [
      E "ol" [] [E "li" [] [E "div" [("class", "dd NewsArticle")] [
        E "ul" [] [E "li" [] item]]]]]]]].

(** A news row in which none of the probed elements occurs. *)
Definition bare_news_page : tree := news_page [T "advertisement"].

(** A news row with a heading and nothing else. *)
Definition headline_news_page : tree :=
  news_page [
    E "h4" [] [E "a" [("href", "https://news.example.com/1")] [T "Headline"]]].

(** A news row with a heading and a relative-time label. *)
Definition timed_news_page : tree :=
  news_page [
    E "h4" [] [E "a" [("href", "https://news.example.com/1")] [T "Headline"]];
    E "span" [("class", "fc-2nd s-time")] [TextNode ([183; 32] ++ u "2 hours ago")]].

Definition degrees (n : string) : tree := TextNode (u n ++ [176]).

Definition forecast_row (day : string) (fh ch fl cl : string) : tree :=
  E "tr" [] [
    E "td" [] [E "span" [] [T day]];
    E "td" [("class", "Ta(c)")] [
      E "img" [("alt", "Sunny"); ("src", "https://s.yimg.com/sunny.png")] []];
    E "td" [("class", "D(f) Jc(c)")] [
      E "img" [("src", "https://s.yimg.com/rain.png")] [];
      E "dl" [] [E "dt" [] [T "Precipitation"]; E "dd" [] [T "10%"]]];
    E "td" [("class", "D(f) Jc(fe) Ta(end)")] [
      E "dl" [] [E "dd" [] [degrees fh]; E "dd" [] [degrees ch];
                 E "dd" [] [degrees fl]; E "dd" [] [degrees cl]]]].

(** A weather page with five forecast rows. *)
Definition weather_page : tree :=
  E "html" [] [E "body" [] [
    E "div" [("class", "M(10px)")] [E "h1" [] [T "Singapore"]];
    E "h2" [("class", "D(b)")] [T "Singapore"];
    E "time" [] [T "Mon, 3:00 pm"];
    E "div" [("id", "module-location-heading")] [
      E "img" [("src", "https://s.yimg.com/cloudy.png")] [];
      E "p" [] [T "Cloudy"];
      E "span" [("class", "celsius celsius_D(b)")] [T "31"];
      E "span" [("class", "fahrenheit")] [T "88"]];
    E "table" [("data-slk", "sec:forecast;")] [E "tbody" [] [
      forecast_row "Monday" "91" "33" "78" "26";
      forecast_row "Tuesday" "90" "32" "77" "25";
      forecast_row "Wednesday" "89" "31" "76" "24";
      forecast_row "Thursday" "88" "30" "75" "23";
      forecast_row "Friday" "87" "29" "74" "22"]]]].

(** What [search] returns on [search_page]. *)
Definition search_page_record : SearchResult.t :=
  {| SearchResult.also_try :=
       [{| AlsoTryItem.link := wrapped_also_try;
           AlsoTryItem.text := u "cocoa" |}];
     SearchResult.pages :=
       [{| PageResult.title := u "Example";
           PageResult.link := u "https://example.com/abc";
           PageResult.text := Some (u "An example page") |}];
     SearchResult.card :=
       Some {| CardResult.image := None; CardResult.heading := None;
               CardResult.text := None; CardResult.source := None |};
     SearchResult.related_searches :=
       [{| RelatedSearch.link :=
             u "https://sg.search.yahoo.com/search?p=dark+chocolate";
           RelatedSearch.text := u "dark chocolate" |}] |}.

Definition forecast_of (fh ch fl cl : Z) : WeatherForecast.t :=
  {| WeatherForecast.fahrenheit :=
       {| HighLowTemperature.highest := fh; HighLowTemperature.lowest := fl |};
     WeatherForecast.celsius :=
       {| HighLowTemperature.highest := ch; HighLowTemperature.lowest := cl |};
     WeatherForecast.weather :=
       {| WeatherForecastInner.text := u "Sunny";
          WeatherForecastInner.icon := u "https://s.yimg.com/sunny.png" |};
     WeatherForecast.precipitation :=
       {| Precipitation.icon := u "https://s.yimg.com/rain.png";
          Precipitation.percentage := u "10%" |} |}.

(** What [weather] returns on [weather_page]. *)
Definition weather_page_record : WeatherInformation.t :=
  {| WeatherInformation.location := u "Singapore";
     WeatherInformation.country := u "Singapore";
     WeatherInformation.time := u "Mon, 3:00 pm";
     WeatherInformation.celsius := 31;
     WeatherInformation.fahrenheit := 88;
     WeatherInformation.weather := u "Cloudy";
     WeatherInformation.weather_icon := u "https://s.yimg.com/cloudy.png";
     WeatherInformation.forecast :=
       list_to_map
         [(u "Monday", forecast_of 91 33 78 26);
          (u "Tuesday", forecast_of 90 32 77 25);
          (u "Wednesday", forecast_of 89 31 76 24);
          (u "Thursday", forecast_of 88 30 75 23);
          (u "Friday", forecast_of 87 29 74 22)] |}.

(** The document and [contents] of [search] on [search_page] when the
    card panel is looked up. *)
Definition search_page_after_pages
  : @document selectolax * gmap (list N) pyval :=
  Eval vm_compute in
    match search_pages (body (page_response search_page)) with
    | Ok st => st
    | Raise _ => (search_page, ∅)
    end.

(** The dictionary [search_news] builds for the row of [timed_news_page]. *)
Definition timed_news_row : gmap (list N) pyval :=
  <[u "time" := VStr (u "2 hours ago")]>
    (<[u "link" := VStr (u "https://news.example.com/1")]>
       (<[u "title" := VStr (u "Headline")]> ∅)).

(** Bodies of the suggestion endpoint, decoded. *)
Definition flat_suggestions : pyval :=
  VList [VStr (u "original"); VStr (u "sug1"); VStr (u "sug2")].

Definition nested_suggestions : pyval :=
  VList [VStr (u "original"); VList [VStr (u "sug1"); VStr (u "sug2")]].

(** A result page with a single result block whose heading holds
    [heading], and nothing else. *)
Definition result_page (heading : list tree) : tree :=
  E "html" [] [E "body" [] [
    E "ol" [("class", "reg searchCenterMiddle")] [
      E "li" [] [E "div" [("class", "dd algo algo-sr")] [
        E "div" [("class", "compTitle")] [E "h3" [] heading]]]]]].

Definition anchor (href : list N) (title : string) : tree :=
  Element (u "a") [(u "href", Some href)] [T title].

(** A result page of two blocks, the first without heading anchor. *)
Definition headless_search_page : tree :=
  E "html" [] [E "body" [] [
    E "ol" [("class", "reg searchCenterMiddle")] [
      E "li" [] [E "div" [("class", "dd algo algo-sr")] [
        E "div" [("class", "compText aAbs")] [E "p" [] [T "Sponsored"]]]];
      E "li" [] [E "div" [("class", "dd algo algo-sr")] [
        E "div" [("class", "compTitle")] [
          E "h3" [] [anchor wrapped_url "Example"]]]]]]].

(** A page without result blocks whose card panel has a paragraph with a
    source anchor that has no [href]. *)
Definition card_page : tree :=
  E "html" [] [E "body" [] [
    E "ol" [("class", "reg searchCenterMiddle")] [];
    E "div" [("class", "cardReg searchRightTop")] [
      E "div" [("class", "compText")] [
        E "p" [] [T "Cocoa is a bean. "; E "a" [] [T "Wikipedia"]]]]]].

(** A news row with an image of the given attributes and a heading. *)
Definition pictured_news_page (img : list (list N * option (list N))) : tree :=
  news_page [
    Element (u "img") img [];
    E "h4" [] [E "a" [("href", "https://news.example.com/1")] [T "Headline"]]].

Definition pictured_news_record (thumbnail : option (list N))
  : NewsSearchResult.t :=
  {| NewsSearchResult.news :=
       [{| News.title := u "Headline"; News.thumbnail := thumbnail;
           News.source := None; News.last_updated := None;
           News.text := None |}] |}.

(** A video page with one item; [attrs] are the attributes of its anchor. *)
Definition video_page (attrs : list (list N * option (list N))) : tree :=
  E "html" [] [E "body" [] [
    E "div" [("id", "search")] [E "ul" [] [
      E "li" [("class", "vr vres")] [
        Element (u "a") attrs [T "play"];
        E "div" [("class", "v-meta")] [
          E "h3" [] [T "Autumn "; E "b" [] [T "song"]];
          E "cite" [] [T "youtube.com"]]]]]]].

(** The JSON documents [{"m": {"u": "https://preview.example/1.mp4"}}] and
    [{"m": {}}]. *)
Definition preview_json : list N :=
  u "{" ++ dquote ++ u "m" ++ dquote ++ u ": {" ++ dquote ++ u "u" ++ dquote
    ++ u ": " ++ dquote ++ u "https://preview.example/1.mp4" ++ dquote ++ u "}}".

Definition no_preview_json : list N :=
  u "{" ++ dquote ++ u "m" ++ dquote ++ u ": {}}".

Definition video_record (preview : option (list N)) : VideoSearchResult.t :=
  {| VideoSearchResult.videos :=
       [{| Video.age := None; Video.cite := Some (u "youtube.com");
           Video.thumbnail := None; Video.video_preview := preview;
           Video.title := u "Autumn song";
           Video.link :=
             u "https://sg.video.search.yahoo.com/video/play?vid=1" |}] |}.

(** A forecast row with any number of temperature cells, and a weather
    page with a single row of five. *)
Definition forecast_row_of (day : string) (cells : list string) : tree :=
  E "tr" [] [
    E "td" [] [E "span" [] [T day]];
    E "td" [("class", "Ta(c)")] [
      E "img" [("alt", "Sunny"); ("src", "https://s.yimg.com/sunny.png")] []];
    E "td" [("class", "D(f) Jc(c)")] [
      E "img" [("src", "https://s.yimg.com/rain.png")] [];
      E "dl" [] [E "dt" [] [T "Precipitation"]; E "dd" [] [T "10%"]]];
    E "td" [("class", "D(f) Jc(fe) Ta(end)")] [
      E "dl" [] ((fun c => E "dd" [] [degrees c]) <$> cells)]].

Definition long_row_weather_page : tree :=
  E "html" [] [E "body" [] [
    E "div" [("class", "M(10px)")] [E "h1" [] [T "Singapore"]];
    E "h2" [("class", "D(b)")] [T "Singapore"];
    E "time" [] [T "Mon, 3:00 pm"];
    E "div" [("id", "module-location-heading")] [
      E "img" [("src", "https://s.yimg.com/cloudy.png")] [];
      E "p" [] [T "Cloudy"];
      E "span" [("class", "celsius celsius_D(b)")] [T "31"];
      E "span" [("class", "fahrenheit")] [T "88"]];
    E "table" [("data-slk", "sec:forecast;")] [E "tbody" [] [
      forecast_row_of "Monday" ["91"; "33"; "78"; "26"; "25"]%string]]]].

Definition long_row_weather_record : WeatherInformation.t :=
  {| WeatherInformation.location := u "Singapore";
     WeatherInformation.country := u "Singapore";
     WeatherInformation.time := u "Mon, 3:00 pm";
     WeatherInformation.celsius := 31;
     WeatherInformation.fahrenheit := 88;
     WeatherInformation.weather := u "Cloudy";
     WeatherInformation.weather_icon := u "https://s.yimg.com/cloudy.png";
     WeatherInformation.forecast :=
       list_to_map [(u "Monday", forecast_of 91 33 78 25)] |}.

(** A page without result blocks whose card panel holds an image of the
    given attributes and nothing else. *)
Definition pictured_card_page (img : list (list N * option (list N))) : tree :=
  E "html" [] [E "body" [] [
    E "ol" [("class", "reg searchCenterMiddle")] [];
    E "div" [("class", "cardReg searchRightTop")] [Element (u "img") img []]]].

(** A result page with two "also try" links, two organic results (the
    second with two heading anchors) and two related searches. *)
Definition two_results_page : tree :=
  E "html" [] [E "body" [] [
    E "ol" [("class", "cardReg searchTop")] [
      E "li" [] [E "div" [("class", "compDlink")] [
        E "ul" [] [
          E "li" [] [E "span" [] [
            Element (u "a") [(u "href", Some wrapped_also_try)] [T "cocoa"]]];
          E "li" [] [E "span" [] [
            Element (u "a") [(u "href", Some plain_url)] [T "cacao"]]]]]]];
    E "ol" [("class", "reg searchCenterMiddle")] [
      E "li" [] [E "div" [("class", "dd algo algo-sr")] [
        E "div" [("class", "compTitle")] [
          E "h3" [] [anchor wrapped_url "Example"]];
        E "div" [("class", "compText aAbs")] [
          E "p" [] [T " An "; E "b" [] [T "example"]; T " page "]]]];
      E "li" [] [E "div" [("class", "dd algo algo-sr")] [
        E "div" [("class", "compTitle")] [
          E "h3" [] [anchor wrapped_url "Badge";
                     anchor wrapped_also_try "Cocoa search"]]]]];
    E "ol" [("class", "scf reg searchCenterFooter")] [
      E "li" [] [E "table" [] [E "tbody" [] [E "tr" [] [
        E "td" [] [
          E "a" [("href", "https://sg.search.yahoo.com/search?p=dark+chocolate")]
            [T "dark "; E "b" [] [T "chocolate"]]];
        E "td" [] [
          E "a" [("href", "https://sg.search.yahoo.com/search?p=milk+chocolate")]
            [T "milk "; E "b" [] [T "chocolate"]]]]]]]]]].

(** What [search] returns on [two_results_page]. *)
Definition two_results_record : SearchResult.t :=
  {| SearchResult.also_try :=
       [{| AlsoTryItem.link := wrapped_also_try;
           AlsoTryItem.text := u "cocoa" |};
        {| AlsoTryItem.link := plain_url; AlsoTryItem.text := u "cacao" |}];
     SearchResult.pages :=
       [{| PageResult.title := u "Example";
           PageResult.link := u "https://example.com/abc";
           PageResult.text := Some (u "An example page") |};
        {| PageResult.title := u "Cocoa search";
           PageResult.link := u "https://sg.search.yahoo.com/search?p=cocoa";
           PageResult.text := None |}];
     SearchResult.card :=
       Some {| CardResult.image := None; CardResult.heading := None;
               CardResult.text := None; CardResult.source := None |};
     SearchResult.related_searches :=
       [{| RelatedSearch.link :=
             u "https://sg.search.yahoo.com/search?p=dark+chocolate";
           RelatedSearch.text := u "dark chocolate" |};
        {| RelatedSearch.link :=
             u "https://sg.search.yahoo.com/search?p=milk+chocolate";
           RelatedSearch.text := u "milk chocolate" |}] |}.

(** A news page with two rows: the first with a thumbnail, a source and a
    description, the second with a heading alone. *)
Definition two_news_page : tree :=
  E "html" [] [E "body" [] [
    E "div" [("id", "main")] [E "div" [("id", "web")] [
      E "ol" [] [E "li" [] [E "div" [("class", "dd NewsArticle")] [
        E "ul" [] [
          E "li" [] [
            E "img" [("src", "https://s.yimg.com/t.jpg")] [];
            E "h4" [] [E "a" [("href", "https://news.example.com/1")]
                         [T "First headline"]];
            E "span" [("class", "s-source")] [T "Example News"];
            E "p" [("class", "s-desc")] [T "A "; E "b" [] [T "short"]; T " story"]];
          E "li" [] [
            E "h4" [] [E "a" [("href", "https://news.example.com/2")]
                         [T "Second headline"]]]]]]]]]]].

(** What [search_news] returns on [two_news_page]. *)
Definition two_news_record : NewsSearchResult.t :=
  {| NewsSearchResult.news :=
       [{| News.title := u "First headline";
           News.thumbnail := Some (u "https://s.yimg.com/t.jpg");
           News.source := Some (u "Example News");
           News.last_updated := None;
           News.text := Some (u "A short story") |};
        {| News.title := u "Second headline"; News.thumbnail := None;
           News.source := None; News.last_updated := None;
           News.text := None |}] |}.

(** A video page with two items, the second with a thumbnail and an age
    label. *)
Definition two_videos_page : tree :=
  E "html" [] [E "body" [] [
    E "div" [("id", "search")] [E "ul" [] [
      E "li" [("class", "vr vres")] [
        E "a" [("href", "/video/play?vid=1")] [T "play"];
        E "div" [("class", "v-meta")] [
          E "h3" [] [T "Autumn "; E "b" [] [T "song"]];
          E "cite" [] [T "youtube.com"]]];
      E "li" [("class", "vr vres")] [
        E "a" [("href", "/video/play?vid=2")] [
          E "img" [("src", "https://s.yimg.com/v2.jpg")] []];
        E "div" [("class", "v-meta")] [
          E "h3" [] [T "Winter song"];
          E "div" [("class", "v-age")] [T "2 years ago"];
          E "cite" [] [T "vimeo.com"]]]]]]].

(** What [search_videos] returns on [two_videos_page]. *)
Definition two_videos_record : VideoSearchResult.t :=
  {| VideoSearchResult.videos :=
       [{| Video.age := None; Video.cite := Some (u "youtube.com");
           Video.thumbnail := None; Video.video_preview := None;
           Video.title := u "Autumn song";
           Video.link :=
             u "https://sg.video.search.yahoo.com/video/play?vid=1" |};
        {| Video.age := Some (u "2 years ago");
           Video.cite := Some (u "vimeo.com");
           Video.thumbnail := Some (u "https://s.yimg.com/v2.jpg");
           Video.video_preview := None;
           Video.title := u "Winter song";
           Video.link :=
             u "https://sg.video.search.yahoo.com/video/play?vid=2" |}] |}.

End Fixtures.

(** ** Where an entry comes from *)

Definition temperature_selector : list N :=
  u "td.D\(f\).Jc\(fe\).Ta\(end\) dl dd".

Definition also_try_selector : list N :=
  u "ol.cardReg.searchTop .compDlink li span a".
Definition related_selector : list N :=
  u "ol.scf.reg.searchCenterFooter tbody tr td a".

Section EntryOrigin.
Context `{PyLib} `{Selectolax} `{Json}.

(** [s] is the destination decoded from the attribute value [href]: the
    empty string for a missing or empty value; otherwise the path of the
    link holds a first marker [RU=], followed by a segment [seg] without
    marker and without slash that ends where the path ends or where the
    next slash or marker begins, and [s] is [seg] percent-decoded. *)
Definition decoded_destination (href : option (list N)) (s : list N) : Prop :=
  ((href = None \/ href = Some []) /\ s = [])
  \/ exists (link : list N) (parts : SplitResult) (pre seg post : list N),
       href = Some link
       /\ link <> []
       /\ urlsplit link = Ok parts
       /\ path parts = pre ++ u "RU=" ++ seg ++ post
       /\ contains (u "RU=") pre = false
       /\ contains (u "RU=") seg = false
       /\ contains (u "/") seg = false
       /\ (post = []
           \/ (exists rest, post = u "/" ++ rest)
           \/ (exists rest, post = u "RU=" ++ rest))
       /\ s = unquote seg.

(** [s] is decoded from the [href] of the last heading anchor of the
    result block [block], as the document [parser] has them. *)
Definition page_link (parser : document) (block : node) (s : list N) : Prop :=
  exists (a : node) (href : option (list N)),
    last (css parser (Some block) (u "div.compTitle h3 a")) = Some a
    /\ attributes parser a !! u "href" = Some href
    /\ decoded_destination href s.

(** [title.last_child.text() if title.last_child else ""] *)
Definition heading_text (parser : document) (a : node) : list N :=
  match last_child parser a with
  | Some c => text0 parser c
  | None => []
  end.

(** The dictionary [d] of a result block holds the link and the title of
    the block's last heading anchor, and neither when the block has no
    heading anchor. *)
Definition page_entry (parser : document) (block : node)
    (d : gmap (list N) pyval) : Prop :=
  match last (css parser (Some block) (u "div.compTitle h3 a")) with
  | Some a =>
      exists (href : option (list N)) (s : list N),
        attributes parser a !! u "href" = Some href
        /\ get_abs_link href = Ok s
        /\ d !! u "link" = Some (VStr s)
        /\ d !! u "title" = Some (VStr (heading_text parser a))
  | None => d !! u "link" = None /\ d !! u "title" = None
  end.

(** The states of a run of [search] on [page]: [st] holds the document
    and [contents] when the two lists of anchors are read, after the
    result blocks and the card panel; [contents] is the dictionary after
    the loop over the "also try" anchors, with which the loop over the
    related searches starts. *)
Definition search_lists (page : document)
    (st : document * gmap (list N) pyval) (contents : gmap (list N) pyval)
  : Prop :=
  exists st0,
    search_pages page = Ok st0
    /\ match css_first st0.1 None (u ".cardReg.searchRightTop") with
       | Some card => search_card st0 card
       | None => Ok st0
       end = Ok st
    /\ res_fold (search_also_try st.1) st.2 (css st.1 None also_try_selector)
       = Ok contents.

(** The links of [r] by position: the [i]-th page has the link decoded
    from the last heading anchor of the [i]-th result block, read in the
    document as the loop over the blocks reaches it; the [i]-th "also try"
    item and the [i]-th related search have the [href] of the [i]-th
    anchor of their lists, read when the anchor is processed. *)
Definition links_by_position (page : document) (r : SearchResult.t) : Prop :=
  exists (middle : node) (st : document * gmap (list N) pyval)
         (contents : gmap (list N) pyval),
    css_first page None (u ".reg.searchCenterMiddle") = Some middle
    /\ search_lists page st contents
    /\ length (SearchResult.pages r)
       = length (css page (Some middle) (u ".dd.algo.algo-sr"))
    /\ (forall (i : nat) (block : node) (p : PageResult.t),
          css page (Some middle) (u ".dd.algo.algo-sr") !! i = Some block ->
          SearchResult.pages r !! i = Some p ->
          exists sti,
            res_fold search_webpage (page, search_contents)
                     (take i (css page (Some middle) (u ".dd.algo.algo-sr")))
            = Ok sti
            /\ page_link sti.1 block (PageResult.link p))
    /\ length (SearchResult.also_try r)
       = length (css st.1 None also_try_selector)
    /\ (forall (i : nat) (a : node) (e : AlsoTryItem.t),
          css st.1 None also_try_selector !! i = Some a ->
          SearchResult.also_try r !! i = Some e ->
          attributes st.1 a !! u "href" = Some (Some (AlsoTryItem.link e)))
    /\ length (SearchResult.related_searches r)
       = length (css st.1 None related_selector)
    /\ (forall (i : nat) (a : node) (e : RelatedSearch.t),
          css st.1 None related_selector !! i = Some a ->
          SearchResult.related_searches r !! i = Some e ->
          exists sti,
            res_fold search_related (st.1, contents)
                     (take i (css st.1 None related_selector)) = Ok sti
            /\ attributes (clean_text sti.1 a).1 a !! u "href"
               = Some (Some (RelatedSearch.link e))).

(** The titles and texts of [r] by position, read in the same states. *)
Definition texts_by_position (page : document) (r : SearchResult.t) : Prop :=
  exists (middle : node) (st : document * gmap (list N) pyval)
         (contents : gmap (list N) pyval),
    css_first page None (u ".reg.searchCenterMiddle") = Some middle
    /\ search_lists page st contents
    /\ length (SearchResult.pages r)
       = length (css page (Some middle) (u ".dd.algo.algo-sr"))
    /\ (forall (i : nat) (block : node) (p : PageResult.t),
          css page (Some middle) (u ".dd.algo.algo-sr") !! i = Some block ->
          SearchResult.pages r !! i = Some p ->
          exists sti a,
            res_fold search_webpage (page, search_contents)
                     (take i (css page (Some middle) (u ".dd.algo.algo-sr")))
            = Ok sti
            /\ last (css sti.1 (Some block) (u "div.compTitle h3 a")) = Some a
            /\ PageResult.title p = heading_text sti.1 a)
    /\ length (SearchResult.also_try r)
       = length (css st.1 None also_try_selector)
    /\ (forall (i : nat) (a : node) (e : AlsoTryItem.t),
          css st.1 None also_try_selector !! i = Some a ->
          SearchResult.also_try r !! i = Some e ->
          AlsoTryItem.text e = text0 st.1 a)
    /\ length (SearchResult.related_searches r)
       = length (css st.1 None related_selector)
    /\ (forall (i : nat) (a : node) (e : RelatedSearch.t),
          css st.1 None related_selector !! i = Some a ->
          SearchResult.related_searches r !! i = Some e ->
          exists sti,
            res_fold search_related (st.1, contents)
                     (take i (css st.1 None related_selector)) = Ok sti
            /\ RelatedSearch.text e = (clean_text sti.1 a).2).

(** The record [n] holds what the news row [row] holds in the document
    [parser]: the text of its heading anchor, of its source label and of
    its description (cleaned), its thumbnail unless it is an inline
    placeholder, and no time. *)
Definition news_of (parser : document) (row : node) (n : News.t) : Prop :=
  (exists title,
     css_first parser (Some row) (u "h4 a") = Some title
     /\ News.title n = text0 parser title)
  /\ News.source n
     = text0 parser <$> css_first parser (Some row) (u "span.s-source")
  /\ News.text n
     = (fun d => (clean_text parser d).2)
         <$> css_first parser (Some row) (u "p.s-desc")
  /\ match css_first parser (Some row) (u "img") with
     | Some img =>
         exists src,
           attributes parser img !! u "src" = Some (Some src)
           /\ News.thumbnail n
              = if startswith (u "data:image/") src then None else Some src
     | None => News.thumbnail n = None
     end
  /\ News.last_updated n = None.

(** The records of [r] by position: the [i]-th record is the one of the
    [i]-th row, read in the document as the loop over the rows reaches
    it. *)
Definition news_by_position (page : document) (r : NewsSearchResult.t)
  : Prop :=
  exists container,
    css_first page None (u "#main #web") = Some container
    /\ length (NewsSearchResult.news r)
       = length (css page (Some container) (u "li .dd.NewsArticle li"))
    /\ forall (i : nat) (row : node) (n : News.t),
         css page (Some container) (u "li .dd.NewsArticle li") !! i = Some row ->
         NewsSearchResult.news r !! i = Some n ->
         exists sti,
           res_fold news_item (page, [])
                    (take i (css page (Some container)
                                 (u "li .dd.NewsArticle li"))) = Ok sti
           /\ news_of sti.1 row n.

(** The record [v] holds what the video item [item] holds in the document
    [parser]: the host followed by the [href] of its first anchor, the
    [src] of its first image, the cleaned text of the first child of its
    metadata block and, read after that cleaning, the age label and the
    text of the last child of the block. *)
Definition video_of (parser : document) (item : node) (v : Video.t) : Prop :=
  (exists a href,
     css_first parser (Some item) (u "a") = Some a
     /\ attributes parser a !! u "href" = Some (Some href)
     /\ Video.link v = u "https://sg.video.search.yahoo.com" ++ href)
  /\ match css_first parser (Some item) (u "img") with
     | Some img =>
         exists src, attributes parser img !! u "src" = Some src
                     /\ Video.thumbnail v = src
     | None => Video.thumbnail v = None
     end
  /\ exists metadata t,
       css_first parser (Some item) (u "div.v-meta") = Some metadata
       /\ first_child parser metadata = Some t
       /\ Video.title v = (clean_text parser t).2
       /\ Video.age v
          = text0 (clean_text parser t).1
              <$> css_first (clean_text parser t).1 (Some metadata) (u ".v-age")
       /\ Video.cite v
          = text0 (clean_text parser t).1
              <$> last_child (clean_text parser t).1 metadata.

Definition videos_by_position (page : document) (r : VideoSearchResult.t)
  : Prop :=
  VideoSearchResult.videos r <> []
  /\ length (VideoSearchResult.videos r)
     = length (css page None (u "#search li.vr.vres"))
  /\ forall (i : nat) (item : node) (v : Video.t),
       css page None (u "#search li.vr.vres") !! i = Some item ->
       VideoSearchResult.videos r !! i = Some v ->
       exists sti,
         res_fold video_item (page, [])
                  (take i (css page None (u "#search li.vr.vres"))) = Ok sti
         /\ video_of sti.1 item v.

End EntryOrigin.

(** * Properties *)

(** ** Strings *)

Lemma strip_prefix_Some (p s r : list N) :
  strip_prefix p s = Some r <-> s = p ++ r.
Proof.
  revert s; induction p as [|a p IH]; intros s; simpl.
  - split; [intros [= ->] | intros ->]; reflexivity.
  - destruct s as [|b s]; [split; discriminate|].
    destruct (N.eqb_spec a b) as [->|Hne].
    + rewrite IH. split; [intros ->; reflexivity | intros [= ->]; reflexivity].
    + split; [discriminate | intros [= -> _]; contradiction].
Qed.

Lemma strip_prefix_app (p x y r : list N) :
  strip_prefix p x = Some r -> strip_prefix p (x ++ y) = Some (r ++ y).
Proof.
  rewrite !strip_prefix_Some. intros ->. by rewrite <-!app_assoc.
Qed.

Lemma break_on_Some (sep s a b : list N) :
  break_on sep s = Some (a, b) -> s = a ++ sep ++ b.
Proof.
  revert a; induction s as [|c s IH]; intros a; simpl.
  - destruct (strip_prefix sep []) eqn:E; [|discriminate].
    intros [= <- <-]. by apply strip_prefix_Some in E.
  - destruct (strip_prefix sep (c :: s)) eqn:E.
    + intros [= <- <-]. by apply strip_prefix_Some in E.
    + destruct (break_on sep s) as [[a' b']|]; [|discriminate].
      intros [= <- <-]. simpl. f_equal. by apply IH.
Qed.

Lemma break_on_nil (sep : list N) : sep <> [] -> break_on sep [] = None.
Proof. destruct sep; [congruence | reflexivity]. Qed.

Lemma break_on_shorter (sep s a b : list N) :
  sep <> [] -> break_on sep s = Some (a, b) -> (length b < length s)%nat.
Proof.
  intros Hsep Hb. apply break_on_Some in Hb as ->.
  rewrite !length_app. destruct sep; [congruence | simpl; lia].
Qed.

(** What stands before the leftmost separator holds no separator. *)
Lemma break_on_before (sep s a b : list N) :
  sep <> [] -> break_on sep s = Some (a, b) -> break_on sep a = None.
Proof.
  intros Hsep. revert a; induction s as [|c s IH]; intros a; simpl.
  - destruct (strip_prefix sep []); [|discriminate].
    intros [= <- _]. by apply break_on_nil.
  - destruct (strip_prefix sep (c :: s)) eqn:E.
    + intros [= <- _]. by apply break_on_nil.
    + destruct (break_on sep s) as [[a' b']|] eqn:Hb; [|discriminate].
      intros [= <- <-]. simpl.
      destruct (strip_prefix sep (c :: a')) eqn:E'.
      * apply break_on_Some in Hb as ->.
        apply (strip_prefix_app _ _ (sep ++ b')) in E'.
        simpl in E'. congruence.
      * by rewrite (IH a').
Qed.

Lemma break_on_app_None (sep x y : list N) :
  break_on sep (x ++ y) = None -> break_on sep x = None.
Proof.
  induction x as [|c x IH]; simpl.
  - destruct sep; simpl; [|reflexivity].
    destruct y; simpl; discriminate.
  - destruct (strip_prefix sep (c :: x ++ y)) eqn:E; [discriminate|].
    destruct (break_on sep (x ++ y)) as [[a b]|] eqn:Hb; [discriminate|].
    intros _. destruct (strip_prefix sep (c :: x)) eqn:E'.
    + apply (strip_prefix_app _ _ y) in E'. simpl in E'. congruence.
    + by rewrite IH.
Qed.

Lemma before_prefix (sep s : list N) : exists rest, s = before sep s ++ rest.
Proof.
  unfold before. destruct (break_on sep s) as [[a b]|] eqn:E.
  - exists (sep ++ b). by apply break_on_Some.
  - exists []. by rewrite app_nil_r.
Qed.

Lemma before_free (sep s : list N) :
  sep <> [] -> contains sep (before sep s) = false.
Proof.
  intros Hsep. unfold contains, before.
  destruct (break_on sep s) as [[a b]|] eqn:E.
  - by rewrite (break_on_before _ _ _ _ Hsep E).
  - by rewrite E.
Qed.

Lemma before_split (sep s : list N) :
  before sep s = s \/ exists rest, s = before sep s ++ sep ++ rest.
Proof.
  unfold before. destruct (break_on sep s) as [[a b]|] eqn:Hb; [|by left].
  right. exists b. by apply break_on_Some.
Qed.

(** A prefix of a text without [sep] is without [sep]. *)
Lemma contains_prefix (sep x y : list N) :
  contains sep (x ++ y) = false -> contains sep x = false.
Proof.
  unfold contains. destruct (break_on sep (x ++ y)) eqn:E; [destruct p; discriminate|].
  intros _. by rewrite (break_on_app_None _ _ _ E).
Qed.

Lemma split_aux_enough (sep : list N) (fuel1 fuel2 : nat) (s : list N) :
  sep <> [] -> (length s <= fuel1)%nat -> (length s <= fuel2)%nat ->
  split_aux fuel1 sep s = split_aux fuel2 sep s.
Proof.
  intros Hsep. revert fuel2 s.
  induction fuel1 as [|fuel1 IH]; intros fuel2 s H1 H2.
  - destruct s; [|simpl in H1; lia].
    destruct fuel2; cbn [split_aux]; [reflexivity|]. by rewrite break_on_nil.
  - destruct fuel2 as [|fuel2].
    + destruct s; [|simpl in H2; lia]. cbn [split_aux]. by rewrite break_on_nil.
    + cbn [split_aux]. destruct (break_on sep s) as [[a b]|] eqn:E; [|reflexivity].
      pose proof (break_on_shorter _ _ _ _ Hsep E).
      f_equal. apply IH; lia.
Qed.

(** The fuel of [split] is enough: [split] cuts at the leftmost separator
    and goes on with the rest. *)
Lemma split_unfold (sep s : list N) :
  sep <> [] ->
  split sep s =
    match break_on sep s with
    | None => [s]
    | Some (a, b) => a :: split sep b
    end.
Proof.
  intros Hsep. unfold split.
  destruct s as [|c s]; cbn [length split_aux].
  - by rewrite break_on_nil.
  - destruct (break_on sep (c :: s)) as [[a b]|] eqn:E; [|reflexivity].
    pose proof (break_on_shorter _ _ _ _ Hsep E) as Hlt. simpl in Hlt.
    f_equal. apply split_aux_enough; [done|lia|done].
Qed.

Lemma split_head (sep s : list N) :
  sep <> [] -> getitem (split sep s) 0 = Ok (before sep s).
Proof.
  intros Hsep. rewrite split_unfold by done. unfold before.
  by destruct (break_on sep s) as [[a b]|].
Qed.

Lemma split_second (sep s : list N) :
  sep <> [] ->
  getitem (split sep s) 1 =
    match break_on sep s with
    | Some (_, b) => Ok (before sep b)
    | None => Raise IndexError
    end.
Proof.
  intros Hsep. rewrite split_unfold by done.
  destruct (break_on sep s) as [[a b]|]; [|reflexivity].
  unfold getitem. simpl. by apply split_head.
Qed.

(** The library models on small inputs. *)

Example split_marker :
  split (u "RU=") (u "aRU=bRU=RU=c") = [u "a"; u "b"; u ""; u "c"].
Proof. reflexivity. Qed.

Example split_no_separator : split (u "/") (u "") = [u ""].
Proof. reflexivity. Qed.

Example unquote_ascii :
  unquote (u "https%3A%2F%2Fexample.com%2Fabc") = u "https://example.com/abc".
Proof. reflexivity. Qed.

(** Three escaped bytes that encode U+4E2D; a truncated sequence gives one
    U+FFFD; an escape without two hexadecimal digits stays as it is. *)
Example unquote_utf8 :
  unquote (u "%E4%B8%ADa%E4%B8b%zz%4")
  = [20013; 97; 65533; 98; 37; 122; 122; 37; 52].
Proof. reflexivity. Qed.

Example urlsplit_parts :
  Reference.py_urlsplit (u " HTTP://a.b/c/d?x=1#f")
  = Ok {| scheme := u "http"; netloc := u "a.b"; path := u "/c/d";
          query := u "x=1"; fragment := u "f" |}.
Proof. reflexivity. Qed.

Example urlsplit_bracket : Reference.py_urlsplit (u "http://[abc/x") = Raise ValueError.
Proof. reflexivity. Qed.

Example int_examples :
  Reference.py_int (u " -1_0 ") = Ok (-10)%Z
  /\ Reference.py_int (u "12" ++ [176]) = Raise ValueError
  /\ Reference.py_int (slice_to_minus1 (u "12" ++ [176])) = Ok 12%Z.
Proof. repeat split. Qed.

Ltac literal_neq := cbv; discriminate.

(** Replace the literals [u "..."] of the goal by their code points. *)
Ltac compute_literals :=
  repeat match goal with
         | |- context [u ?s] =>
             let v := eval vm_compute in (u s) in change (u s) with v
         end.

(** ** [get_abs_link] *)

(** The outcome of [get_abs_link] in closed form: the text after the
    leftmost marker, up to the next marker or slash, percent-decoded. *)
Lemma get_abs_link_outcome `{PyLib} (r_search_link : option (list N)) :
  get_abs_link r_search_link =
    match r_search_link with
    | None => Ok []
    | Some [] => Ok []
    | Some link =>
        match urlsplit link with
        | Raise e => Raise e
        | Ok parts =>
            match break_on (u "RU=") (path parts) with
            | None => Raise IndexError
            | Some (_, after) =>
                Ok (unquote (before (u "/") (before (u "RU=") after)))
            end
        end
    end.
Proof.
  destruct r_search_link as [[|c link]|]; try reflexivity.
  unfold get_abs_link. destruct (urlsplit (c :: link)) as [parts|e]; [|reflexivity].
  cbn [res_bind]. rewrite split_second by literal_neq.
  destruct (break_on (u "RU=") (path parts)) as [[a b]|]; [|reflexivity].
  cbn [res_bind]. rewrite split_head by literal_neq. reflexivity.
Qed.

(** C2, as the code has it: [get_abs_link] gives the empty string for an
    absent or empty link; for any other link whose path [urlsplit] returns,
    it gives a result when the path holds the marker [RU=] and raises
    [IndexError] when it does not. *)
Theorem get_abs_link_raises_without_marker `{PyLib} :
  get_abs_link None = Ok [] /\
  get_abs_link (Some []) = Ok [] /\
  forall (link : list N) (parts : SplitResult),
    link <> [] -> urlsplit link = Ok parts ->
    if contains (u "RU=") (path parts)
    then exists s, get_abs_link (Some link) = Ok s
    else get_abs_link (Some link) = Raise IndexError.
Proof.
  split; [reflexivity|]. split; [reflexivity|].
  intros link parts Hne Hsplit. rewrite get_abs_link_outcome.
  destruct link; [congruence|]. rewrite Hsplit. unfold contains.
  destruct (break_on (u "RU=") (path parts)) as [[a b]|]; eauto.
Qed.

Lemma get_abs_link_raises_without_marker_witness :
  @get_abs_link Reference.pylib (Some Fixtures.plain_url) = Raise IndexError.
Proof.
  destruct (@get_abs_link_raises_without_marker Reference.pylib) as (_ & _ & Hw).
  refine (Hw Fixtures.plain_url
             {| scheme := u "https"; netloc := u "sg.search.yahoo.com";
                path := u "/search"; query := u "p=cocoa"; fragment := [] |}
             _ _).
  - discriminate.
  - reflexivity.
Defined.

(** C2 as stated fails: a link without the marker in its path makes
    [get_abs_link] raise. *)
Lemma get_abs_link_can_raise :
  ~ (forall link : option (list N),
       exists s, @get_abs_link Reference.pylib link = Ok s).
Proof.
  intros Hall. destruct (Hall (Some Fixtures.plain_url)) as [s Hs].
  vm_compute in Hs. discriminate.
Qed.

(** Where the marker starts right after [pre] and [pre] holds none, the
    leftmost marker is that one. *)
Lemma break_on_marker (pre rest : list N) :
  contains (u "RU=") pre = false ->
  break_on (u "RU=") (pre ++ u "RU=" ++ rest) = Some (pre, rest).
Proof.
  unfold contains. induction pre as [|c pre IH]; intros Hfree.
  - reflexivity.
  - cbn [break_on app] in *.
    destruct (strip_prefix (u "RU=") (c :: pre)) eqn:E; [discriminate|].
    destruct (break_on (u "RU=") pre) as [[a b]|] eqn:Hb; [discriminate|].
    rewrite (IH eq_refl).
    destruct (strip_prefix (u "RU=") (c :: pre ++ u "RU=" ++ rest)) eqn:E';
      [|reflexivity].
    exfalso. apply strip_prefix_Some in E'.
    change (u "RU=") with [82; 85; 61] in E, E'.
    destruct pre as [|c1 [|c2 pre]]; simpl in E'; simplify_eq.
Qed.

(** The segment of the example ends at the slash before [RK=], wherever
    the next marker is. *)
Lemma example_segment (rest : list N) :
  before (u "/")
    (before (u "RU=") (u "https%3A%2F%2Fexample.com%2Fabc/RK=" ++ rest))
  = u "https%3A%2F%2Fexample.com%2Fabc".
Proof.
  unfold before at 2. compute_literals. cbn.
  destruct (break_on [82; 85; 61] rest) as [[a b]|]; reflexivity.
Qed.

(** C3, as the code has it: the path is cut at the first slash after the
    marker before it is decoded, so the escaped slashes stay in the result.
    For a link whose path holds [RU=https%3A%2F%2Fexample.com%2Fabc/RK=]
    as its first marker, [get_abs_link] returns
    ["https://example.com/abc"]. *)
Theorem get_abs_link_example `{PyLib} (link : list N) (parts : SplitResult)
    (pre rest : list N) :
  link <> [] ->
  urlsplit link = Ok parts ->
  path parts = pre ++ u "RU=https%3A%2F%2Fexample.com%2Fabc/RK=" ++ rest ->
  contains (u "RU=") pre = false ->
  get_abs_link (Some link) = Ok (u "https://example.com/abc").
Proof.
  intros Hne Hsplit Hpath Hfree. rewrite get_abs_link_outcome.
  destruct link; [congruence|]. rewrite Hsplit, Hpath.
  change (u "RU=https%3A%2F%2Fexample.com%2Fabc/RK=")
    with (u "RU=" ++ u "https%3A%2F%2Fexample.com%2Fabc/RK=").
  rewrite <- (app_assoc (u "RU=")). rewrite break_on_marker by done.
  rewrite example_segment. reflexivity.
Qed.

Lemma get_abs_link_example_witness :
  @get_abs_link Reference.pylib (Some Fixtures.wrapped_url)
  = Ok (u "https://example.com/abc").
Proof.
  refine (@get_abs_link_example Reference.pylib Fixtures.wrapped_url
            {| scheme := u "https"; netloc := u "r.search.yahoo.com";
               path := u "/_ylt=Awr/RV=2/RE=17/RO=10/RU=https%3A%2F%2Fexample.com%2Fabc/RK=2/RS=xyz";
               query := []; fragment := [] |}
            (u "/_ylt=Awr/RV=2/RE=17/RO=10/") (u "2/RS=xyz") _ _ _ _).
  - discriminate.
  - reflexivity.
  - reflexivity.
  - reflexivity.
Defined.

(** C3 as stated fails: the result keeps the decoded [/abc]. *)
Lemma get_abs_link_example_keeps_path :
  @get_abs_link Reference.pylib (Some Fixtures.wrapped_url)
    = Ok (u "https://example.com/abc")
  /\ @get_abs_link Reference.pylib (Some Fixtures.wrapped_url)
     <> Ok (u "https://example.com").
Proof. split; [vm_compute; reflexivity | vm_compute; discriminate]. Qed.

(** ** [autocomplete] *)

(** C4, as the code has it: [autocomplete] returns the second element of
    the decoded array as it is.  For the body [["original", ["sug1",
    "sug2"]]] that is the list of suggestions; for [["original", "sug1",
    "sug2"]] it is the string ["sug1"]. *)
Theorem autocomplete_second_element :
  (forall (status : Z) (first second : pyval) (rest : list pyval),
     autocomplete {| status_code := status;
                     body := Ok (VList (first :: second :: rest)) |}
     = Ok second)
  /\ autocomplete (Fixtures.ok_response (Ok Fixtures.nested_suggestions))
     = Ok (VList [VStr (u "sug1"); VStr (u "sug2")])
  /\ autocomplete (Fixtures.ok_response (Ok Fixtures.flat_suggestions))
     = Ok (VStr (u "sug1")).
Proof. repeat split. Qed.

(** C4 as stated fails on its own example. *)
Lemma autocomplete_flat_body :
  autocomplete (Fixtures.ok_response (Ok Fixtures.flat_suggestions))
  <> Ok (VList [VStr (u "sug1"); VStr (u "sug2")]).
Proof. vm_compute. discriminate. Qed.

(** ** Loops *)

Ltac bind_inv H :=
  repeat match type of H with
         | res_bind ?c _ = Ok _ =>
             let E := fresh "E" in
             destruct c eqn:E; cbn [res_bind] in H; [|discriminate H]
         end.

(** A property of the accumulator that every round keeps holds when the
    loop ends. *)
Lemma res_fold_invariant {A B} (P : A -> Prop) (f : A -> B -> Res A)
    (xs : list B) (acc r : A) :
  (forall a x a', x ∈ xs -> P a -> f a x = Ok a' -> P a') ->
  P acc -> res_fold f acc xs = Ok r -> P r.
Proof.
  revert acc. induction xs as [|x xs IH]; intros acc Hstep Hacc Hrun.
  - simpl in Hrun. by injection Hrun as <-.
  - simpl in Hrun. bind_inv Hrun.
    apply (IH a); [|by eapply Hstep; [left|..]|done].
    intros ? ? ? ?. apply Hstep. by right.
Qed.

(** What every round leaves unchanged is unchanged when the loop ends. *)
Lemma res_fold_preserved {A B C} (g : A -> C) (f : A -> B -> Res A)
    (xs : list B) (acc r : A) :
  (forall a x a', f a x = Ok a' -> g a' = g a) ->
  res_fold f acc xs = Ok r -> g r = g acc.
Proof.
  intros Hstep. revert acc. induction xs as [|x xs IH]; intros acc Hrun.
  - simpl in Hrun. by injection Hrun as <-.
  - simpl in Hrun. bind_inv Hrun. rewrite (IH _ Hrun). by eapply Hstep.
Qed.

Lemma res_fold_app {A B} (f : A -> B -> Res A) (xs ys : list B) (acc : A) :
  res_fold f acc (xs ++ ys) = (a <- res_fold f acc xs;; res_fold f a ys).
Proof.
  revert acc. induction xs as [|x xs IH]; intros acc; simpl; [reflexivity|].
  destruct (f acc x); simpl; [apply IH | reflexivity].
Qed.

Lemma fold_left_invariant {A B} (P : A -> Prop) (f : A -> B -> A)
    (xs : list B) (acc : A) :
  (forall a x, P a -> P (f a x)) -> P acc -> P (fold_left f xs acc).
Proof.
  intros Hstep. revert acc. induction xs as [|x xs IH]; intros acc Hacc; simpl.
  - done.
  - apply IH. by apply Hstep.
Qed.

Lemma res_map_Forall2 {A B} (f : A -> Res B) (xs : list A) (ys : list B) :
  res_map f xs = Ok ys -> Forall2 (fun x y => f x = Ok y) xs ys.
Proof.
  revert ys. induction xs as [|x xs IH]; intros ys Hmap; simpl in Hmap.
  - injection Hmap as <-. constructor.
  - bind_inv Hmap. injection Hmap as <-. constructor; auto.
Qed.

Lemma res_map_length {A B} (f : A -> Res B) (xs : list A) (ys : list B) :
  res_map f xs = Ok ys -> length ys = length xs.
Proof. intros Hm%res_map_Forall2. symmetry. by eapply Forall2_length. Qed.

(** A loop whose rounds each append one item to a list kept in the
    accumulator: the list grows by one item per element, and the item at
    the position of an element is the one its round appended, in the state
    the loop had reached then. *)
Lemma res_fold_indexed {A B C} (f : A -> B -> Res A) (out : A -> list C)
    (Inv : A -> Prop) (R : A -> B -> C -> Prop) (xs : list B) (acc r : A) :
  (forall a x a', Inv a -> f a x = Ok a' ->
     Inv a' /\ exists c, out a' = out a ++ [c] /\ R a x c) ->
  Inv acc -> res_fold f acc xs = Ok r ->
  exists l,
    out r = out acc ++ l
    /\ length l = length xs
    /\ forall i x, xs !! i = Some x ->
         exists a c, res_fold f acc (take i xs) = Ok a
                     /\ l !! i = Some c /\ R a x c.
Proof.
  intros Hstep. revert acc. induction xs as [|x xs IH]; intros acc Hacc Hrun.
  - injection Hrun as <-. exists []. rewrite app_nil_r. repeat split.
    intros i x Hx. by rewrite lookup_nil in Hx.
  - cbn [res_fold] in Hrun. bind_inv Hrun.
    destruct (Hstep _ _ _ Hacc E) as (Ha & c & Hout & Hc).
    destruct (IH _ Ha Hrun) as (l & Hl & Hlen & Hall).
    exists (c :: l). split; [|split].
    + by rewrite Hl, Hout, <- app_assoc.
    + cbn [length]. by rewrite Hlen.
    + intros [|i] y Hy.
      * injection Hy as <-. exists acc, c. by repeat split.
      * destruct (Hall i y Hy) as (a' & c' & Hrun' & Hc' & HR).
        exists a', c'. repeat split; [|done..].
        cbn [take res_fold]. by rewrite E.
Qed.

(** ** Dictionaries *)

Lemma append_in_other (k k' : list N) (v : pyval) (d : gmap (list N) pyval) :
  k <> k' -> append_in k v d !! k' = d !! k'.
Proof. intros Hne. unfold append_in. by rewrite lookup_alter_ne. Qed.

Lemma update_in_other (k k2 k' : list N) (v : pyval) (d : gmap (list N) pyval) :
  k <> k' -> update_in k k2 v d !! k' = d !! k'.
Proof. intros Hne. unfold update_in. by rewrite lookup_alter_ne. Qed.

Lemma update_in_same (k k2 : list N) (v : pyval) (d i : gmap (list N) pyval) :
  d !! k = Some (VDict i) ->
  update_in k k2 v d !! k = Some (VDict (<[k2 := v]> i)).
Proof. intros Hk. unfold update_in. by rewrite lookup_alter_eq, Hk. Qed.

Lemma append_in_same (k : list N) (v : pyval) (d : gmap (list N) pyval)
    (l : list pyval) :
  d !! k = Some (VList l) -> append_in k v d !! k = Some (VList (l ++ [v])).
Proof. intros Hk. unfold append_in. by rewrite lookup_alter_eq, Hk. Qed.

(** [if n: d.update({k0: f(n)})] *)
Lemma optional_insert_same {A} (o : option A) (k0 : list N) (f : A -> pyval)
    (d : gmap (list N) pyval) :
  match o with Some n => <[k0 := f n]> d | None => d end !! k0
  = match o with Some n => Some (f n) | None => d !! k0 end.
Proof. destruct o; [apply lookup_insert_eq | reflexivity]. Qed.

Lemma optional_insert_other {A} (o : option A) (k0 k : list N) (f : A -> pyval)
    (d : gmap (list N) pyval) :
  k0 <> k ->
  match o with Some n => <[k0 := f n]> d | None => d end !! k = d !! k.
Proof. intros Hk. destruct o; [by apply lookup_insert_ne | reflexivity]. Qed.

(** The same with a value that may fail to compute. *)
Lemma optional_step_inv {A B} (o : option A) (g : A -> Res B) (k0 : list N)
    (f : B -> pyval) (d d' : gmap (list N) pyval) :
  match o with
  | Some n => v <- g n;; Ok (<[k0 := f v]> d)
  | None => Ok d
  end = Ok d' ->
  d' !! k0 = match o with
             | Some n => match g n with Ok v => Some (f v) | Raise _ => None end
             | None => d !! k0
             end
  /\ forall k, k0 <> k -> d' !! k = d !! k.
Proof.
  destruct o as [n|]; intros Hstep.
  - destruct (g n) as [v|]; [|discriminate]. injection Hstep as <-.
    split; [apply lookup_insert_eq|].
    intros k Hk. by apply lookup_insert_ne.
  - by injection Hstep as <-.
Qed.

(** Look up a key in a dictionary built by insertions under literal keys. *)
Ltac dict_lookup :=
  repeat first [ rewrite lookup_insert_eq
               | rewrite lookup_insert_ne by literal_neq
               | rewrite lookup_empty ].

(** A set built from a list has at most as many elements as the list. *)
Lemma size_list_to_set_le (l : list (list N)) :
  (size (list_to_set l : gset (list N)) <= length l)%nat.
Proof.
  induction l as [|x l IH]; [done|].
  rewrite list_to_set_cons, size_union_alt, size_singleton. cbn [length].
  assert (list_to_set l ∖ {[x]} ⊆ (list_to_set l : gset (list N))) as Hsub
    by apply subseteq_difference_l, reflexivity.
  apply subseteq_size in Hsub. lia.
Qed.

(** ** Validation *)

Lemma required_str (d : gmap (list N) pyval) (k : string) (s : list N) :
  required v_str d k = Ok s -> d !! u k = Some (VStr s).
Proof.
  unfold required. destruct (d !! u k) as [[]|]; try discriminate.
  by intros [= ->].
Qed.

Lemma required_int (d : gmap (list N) pyval) (k : string) (z : Z) :
  required v_int d k = Ok z -> d !! u k = Some (VInt z).
Proof.
  unfold required. destruct (d !! u k) as [[]|]; try discriminate.
  by intros [= ->].
Qed.

(** The validated items of a list, position by position. *)
Lemma required_list_lookup {A} (validate : pyval -> Res A)
    (d : gmap (list N) pyval) (k : string) (l : list pyval) (items : list A) :
  d !! u k = Some (VList l) ->
  required (v_list validate) d k = Ok items ->
  length items = length l
  /\ forall i a, items !! i = Some a ->
       exists v, l !! i = Some v /\ validate v = Ok a.
Proof.
  intros Hk Hreq. unfold required in Hreq. rewrite Hk in Hreq.
  cbn [v_list] in Hreq. apply res_map_Forall2 in Hreq. split.
  - symmetry. by eapply Forall2_length.
  - intros i a Ha.
    destruct (Forall2_lookup_r _ _ _ _ _ Hreq Ha) as (v & Hv & Hva). eauto.
Qed.

(** An optional [str] field after validation. *)
Lemma optional_str_field (d : gmap (list N) pyval) (k : string)
    (x : option (list N)) :
  with_default (v_optional v_str) None d k = Ok x ->
  match d !! u k with
  | None | Some VNone => x = None
  | Some (VStr s) => x = Some s
  | Some _ => False
  end.
Proof.
  unfold with_default. destruct (d !! u k) as [[]|]; cbn; try discriminate;
    by intros [= <-].
Qed.

(** The entries of a validated [Dict] are the validated entries of the
    dictionary. *)
Lemma v_dict_entries {A} (key_ok : list N -> bool) (validate : pyval -> Res A)
    (d : gmap (list N) pyval) (m : gmap (list N) A) :
  v_dict key_ok validate (VDict d) = Ok m ->
  exists kvs,
    m = list_to_map kvs
    /\ kvs.*1 = (map_to_list d).*1
    /\ Forall2 (fun kv kv' => key_ok kv.1 = true /\ kv'.1 = kv.1
                              /\ validate kv.2 = Ok kv'.2)
               (map_to_list d) kvs.
Proof.
  cbn [v_dict]. intros Hv. bind_inv Hv. injection Hv as <-.
  exists a. split; [reflexivity|]. apply res_map_Forall2 in E.
  assert (Forall2 (fun kv kv' => key_ok kv.1 = true /\ kv'.1 = kv.1
                                 /\ validate kv.2 = Ok kv'.2)
                  (map_to_list d) a) as Hall.
  { induction E as [|kv kv' l l' Hkv _ IH]; constructor; [|done].
    unfold v_entry in Hkv. destruct (key_ok kv.1); [|discriminate].
    bind_inv Hkv. by injection Hkv as <-. }
  split; [|done]. clear E.
  induction Hall as [|kv kv' l l' (_ & Hk & _) _ IH]; [reflexivity|].
  cbn [fmap list_fmap]. by rewrite Hk, <- IH.
Qed.

Lemma v_dict_dom {A} (key_ok : list N -> bool) (validate : pyval -> Res A)
    (d : gmap (list N) pyval) (m : gmap (list N) A) :
  v_dict key_ok validate (VDict d) = Ok m -> dom m = dom d.
Proof.
  intros (kvs & -> & Hkeys & _)%v_dict_entries.
  rewrite dom_list_to_map_L, Hkeys, <- dom_list_to_map_L.
  by rewrite list_to_map_to_list.
Qed.

Lemma v_dict_keys {A} (key_ok : list N -> bool) (validate : pyval -> Res A)
    (d : gmap (list N) pyval) (m : gmap (list N) A) (k : list N) :
  v_dict key_ok validate (VDict d) = Ok m -> is_Some (m !! k) ->
  key_ok k = true.
Proof.
  intros Hv Hk. pose proof (v_dict_dom _ _ _ _ Hv) as Hdom.
  apply elem_of_dom in Hk. rewrite Hdom in Hk.
  apply elem_of_dom in Hk as [v Hk%elem_of_map_to_list].
  destruct (v_dict_entries _ _ _ _ Hv) as (kvs & _ & _ & Hall).
  apply list_elem_of_lookup in Hk as [i Hi].
  destruct (Forall2_lookup_l _ _ _ _ _ Hall Hi) as (kv' & _ & Hok & _).
  exact Hok.
Qed.

Lemma v_dict_lookup {A} (key_ok : list N -> bool) (validate : pyval -> Res A)
    (d : gmap (list N) pyval) (m : gmap (list N) A) (k : list N) (v : pyval) :
  v_dict key_ok validate (VDict d) = Ok m -> d !! k = Some v ->
  exists a, m !! k = Some a /\ validate v = Ok a.
Proof.
  intros (kvs & -> & Hkeys & Hall)%v_dict_entries Hk.
  apply elem_of_map_to_list, list_elem_of_lookup in Hk as [i Hi].
  destruct (Forall2_lookup_l _ _ _ _ _ Hall Hi) as ([k' a] & Hi' & _ & Hk' & Ha).
  cbn [fst snd] in Hk', Ha. subst k'. exists a. split; [|done].
  apply elem_of_list_to_map_1.
  - rewrite Hkeys. apply NoDup_fst_map_to_list.
  - apply list_elem_of_lookup. eauto.
Qed.

(** A validated search result, field by field. *)
Lemma SearchResult_validate_Ok (d : gmap (list N) pyval) (r : SearchResult.t) :
  SearchResult.validate d = Ok r ->
  required (v_list (v_model AlsoTryItem.validate)) d "also_try"
  = Ok (SearchResult.also_try r)
  /\ required (v_list (v_model PageResult.validate)) d "pages"
     = Ok (SearchResult.pages r)
  /\ with_default (v_optional (v_model CardResult.validate)) None d "card"
     = Ok (SearchResult.card r)
  /\ required (v_list (v_model RelatedSearch.validate)) d "related_searches"
     = Ok (SearchResult.related_searches r).
Proof.
  unfold SearchResult.validate. intros Hv. bind_inv Hv.
  by injection Hv as <-.
Qed.

Lemma CardResult_validate_empty :
  v_optional (v_model CardResult.validate) (VDict ∅)
  = Ok (Some {| CardResult.image := None; CardResult.heading := None;
                CardResult.text := None; CardResult.source := None |}).
Proof. vm_compute. reflexivity. Qed.

Lemma NewsSearchResult_validate_Ok (l : list pyval) (r : NewsSearchResult.t) :
  NewsSearchResult.validate (<[u "news" := VList l]> ∅) = Ok r ->
  Forall2 (fun v n => v_model News.validate v = Ok n) l (NewsSearchResult.news r).
Proof.
  unfold NewsSearchResult.validate, required. rewrite lookup_insert_eq.
  cbn [v_list]. intros Hv. bind_inv Hv. injection Hv as <-.
  by apply res_map_Forall2.
Qed.

Lemma News_validate_Ok (d : gmap (list N) pyval) (n : News.t) :
  News.validate d = Ok n ->
  required v_str d "title" = Ok (News.title n)
  /\ with_default (v_optional v_str) None d "last_updated"
     = Ok (News.last_updated n).
Proof.
  unfold News.validate. intros Hv. bind_inv Hv. by injection Hv as <-.
Qed.

Lemma WeatherInformation_validate_Ok (d : gmap (list N) pyval)
    (w : WeatherInformation.t) :
  WeatherInformation.validate d = Ok w ->
  required v_str d "weather" = Ok (WeatherInformation.weather w)
  /\ required (v_dict (fun k => bool_decide (k ∈ weekdays))
                      (v_model WeatherForecast.validate)) d "forecast"
     = Ok (WeatherInformation.forecast w).
Proof.
  unfold WeatherInformation.validate. intros Hv. bind_inv Hv.
  by injection Hv as <-.
Qed.

Lemma WeatherForecast_validate_Ok (d : gmap (list N) pyval)
    (wf : WeatherForecast.t) :
  WeatherForecast.validate d = Ok wf ->
  required (v_model HighLowTemperature.validate) d "fahrenheit"
  = Ok (WeatherForecast.fahrenheit wf)
  /\ required (v_model HighLowTemperature.validate) d "celsius"
     = Ok (WeatherForecast.celsius wf).
Proof.
  unfold WeatherForecast.validate. intros Hv. bind_inv Hv.
  by injection Hv as <-.
Qed.

Lemma HighLowTemperature_validate_pair (hi lo : Z) (t : HighLowTemperature.t) :
  v_model HighLowTemperature.validate
    (VDict (<[u "lowest" := VInt lo]> (<[u "highest" := VInt hi]> ∅)))
  = Ok t ->
  HighLowTemperature.highest t = hi /\ HighLowTemperature.lowest t = lo.
Proof.
  cbn [v_model]. unfold HighLowTemperature.validate, required.
  dict_lookup. cbn [v_int res_bind]. by intros [= <-].
Qed.

Ltac destruct_css H :=
  repeat match type of H with
         | context [css_first ?d ?n ?q] => destruct (css_first d n q)
         end.

Section ExtractorProperties.
Context `{PyLib} `{Selectolax} `{Json}.

(** ** [search]: the link fields *)

Lemma get_abs_link_decoded (href : option (list N)) (s : list N) :
  get_abs_link href = Ok s -> decoded_destination href s.
Proof.
  rewrite get_abs_link_outcome. destruct href as [[|c link]|].
  - intros [= <-]. left. auto.
  - destruct (urlsplit (c :: link)) as [parts|] eqn:Hsplit; [|discriminate].
    destruct (break_on (u "RU=") (path parts)) as [[pre after]|] eqn:Hb;
      [|discriminate].
    intros [= <-]. right.
    assert (forall a m s x y : list N,
              a = m ++ x -> m = s ++ y -> a = s ++ y ++ x) as Hcomb.
    { intros a m s x y -> ->. by rewrite <- app_assoc. }
    assert (exists post,
              after = before (u "/") (before (u "RU=") after) ++ post
              /\ (post = []
                  \/ (exists rest, post = u "/" ++ rest)
                  \/ (exists rest, post = u "RU=" ++ rest)))
      as (post & Hpost & Hshape).
    { destruct (before_split (u "RU=") after) as [Hm | [r1 Hr1]];
        destruct (before_split (u "/") (before (u "RU=") after))
          as [Hs | [r2 Hr2]].
      - exists []. split; [|by left]. by rewrite app_nil_r, Hs, Hm.
      - exists (u "/" ++ r2). split; [|right; left; eauto].
        rewrite <- Hr2. by rewrite Hm.
      - exists (u "RU=" ++ r1). split; [|right; right; eauto].
        rewrite Hs. exact Hr1.
      - exists ((u "/" ++ r2) ++ u "RU=" ++ r1). split.
        + exact (Hcomb _ _ _ _ _ Hr1 Hr2).
        + right. left. by exists (r2 ++ u "RU=" ++ r1). }
    exists (c :: link), parts, pre,
      (before (u "/") (before (u "RU=") after)), post.
    repeat split; try done.
    + rewrite (break_on_Some _ _ _ _ Hb). by rewrite <- Hpost.
    + unfold contains.
      rewrite (break_on_before (u "RU=") (path parts) pre after); [done| |done].
      literal_neq.
    + destruct (before_prefix (u "/") (before (u "RU=") after)) as [r2 Hr2].
      apply (contains_prefix _ _ r2). rewrite <- Hr2.
      apply before_free. literal_neq.
    + apply before_free. literal_neq.
  - intros [= <-]. left. auto.
Qed.

Lemma search_card_other (st : document * gmap (list N) pyval) (card : node)
    (st' : document * gmap (list N) pyval) (k : list N) :
  search_card st card = Ok st' -> k <> u "card" -> st'.2 !! k = st.2 !! k.
Proof.
  intros Hrun Hk. unfold search_card in Hrun. bind_inv Hrun.
  assert (a !! k = st.2 !! k) as Ha.
  { destruct (css_first st.1 (Some card) (u "img")); bind_inv E.
    - injection E as <-. by apply update_in_other.
    - by injection E as <-. }
  destruct (css_first st.1 (Some card) (u "p.pl-15.pr-10 span"));
    [destruct (clean_text st.1 _) as [parser text]|];
    cbn [fst snd] in Hrun;
    (destruct (css_first _ (Some card) (u "div.compText p"));
     [destruct (css_first _ (Some _) (u "a")); bind_inv Hrun|]);
    injection Hrun as <-; cbn [snd];
    rewrite ?update_in_other by done; done.
Qed.

Lemma search_texts_title (st : document * gmap (list N) pyval) (texts : node) :
  (search_texts st texts).2 !! u "title" = st.2 !! u "title".
Proof.
  unfold search_texts. destruct (clean_text st.1 texts) as [parser text].
  cbn [snd]. by rewrite lookup_insert_ne by literal_neq.
Qed.

(** One round of the loop over the result blocks appends one dictionary
    to the pages; it has no title when the block has no heading anchor. *)
Lemma search_webpage_appends (st : document * gmap (list N) pyval)
    (webpage : node) (st' : document * gmap (list N) pyval) (l : list pyval) :
  st.2 !! u "pages" = Some (VList l) ->
  search_webpage st webpage = Ok st' ->
  exists page_results,
    st'.2 !! u "pages" = Some (VList (l ++ [VDict page_results]))
    /\ (css st.1 (Some webpage) (u "div.compTitle h3 a") = [] ->
        page_results !! u "title" = None).
Proof.
  intros Hl Hrun. unfold search_webpage in Hrun. bind_inv Hrun.
  injection Hrun as <-. cbn [snd]. eexists. split.
  - by apply append_in_same.
  - intros Hnone. rewrite Hnone in E. injection E as <-.
    apply (fold_left_invariant (fun s => s.2 !! u "title" = None)).
    + intros s x Hs. by rewrite search_texts_title.
    + apply lookup_empty.
Qed.

Lemma search_webpages_append (blocks : list node)
    (st st' : document * gmap (list N) pyval) (l : list pyval) :
  st.2 !! u "pages" = Some (VList l) ->
  res_fold search_webpage st blocks = Ok st' ->
  exists l',
    st'.2 !! u "pages" = Some (VList (l ++ l'))
    /\ length l' = length blocks.
Proof.
  revert st l. induction blocks as [|b blocks IH]; intros st l Hl Hrun.
  - injection Hrun as <-. exists []. by rewrite app_nil_r.
  - cbn [res_fold] in Hrun. bind_inv Hrun.
    destruct (search_webpage_appends _ _ _ _ Hl E) as (pr & Hpr & _).
    destruct (IH _ _ Hpr Hrun) as (l' & Hl' & Hlen).
    exists (VDict pr :: l'). split.
    + by rewrite Hl', <- app_assoc.
    + cbn [length]. by rewrite Hlen.
Qed.

Lemma search_webpage_other (st : document * gmap (list N) pyval)
    (webpage : node) (st' : document * gmap (list N) pyval) (k : list N) :
  search_webpage st webpage = Ok st' -> k <> u "pages" -> st'.2 !! k = st.2 !! k.
Proof.
  intros Hrun Hk. unfold search_webpage in Hrun. bind_inv Hrun.
  injection Hrun as <-. cbn [snd]. by apply append_in_other.
Qed.

(** The state when the card panel is looked up: one page per result
    block, nothing yet in the two other lists. *)
Lemma search_pages_lists (parser : document) (middle : node)
    (st : document * gmap (list N) pyval) :
  css_first parser None (u ".reg.searchCenterMiddle") = Some middle ->
  search_pages parser = Ok st ->
  (exists l, st.2 !! u "pages" = Some (VList l)
             /\ length l = length (css parser (Some middle) (u ".dd.algo.algo-sr")))
  /\ st.2 !! u "also_try" = Some (VList [])
  /\ st.2 !! u "related_searches" = Some (VList []).
Proof.
  intros Hsearch Hrun. unfold search_pages in Hrun. rewrite Hsearch in Hrun.
  split; [|split].
  - by apply (search_webpages_append _ (parser, search_contents) st []).
  - assert (st.2 !! u "also_try" = (parser, search_contents).2 !! u "also_try")
      as ->; [|reflexivity].
    revert Hrun. apply (res_fold_preserved (fun s => s.2 !! u "also_try")).
    intros a x a' Hstep. eapply search_webpage_other; [done|literal_neq].
  - assert (st.2 !! u "related_searches"
            = (parser, search_contents).2 !! u "related_searches")
      as ->; [|reflexivity].
    revert Hrun. apply (res_fold_preserved (fun s => s.2 !! u "related_searches")).
    intros a x a' Hstep. eapply search_webpage_other; [done|literal_neq].
Qed.

Lemma search_texts_other (st : document * gmap (list N) pyval) (texts : node)
    (k : list N) :
  u "text" <> k -> (search_texts st texts).2 !! k = st.2 !! k.
Proof.
  intros Hk. unfold search_texts. destruct (clean_text st.1 texts) as [parser text].
  cbn [snd]. by rewrite lookup_insert_ne.
Qed.

(** The loop over the heading anchors of a block leaves the link and the
    title of the last one. *)
Lemma search_titles_last (parser : document) (block : node)
    (pr : gmap (list N) pyval) :
  res_fold (search_title parser) ∅
           (css parser (Some block) (u "div.compTitle h3 a")) = Ok pr ->
  page_entry parser block pr.
Proof.
  unfold page_entry.
  destruct (css parser (Some block) (u "div.compTitle h3 a")) as [|a0 anchors]
    using rev_ind; intros Hrun.
  - injection Hrun as <-. by rewrite !lookup_empty.
  - rewrite res_fold_app in Hrun. bind_inv Hrun.
    cbn [res_fold] in Hrun. bind_inv Hrun. injection Hrun as <-.
    rewrite last_snoc. unfold search_title in E0. bind_inv E0.
    injection E0 as <-. exists a2, a3. repeat split.
    + unfold attr_getitem in E1.
      by destruct (attributes parser a0 !! u "href"); simplify_eq.
    + done.
    + by rewrite lookup_insert_eq.
    + by rewrite lookup_insert_ne, lookup_insert_eq by literal_neq.
Qed.

(** One round of the loop over the result blocks appends the dictionary
    of the block, read in the document the round starts with. *)
Lemma search_webpage_entry (st : document * gmap (list N) pyval)
    (webpage : node) (st' : document * gmap (list N) pyval) (l : list pyval) :
  st.2 !! u "pages" = Some (VList l) ->
  search_webpage st webpage = Ok st' ->
  exists d,
    st'.2 !! u "pages" = Some (VList (l ++ [VDict d]))
    /\ page_entry st.1 webpage d.
Proof.
  intros Hl Hrun. unfold search_webpage in Hrun. bind_inv Hrun.
  injection Hrun as <-. cbn [snd]. eexists. split.
  - by apply append_in_same.
  - apply search_titles_last in E. unfold page_entry in *.
    assert (forall k, u "text" <> k ->
              (fold_left search_texts
                 (css st.1 (Some webpage) (u ".compText.aAbs p")) (st.1, a)).2 !! k
              = a !! k) as Hsame.
    { intros k Hk.
      apply (fold_left_invariant (fun s => s.2 !! k = a !! k)); [|done].
      intros s x Hs. by rewrite search_texts_other. }
    rewrite !Hsame by literal_neq. exact E.
Qed.

(** The list under a key of [contents]. *)
Lemma search_collect_entries (parser : document) (middle : node)
    (stf : document * gmap (list N) pyval) :
  css_first parser None (u ".reg.searchCenterMiddle") = Some middle ->
  search_collect parser = Ok stf ->
  exists (st : document * gmap (list N) pyval) (contents : gmap (list N) pyval)
         (lp la lr : list pyval),
    search_lists parser st contents
    /\ stf.2 !! u "pages" = Some (VList lp)
    /\ stf.2 !! u "also_try" = Some (VList la)
    /\ stf.2 !! u "related_searches" = Some (VList lr)
    /\ length lp = length (css parser (Some middle) (u ".dd.algo.algo-sr"))
    /\ (forall i block,
          css parser (Some middle) (u ".dd.algo.algo-sr") !! i = Some block ->
          exists sti d,
            res_fold search_webpage (parser, search_contents)
                     (take i (css parser (Some middle) (u ".dd.algo.algo-sr")))
            = Ok sti
            /\ lp !! i = Some (VDict d)
            /\ page_entry sti.1 block d)
    /\ length la = length (css st.1 None also_try_selector)
    /\ (forall i a,
          css st.1 None also_try_selector !! i = Some a ->
          exists href,
            attributes st.1 a !! u "href" = Some href
            /\ la !! i
               = Some (VDict (<[u "text" := VStr (text0 st.1 a)]>
                                (<[u "link" := of_optional_str href]> ∅))))
    /\ length lr = length (css st.1 None related_selector)
    /\ (forall i a,
          css st.1 None related_selector !! i = Some a ->
          exists sti href,
            res_fold search_related (st.1, contents)
                     (take i (css st.1 None related_selector)) = Ok sti
            /\ attributes (clean_text sti.1 a).1 a !! u "href" = Some href
            /\ lr !! i
               = Some (VDict (<[u "text" := VStr (clean_text sti.1 a).2]>
                                (<[u "link" := of_optional_str href]> ∅)))).
Proof.
  intros Hmiddle Hrun. unfold search_collect in Hrun. bind_inv Hrun.
  rename a into st0, a0 into st, a1 into contents.
  rename E into Hpages, E0 into Hcard, E1 into Halso.
  change (u "ol.cardReg.searchTop .compDlink li span a")
    with also_try_selector in *.
  change (u "ol.scf.reg.searchCenterFooter tbody tr td a")
    with related_selector in *.
  assert (search_lists parser st contents) as Hlists.
  { exists st0. by repeat split. }
  exists st, contents.
  (* the result blocks *)
  pose proof Hpages as Hfold. unfold search_pages in Hfold.
  rewrite Hmiddle in Hfold.
  eapply (res_fold_indexed search_webpage
              (fun s => match s.2 !! u "pages" with
                        | Some (VList l) => l
                        | _ => []
                        end)
              (fun s => exists l, s.2 !! u "pages" = Some (VList l))
              (fun s x c => exists d, c = VDict d /\ page_entry s.1 x d))
    in Hfold as (lp & Hlp & Hlenp & Hallp); cycle 1.
  { intros s x s' [l Hl] Hstep.
    destruct (search_webpage_entry _ _ _ _ Hl Hstep) as (d & Hd & Hentry).
    split; [eauto|]. exists (VDict d). rewrite Hd, Hl. eauto. }
  { by exists []. }
  cbn [snd] in Hlp. change (search_contents !! u "pages") with (Some (VList []))
    in Hlp. cbn [app] in Hlp.
  assert (st0.2 !! u "pages" = Some (VList lp)) as Hp0.
  { destruct (search_pages_lists _ _ _ Hmiddle Hpages) as ((l & Hl & _) & _).
    rewrite Hl in Hlp. by rewrite Hl, Hlp. }
  destruct (search_pages_lists _ _ _ Hmiddle Hpages) as (_ & Ha0 & Hr0).
  (* the card panel *)
  assert (forall k, k <> u "card" -> st.2 !! k = st0.2 !! k) as Hsame.
  { destruct (css_first st0.1 None (u ".cardReg.searchRightTop")) as [card|].
    - intros k Hk. by eapply search_card_other.
    - by injection Hcard as <-. }
  rewrite <- (Hsame (u "pages")) in Hp0 by literal_neq.
  rewrite <- (Hsame (u "also_try")) in Ha0 by literal_neq.
  rewrite <- (Hsame (u "related_searches")) in Hr0 by literal_neq.
  (* the "also try" anchors *)
  assert ((exists l, contents !! u "also_try" = Some (VList l))
          /\ contents !! u "pages" = st.2 !! u "pages"
          /\ contents !! u "related_searches" = st.2 !! u "related_searches")
    as ([lc Hlc] & Hcp & Hcr).
  { revert Halso.
    apply (res_fold_invariant
             (fun c => (exists l, c !! u "also_try" = Some (VList l))
                       /\ c !! u "pages" = st.2 !! u "pages"
                       /\ c !! u "related_searches"
                          = st.2 !! u "related_searches")); [|eauto].
    intros c x c' _ ([l Hl] & Hcp & Hcr) Hstep.
    unfold search_also_try in Hstep. bind_inv Hstep. injection Hstep as <-.
    rewrite (append_in_same _ _ _ _ Hl).
    rewrite !append_in_other by literal_neq. eauto. }
  eapply (res_fold_indexed (search_also_try st.1)
              (fun c => match c !! u "also_try" with
                        | Some (VList l) => l
                        | _ => []
                        end)
              (fun c => (exists l, c !! u "also_try" = Some (VList l))
                        /\ c !! u "pages" = st.2 !! u "pages"
                        /\ c !! u "related_searches"
                           = st.2 !! u "related_searches")
              (fun _ x c =>
                 exists href,
                   attributes st.1 x !! u "href" = Some href
                   /\ c = VDict (<[u "text" := VStr (text0 st.1 x)]>
                                   (<[u "link" := of_optional_str href]> ∅))))
    in Halso as (la & Hla & Hlena & Halla); cycle 1.
  { intros c x c' ([l Hl] & Hxp & Hxr) Hstep.
    unfold search_also_try in Hstep. bind_inv Hstep. injection Hstep as <-.
    rewrite (append_in_same _ _ _ _ Hl), Hl.
    rewrite !append_in_other by literal_neq. split; [eauto|].
    eexists. split; [reflexivity|]. exists a. split; [|done].
    unfold attr_getitem in E.
    by destruct (attributes st.1 x !! u "href"); simplify_eq. }
  { eauto. }
  rewrite Hlc, Ha0 in Hla. cbn [app] in Hla. subst lc.
  (* the related searches *)
  assert ((exists l, stf.2 !! u "related_searches" = Some (VList l))
          /\ stf.2 !! u "pages" = contents !! u "pages"
          /\ stf.2 !! u "also_try" = contents !! u "also_try")
    as ([lf Hlf] & Hfp & Hfa).
  { revert Hrun.
    apply (res_fold_invariant
             (fun s => (exists l, s.2 !! u "related_searches" = Some (VList l))
                       /\ s.2 !! u "pages" = contents !! u "pages"
                       /\ s.2 !! u "also_try" = contents !! u "also_try")).
    - intros s x s' _ ([l' Hl'] & Hsp & Hsa) Hstep.
      unfold search_related in Hstep.
      destruct (clean_text s.1 x) as [parser' text].
      bind_inv Hstep. injection Hstep as <-. cbn [fst snd].
      rewrite (append_in_same _ _ _ _ Hl').
      rewrite !append_in_other by literal_neq. eauto.
    - cbn [snd]. rewrite Hcr, Hr0. eauto. }
  eapply (res_fold_indexed search_related
              (fun s => match s.2 !! u "related_searches" with
                        | Some (VList l) => l
                        | _ => []
                        end)
              (fun s => (exists l, s.2 !! u "related_searches" = Some (VList l))
                        /\ s.2 !! u "pages" = contents !! u "pages"
                        /\ s.2 !! u "also_try" = contents !! u "also_try")
              (fun s x c =>
                 exists href,
                   attributes (clean_text s.1 x).1 x !! u "href" = Some href
                   /\ c = VDict (<[u "text" := VStr (clean_text s.1 x).2]>
                                   (<[u "link" := of_optional_str href]> ∅))))
    in Hrun as (lr & Hlr & Hlenr & Hallr); cycle 1.
  { intros s x s' ([l' Hl'] & Hxp & Hxa) Hstep.
    unfold search_related in Hstep.
    destruct (clean_text s.1 x) as [parser' text] eqn:Hclean.
    bind_inv Hstep. injection Hstep as <-. cbn [fst snd].
    rewrite (append_in_same _ _ _ _ Hl'), Hl'.
    rewrite !append_in_other by literal_neq. split; [eauto|].
    eexists. split; [reflexivity|]. exists a. split; [|done].
    unfold attr_getitem in E.
    by destruct (attributes parser' x !! u "href"); simplify_eq. }
  { cbn [snd]. rewrite Hcr, Hr0. eauto. }
  cbn [snd] in Hlr. rewrite Hlf, Hcr, Hr0 in Hlr. cbn [app] in Hlr. subst lf.
  exists lp, la, lr. split; [exact Hlists|].
  split; [by rewrite Hfp, Hcp|]. split; [by rewrite Hfa|]. split; [done|].
  split; [done|]. split.
  { intros i block Hi. destruct (Hallp i block Hi) as (sti & c & Hsti & Hc & d & -> & Hd).
    eauto. }
  split; [done|]. split.
  { intros i a Hi. destruct (Halla i a Hi) as (_ & c & _ & Hc & href & Hh & ->).
    eauto. }
  split; [done|].
  intros i a Hi. destruct (Hallr i a Hi) as (sti & c & Hsti & Hc & href & Hh & ->).
  eauto 6.
Qed.

Lemma search_middle (parser : document) (st : document * gmap (list N) pyval) :
  search_collect parser = Ok st ->
  exists middle, css_first parser None (u ".reg.searchCenterMiddle") = Some middle.
Proof.
  unfold search_collect, search_pages. intros Hrun.
  destruct (css_first parser None (u ".reg.searchCenterMiddle")); [eauto|].
  discriminate Hrun.
Qed.

(** C1, as the code has it: position by position, the link of the [i]-th
    organic result is decoded from the [href] of the last heading anchor
    of the [i]-th result block (the percent-decoded segment that follows
    the first marker [RU=] of its path and ends at the next slash or
    marker, or the empty string for an empty [href]); the links of the
    [i]-th "also try" entry and of the [i]-th related search are the
    [href] attributes of the [i]-th anchors of their lists as they
    stand. *)
Theorem search_link_fields (res : Response document) (r : SearchResult.t) :
  search res = Ok r -> links_by_position (body res) r.
Proof.
  unfold search. intros Hrun. bind_inv Hrun.
  destruct (search_middle _ _ E0) as [middle Hmiddle].
  destruct (search_collect_entries _ _ _ Hmiddle E0)
    as (st & contents & lp & la & lr & Hlists & Hlp & Hla & Hlr
        & Hlenp & Hallp & Hlena & Halla & Hlenr & Hallr).
  apply SearchResult_validate_Ok in Hrun as (Hva & Hvp & _ & Hvr).
  apply (required_list_lookup _ _ _ _ _ Hlp) in Hvp as [Hnp Hvp].
  apply (required_list_lookup _ _ _ _ _ Hla) in Hva as [Hna Hva].
  apply (required_list_lookup _ _ _ _ _ Hlr) in Hvr as [Hnr Hvr].
  exists middle, st, contents. split; [done|]. split; [done|].
  split; [congruence|]. split; [|split; [congruence|split; [|split; [congruence|]]]].
  - intros i block p Hi Hp.
    destruct (Hallp i block Hi) as (sti & d & Hsti & Hd & Hentry).
    destruct (Hvp i p Hp) as (v & Hv & Hvalid).
    rewrite Hd in Hv. injection Hv as <-. cbn [v_model] in Hvalid.
    unfold PageResult.validate in Hvalid. bind_inv Hvalid.
    injection Hvalid as <-. cbn [PageResult.link].
    apply required_str in E2. exists sti. split; [done|].
    unfold page_entry in Hentry. unfold page_link.
    destruct (last (css sti.1 (Some block) (u "div.compTitle h3 a"))) as [anchor|].
    + destruct Hentry as (href & s & Hhref & Hs & Hlink & _).
      exists anchor, href. split; [done|]. split; [done|].
      apply get_abs_link_decoded. congruence.
    + destruct Hentry as [Hno _]. congruence.
  - intros i anchor e Hi He.
    destruct (Halla i anchor Hi) as (href & Hhref & Hd).
    destruct (Hva i e He) as (v & Hv & Hvalid).
    rewrite Hd in Hv. injection Hv as <-. cbn [v_model] in Hvalid.
    unfold AlsoTryItem.validate in Hvalid. bind_inv Hvalid.
    injection Hvalid as <-. cbn [AlsoTryItem.link].
    apply required_str in E1.
    rewrite lookup_insert_ne, lookup_insert_eq in E1 by literal_neq.
    destruct href; [|discriminate]. by injection E1 as ->.
  - intros i anchor e Hi He.
    destruct (Hallr i anchor Hi) as (sti & href & Hsti & Hhref & Hd).
    destruct (Hvr i e He) as (v & Hv & Hvalid).
    rewrite Hd in Hv. injection Hv as <-. cbn [v_model] in Hvalid.
    unfold RelatedSearch.validate in Hvalid. bind_inv Hvalid.
    injection Hvalid as <-. cbn [RelatedSearch.link].
    apply required_str in E1.
    rewrite lookup_insert_ne, lookup_insert_eq in E1 by literal_neq.
    exists sti. split; [done|].
    destruct href; [|discriminate]. by injection E1 as ->.
Qed.

(** ** [search]: the card *)

Lemma search_webpage_card (st : document * gmap (list N) pyval)
    (webpage : node) (st' : document * gmap (list N) pyval) :
  search_webpage st webpage = Ok st' -> st'.2 !! u "card" = st.2 !! u "card".
Proof.
  unfold search_webpage. intros Hrun. bind_inv Hrun. injection Hrun as <-.
  cbn [snd]. apply append_in_other. literal_neq.
Qed.

Lemma search_also_try_card (parser : document) (c : gmap (list N) pyval)
    (item : node) (c' : gmap (list N) pyval) :
  search_also_try parser c item = Ok c' -> c' !! u "card" = c !! u "card".
Proof.
  unfold search_also_try. intros Hrun. bind_inv Hrun. injection Hrun as <-.
  apply append_in_other. literal_neq.
Qed.

Lemma search_related_card (st : document * gmap (list N) pyval)
    (item : node) (st' : document * gmap (list N) pyval) :
  search_related st item = Ok st' -> st'.2 !! u "card" = st.2 !! u "card".
Proof.
  unfold search_related. destruct (clean_text st.1 item) as [parser text].
  intros Hrun. bind_inv Hrun. injection Hrun as <-.
  cbn [snd]. apply append_in_other. literal_neq.
Qed.

Lemma search_pages_card (parser : document)
    (st : document * gmap (list N) pyval) :
  search_pages parser = Ok st -> st.2 !! u "card" = Some (VDict ∅).
Proof.
  unfold search_pages.
  destruct (css_first parser None (u ".reg.searchCenterMiddle")); [|discriminate].
  intros Hrun.
  by rewrite (res_fold_preserved (fun st => st.2 !! u "card") _ _ _ _
                search_webpage_card Hrun).
Qed.

(** C7, as the code has it: [contents] starts with an empty dictionary
    under ["card"] and the model validates it into a card, so that when the
    card panel selector matches nothing the record carries a card without
    image, heading, text and source, not an absent one. *)
Theorem search_card_without_panel (res : Response document)
    (st : document * gmap (list N) pyval) (r : SearchResult.t) :
  search_pages (body res) = Ok st ->
  css st.1 None (u ".cardReg.searchRightTop") = [] ->
  search res = Ok r ->
  SearchResult.card r
  = Some {| CardResult.image := None; CardResult.heading := None;
            CardResult.text := None; CardResult.source := None |}.
Proof.
  intros Hpages Hcard Hrun. unfold search in Hrun. bind_inv Hrun.
  unfold search_collect in E0. rewrite Hpages in E0. cbn [res_bind] in E0.
  unfold css_first in E0. rewrite Hcard in E0. cbn [head res_bind] in E0.
  bind_inv E0.
  assert (a0.2 !! u "card" = Some (VDict ∅)) as Hc.
  { rewrite (res_fold_preserved (fun st => st.2 !! u "card") _ _ _ _
               search_related_card E0). cbn [snd].
    rewrite (res_fold_preserved (fun c => c !! u "card") _ _ _ _
               (search_also_try_card st.1) E1).
    exact (search_pages_card _ _ Hpages). }
  apply SearchResult_validate_Ok in Hrun as (_ & _ & Hv & _).
  unfold with_default in Hv. rewrite Hc, CardResult_validate_empty in Hv.
  by injection Hv as <-.
Qed.

(** ** [search_news] *)

(** One round of the loop appends one dictionary; it never has a
    ["last_updated"] key, and it has no ["title"] key when the heading
    anchor is missing. *)
Lemma news_item_appends (st : document * list pyval) (news : node)
    (st' : document * list pyval) :
  news_item st news = Ok st' ->
  exists this,
    st'.2 = st.2 ++ [VDict this]
    /\ this !! u "last_updated" = None
    /\ (css st.1 (Some news) (u "h4 a") = [] -> this !! u "title" = None).
Proof.
  unfold news_item, css_first. intros Hrun. bind_inv Hrun.
  assert (a !! u "last_updated" = None /\ a !! u "title" = None) as [Ha1 Ha2].
  { destruct (head (css st.1 (Some news) (u "img"))); bind_inv E.
    - destruct a1; [|discriminate]. injection E as <-.
      rewrite !lookup_insert_ne by literal_neq. by rewrite lookup_empty.
    - injection E as <-. by rewrite lookup_empty. }
  assert (a0 !! u "last_updated" = None
          /\ (css st.1 (Some news) (u "h4 a") = [] -> a0 !! u "title" = None))
    as [Hb1 Hb2].
  { destruct (css st.1 (Some news) (u "h4 a")) eqn:Ht; cbn [head] in E0;
      bind_inv E0; injection E0 as <-.
    - done.
    - split; [|done]. by rewrite !lookup_insert_ne by literal_neq. }
  clear E E0 Ha1 Ha2.
  destruct (head (css st.1 (Some news) (u "span.s-source")));
    destruct (head (css st.1 (Some news) (u "span.fc-2nd.s-time")));
    destruct (head (css st.1 (Some news) (u "p.s-desc")));
    try destruct (clean_text st.1 _) as [parser text];
    injection Hrun as <-; eexists; (split; [reflexivity|]);
    rewrite ?lookup_insert_ne by literal_neq; done.
Qed.

Lemma news_item_prefix (l : list pyval) (st : document * list pyval)
    (news : node) (st' : document * list pyval) :
  news_item st news = Ok st' -> l `prefix_of` st.2 -> l `prefix_of` st'.2.
Proof.
  intros (this & -> & _)%news_item_appends Hl. by apply prefix_app_r.
Qed.

Lemma news_item_last_updated (st : document * list pyval)
    (news : node) (st' : document * list pyval) :
  news_item st news = Ok st' ->
  Forall (fun v => exists d, v = VDict d /\ d !! u "last_updated" = None) st.2 ->
  Forall (fun v => exists d, v = VDict d /\ d !! u "last_updated" = None) st'.2.
Proof.
  intros (this & -> & Hl & _)%news_item_appends Hall.
  apply Forall_app. split; [done|]. constructor; eauto.
Qed.

(** C5, as the code has it: the model [News] requires [title] and no other
    field.  A list item without heading anchor makes [search_news] raise
    instead of yielding an empty record; a list item in which only the
    heading anchor matches yields a record that holds the title alone. *)
Theorem search_news_requires_title (res : Response document) (page : node) :
  css_first (body res) None (u "#main #web") = Some page ->
  (forall (earlier later : list node) (item : node)
          (st : document * list pyval),
     css (body res) (Some page) (u "li .dd.NewsArticle li")
     = earlier ++ item :: later ->
     res_fold news_item (body res, []) earlier = Ok st ->
     css st.1 (Some item) (u "h4 a") = [] ->
     raised (search_news res))
  /\ (forall (item title : node) (others : list node) (href : option (list N)),
        css (body res) (Some page) (u "li .dd.NewsArticle li") = [item] ->
        css (body res) (Some item) (u "h4 a") = title :: others ->
        attributes (body res) title !! u "href" = Some href ->
        css (body res) (Some item) (u "img") = [] ->
        css (body res) (Some item) (u "span.s-source") = [] ->
        css (body res) (Some item) (u "span.fc-2nd.s-time") = [] ->
        css (body res) (Some item) (u "p.s-desc") = [] ->
        search_news res
        = Ok {| NewsSearchResult.news :=
                  [{| News.title := text0 (body res) title;
                      News.thumbnail := None; News.source := None;
                      News.last_updated := None; News.text := None |}] |}).
Proof.
  intros Hpage. split.
  - intros earlier later item st Hitems Hst Htitle.
    destruct (search_news res) as [r|e] eqn:Hrun; [exfalso|exact I].
    unfold search_news, news_collect in Hrun. rewrite Hpage, Hitems in Hrun.
    rewrite res_fold_app, Hst in Hrun. cbn [res_bind res_fold] in Hrun.
    bind_inv Hrun. bind_inv E.
    destruct (news_item_appends _ _ _ E0) as (this & Hthis & _ & Hno).
    assert (Hpre : (st.2 ++ [VDict this]) `prefix_of` a.2).
    { revert E.
      apply (res_fold_invariant (fun s => (st.2 ++ [VDict this]) `prefix_of` s.2)).
      - intros ? ? ? _ ? ?. by eapply news_item_prefix.
      - by rewrite Hthis. }
    destruct Hpre as [more Hmore].
    apply NewsSearchResult_validate_Ok in Hrun. rewrite Hmore in Hrun.
    apply Forall2_app_inv_l in Hrun as (n1 & n2 & Hn1 & _ & _).
    apply Forall2_app_inv_l in Hn1 as (n3 & n4 & _ & Hn4 & _).
    inversion Hn4 as [|? n ? ? Hn]; subst. cbn [v_model] in Hn.
    apply News_validate_Ok in Hn as [Hn _].
    unfold required in Hn. by rewrite (Hno Htitle) in Hn.
  - intros item title others href Hitems Htitle Hhref Himg Hsource Htime Hdesc.
    unfold search_news, news_collect. rewrite Hpage, Hitems.
    cbn [res_fold res_bind]. unfold news_item, css_first. cbn [fst snd].
    rewrite Htitle, Himg, Hsource, Htime, Hdesc. cbn [head res_bind].
    unfold attr_getitem. rewrite Hhref. cbn [res_bind app].
    unfold NewsSearchResult.validate, required. dict_lookup.
    cbn [v_list res_map v_model]. unfold News.validate, required, with_default.
    dict_lookup. reflexivity.
Qed.

(** X12: Whatever the page, no record of [search_news] has its
    [last_updated] set: the label is stored under ["time"], which is not
    a field of [News]. *)
Lemma search_news_last_updated_unset (res : Response document)
    (r : NewsSearchResult.t) :
  search_news res = Ok r ->
  Forall (fun n => News.last_updated n = None) (NewsSearchResult.news r).
Proof.
  unfold search_news, news_collect. intros Hrun. bind_inv Hrun.
  destruct (css_first (body res) None (u "#main #web")); [|discriminate].
  assert (Forall (fun v => exists d, v = VDict d /\ d !! u "last_updated" = None)
                 a.2) as Hall.
  { revert E.
    apply (res_fold_invariant
             (fun s => Forall (fun v => exists d, v = VDict d
                                        /\ d !! u "last_updated" = None) s.2)).
    - intros ? ? ? _ ? ?. by eapply news_item_last_updated.
    - constructor. }
  apply NewsSearchResult_validate_Ok in Hrun.
  revert Hall. induction Hrun as [|v rec l recs Hv _ IH]; intros Hall.
  - constructor.
  - apply Forall_cons in Hall as [(d & -> & Hd) Hall]. constructor; [|auto].
    cbn [v_model] in Hv. apply News_validate_Ok in Hv as [_ Hv].
    unfold with_default in Hv. rewrite Hd in Hv. by injection Hv as <-.
Qed.

(** ** [search_videos]: no results *)

(** C8, as the code has it: on a page without video items [search_videos]
    fails its assertion with the message about [#search li.vr.vres].  The
    failure of [search] on a page without results container is an
    assertion failure too: both have the same kind and differ in
    their message only. *)
Theorem search_videos_empty_result (res_v res_s : Response document) :
  raise_for_status res_v = Ok tt ->
  raise_for_status res_s = Ok tt ->
  css (body res_v) None (u "#search li.vr.vres") = [] ->
  css (body res_s) None (u ".reg.searchCenterMiddle") = [] ->
  exists e_v e_s,
    search_videos res_v = Raise e_v
    /\ search res_s = Raise e_s
    /\ e_v = AssertionError "Couldn't find any results for '#search li.vr.vres'"
    /\ e_s = AssertionError
               "Could not find '.reg.searchCCenterMiddle' (search results)"
    /\ kind_of e_v = kind_of e_s
    /\ e_v <> e_s.
Proof.
  intros Hv Hs Hvideos Hsearch. eexists _, _.
  unfold search_videos, videos_collect, search, search_collect, search_pages,
    css_first.
  rewrite Hv, Hs, Hvideos, Hsearch. cbn [res_bind head].
  repeat split. discriminate.
Qed.

(** ** [weather] *)

Lemma weather_row_forecast (parser : document) (data : gmap (list N) pyval)
    (row : node) (data' fc : gmap (list N) pyval) :
  data !! u "forecast" = Some (VDict fc) ->
  weather_row parser data row = Ok data' ->
  exists day info,
    weather_day parser row = Ok day
    /\ weather_info parser row = Ok info
    /\ data' !! u "forecast" = Some (VDict (<[day := VDict info]> fc))
    /\ forall k, k <> u "forecast" -> data' !! k = data !! k.
Proof.
  intros Hfc Hrun. unfold weather_row in Hrun. bind_inv Hrun.
  injection Hrun as <-. exists a, a0. repeat split.
  - by apply update_in_same.
  - intros k Hk. by apply update_in_other.
Qed.

(** The forecast after the loop over the rows: its keys are the keys it
    had and the day labels of the rows. *)
Lemma weather_rows_days (parser : document) (rows : list node)
    (data data' fc : gmap (list N) pyval) :
  data !! u "forecast" = Some (VDict fc) ->
  res_fold (weather_row parser) data rows = Ok data' ->
  exists days fc',
    res_map (weather_day parser) rows = Ok days
    /\ data' !! u "forecast" = Some (VDict fc')
    /\ dom fc' = dom fc ∪ list_to_set days.
Proof.
  revert data fc. induction rows as [|row rows IH]; intros data fc Hfc Hrun.
  - injection Hrun as <-. exists [], fc. repeat split; [done|].
    by rewrite list_to_set_nil, union_empty_r_L.
  - cbn [res_fold] in Hrun. bind_inv Hrun.
    destruct (weather_row_forecast _ _ _ _ _ Hfc E) as (day & info & Hd & _ & Hfc' & _).
    destruct (IH _ _ Hfc' Hrun) as (days & fc' & Hdays & Hfc'' & Hdom).
    exists (day :: days), fc'. repeat split; [|done|].
    + cbn [res_map]. by rewrite Hd, Hdays.
    + rewrite Hdom, dom_insert_L, list_to_set_cons.
      by rewrite (comm_L _ {[day]} (dom fc)), <- (assoc_L _).
Qed.

(** Rows with other labels leave the entry of [day] as it is. *)
Lemma weather_rows_other_days (parser : document) (rows : list node)
    (data data' fc : gmap (list N) pyval) (day : list N) :
  data !! u "forecast" = Some (VDict fc) ->
  res_fold (weather_row parser) data rows = Ok data' ->
  (forall r, r ∈ rows -> weather_day parser r <> Ok day) ->
  exists fc', data' !! u "forecast" = Some (VDict fc') /\ fc' !! day = fc !! day.
Proof.
  revert data fc. induction rows as [|row rows IH]; intros data fc Hfc Hrun Hne.
  - injection Hrun as <-. by exists fc.
  - cbn [res_fold] in Hrun. bind_inv Hrun.
    destruct (weather_row_forecast _ _ _ _ _ Hfc E) as (d & info & Hd & _ & Hfc' & _).
    destruct (IH _ _ Hfc' Hrun) as (fc' & Hfc'' & Hlook).
    { intros r Hr. apply Hne. by right. }
    exists fc'. split; [done|]. rewrite Hlook. apply lookup_insert_ne.
    intros ->. by apply (Hne row); [left|].
Qed.

(** When [weather] returns, the heading module was found and the loop over
    the first seven rows started from an empty forecast. *)
Lemma weather_collect_rows (parser : document) (data : gmap (list N) pyval)
    (w : WeatherInformation.t) :
  weather_collect parser = Ok data ->
  WeatherInformation.validate data = Ok w ->
  exists data0,
    data0 !! u "forecast" = Some (VDict ∅)
    /\ res_fold (weather_row parser) data0
                (take 7 (css parser None forecast_selector)) = Ok data.
Proof.
  intros Hc Hv. unfold weather_collect in Hc. cbv zeta in Hc.
  bind_inv Hc.
  assert (a !! u "forecast" = Some (VDict ∅) /\ a !! u "weather" = None)
    as [Ha1 Ha2].
  { destruct_css E; bind_inv E; injection E as <-; split; by dict_lookup. }
  assert (a0 !! u "forecast" = Some (VDict ∅) /\ a0 !! u "weather" = None)
    as [Hb1 Hb2].
  { destruct_css E0; bind_inv E0; injection E0 as <-; split; by dict_lookup. }
  clear E E0 Ha1 Ha2.
  destruct (css_first parser None (u "div#module-location-heading")).
  - bind_inv Hc. eexists. split; [|exact Hc].
    destruct_css E; bind_inv E; injection E as <-;
      destruct (css_first parser _ (u "p")); by dict_lookup.
  - injection Hc as <-.
    apply WeatherInformation_validate_Ok in Hv as [Hv _].
    unfold required in Hv. by rewrite Hb2 in Hv.
Qed.

(** C9: the forecast of a returned record has one entry for each day label
    of the first seven forecast rows and no other entry; it has at most
    seven entries, as many as rows when their labels are distinct, and so
    exactly five for five rows with distinct labels. *)
Theorem weather_forecast_entries (res : Response document)
    (w : WeatherInformation.t) :
  weather res = Ok w ->
  exists days,
    res_map (weather_day (body res))
            (take 7 (css (body res) None forecast_selector)) = Ok days
    /\ (forall day,
          is_Some (WeatherInformation.forecast w !! day) <-> day ∈ days)
    /\ (size (WeatherInformation.forecast w) <= 7)%nat
    /\ (NoDup days -> size (WeatherInformation.forecast w) = length days)
    /\ (length (css (body res) None forecast_selector) = 5%nat ->
        NoDup days -> size (WeatherInformation.forecast w) = 5%nat).
Proof.
  unfold weather. intros Hrun. bind_inv Hrun.
  destruct (weather_collect_rows _ _ _ E Hrun) as (data0 & Hfc0 & Hrows).
  destruct (weather_rows_days _ _ _ _ _ Hfc0 Hrows) as (days & fc & Hdays & Hfc & Hdom).
  apply WeatherInformation_validate_Ok in Hrun as [_ Hv].
  unfold required in Hv. rewrite Hfc in Hv. apply v_dict_dom in Hv.
  rewrite Hdom, dom_empty_L, union_empty_l_L in Hv.
  pose proof (res_map_length _ _ _ Hdays) as Hlen.
  exists days. repeat split.
  - done.
  - intros Hday%elem_of_dom. rewrite Hv in Hday. by apply elem_of_list_to_set in Hday.
  - intros Hday. apply elem_of_dom. rewrite Hv. by apply elem_of_list_to_set.
  - rewrite <- size_dom, Hv.
    pose proof (size_list_to_set_le days). rewrite length_take in Hlen. lia.
  - intros Hnd. rewrite <- size_dom, Hv. by apply size_list_to_set.
  - intros Hfive Hnd. rewrite <- size_dom, Hv, size_list_to_set by done.
    rewrite Hlen, length_take. lia.
Qed.

(** The dictionary of a row with four temperature cells holds the parsed
    cells at the positions fahrenheit-high, celsius-high, fahrenheit-low,
    celsius-low. *)
Lemma weather_info_temperatures (parser : document) (row : node)
    (c0 c1 c2 c3 : node) (info : gmap (list N) pyval) (wf : WeatherForecast.t) :
  css parser (Some row) temperature_selector = [c0; c1; c2; c3] ->
  weather_info parser row = Ok info ->
  WeatherForecast.validate info = Ok wf ->
  int (slice_to_minus1 (text0 parser c0))
  = Ok (HighLowTemperature.highest (WeatherForecast.fahrenheit wf))
  /\ int (slice_to_minus1 (text0 parser c1))
     = Ok (HighLowTemperature.highest (WeatherForecast.celsius wf))
  /\ int (slice_to_minus1 (text0 parser c2))
     = Ok (HighLowTemperature.lowest (WeatherForecast.fahrenheit wf))
  /\ int (slice_to_minus1 (text0 parser c3))
     = Ok (HighLowTemperature.lowest (WeatherForecast.celsius wf)).
Proof.
  intros Hcells Hrun Hv. unfold weather_info in Hrun. cbv zeta in Hrun.
  bind_inv Hrun.
  assert (a !! u "fahrenheit" = Some (VDict ∅)
          /\ a !! u "celsius" = Some (VDict ∅)) as [Ha1 Ha2].
  { destruct_css E; bind_inv E; injection E as <-; split; by dict_lookup. }
  assert (a0 !! u "fahrenheit" = Some (VDict ∅)
          /\ a0 !! u "celsius" = Some (VDict ∅)) as [Hb1 Hb2].
  { destruct_css E0; bind_inv E0; injection E0 as <-; split; by dict_lookup. }
  clear E E0 Ha1 Ha2.
  change (u "td.D\(f\).Jc\(fe\).Ta\(end\) dl dd") with temperature_selector in Hrun.
  rewrite Hcells in Hrun.
  cbn [enumerate length seq zip zip_with res_fold weather_temp fst snd] in Hrun.
  bind_inv Hrun. injection Hrun as <-.
  bind_inv E. bind_inv E0. bind_inv E1. bind_inv E2.
  injection E as <-. injection E0 as <-. injection E1 as <-. injection E2 as <-.
  apply WeatherForecast_validate_Ok in Hv as [Hf Hc].
  unfold required in Hf, Hc.
  assert (forall k k2 v d, k <> u "fahrenheit" ->
            update_in k k2 v d !! u "fahrenheit" = d !! u "fahrenheit") as Hof
    by (intros; by apply update_in_other).
  assert (forall k k2 v d, k <> u "celsius" ->
            update_in k k2 v d !! u "celsius" = d !! u "celsius") as Hoc
    by (intros; by apply update_in_other).
  rewrite Hof in Hf by literal_neq.
  erewrite update_in_same in Hf;
    [|rewrite Hof by literal_neq; by apply update_in_same].
  erewrite update_in_same in Hc;
    [|rewrite Hoc by literal_neq; apply update_in_same;
      by rewrite Hoc by literal_neq].
  apply HighLowTemperature_validate_pair in Hf as [<- <-].
  apply HighLowTemperature_validate_pair in Hc as [<- <-].
  done.
Qed.

(** C10: in the record [weather] returns, the entry of a day holds the
    four temperature cells of the (last) row with that label by position:
    fahrenheit-high, celsius-high, fahrenheit-low, celsius-low, each the
    integer read from the cell's text without its last character. *)
Theorem weather_temperatures_by_position (res : Response document)
    (w : WeatherInformation.t) (earlier later : list node) (row : node)
    (day : list N) (c0 c1 c2 c3 : node) :
  weather res = Ok w ->
  take 7 (css (body res) None forecast_selector) = earlier ++ row :: later ->
  weather_day (body res) row = Ok day ->
  (forall r, r ∈ later -> weather_day (body res) r <> Ok day) ->
  css (body res) (Some row) temperature_selector = [c0; c1; c2; c3] ->
  exists wf,
    WeatherInformation.forecast w !! day = Some wf
    /\ int (slice_to_minus1 (text0 (body res) c0))
       = Ok (HighLowTemperature.highest (WeatherForecast.fahrenheit wf))
    /\ int (slice_to_minus1 (text0 (body res) c1))
       = Ok (HighLowTemperature.highest (WeatherForecast.celsius wf))
    /\ int (slice_to_minus1 (text0 (body res) c2))
       = Ok (HighLowTemperature.lowest (WeatherForecast.fahrenheit wf))
    /\ int (slice_to_minus1 (text0 (body res) c3))
       = Ok (HighLowTemperature.lowest (WeatherForecast.celsius wf)).
Proof.
  unfold weather. intros Hrun Hrows Hday Hlater Hcells. bind_inv Hrun.
  destruct (weather_collect_rows _ _ _ E Hrun) as (data0 & Hfc0 & Hfold).
  rewrite Hrows, res_fold_app in Hfold. bind_inv Hfold.
  cbn [res_fold] in Hfold. bind_inv Hfold.
  destruct (weather_rows_days _ _ _ _ _ Hfc0 E0) as (_ & fc1 & _ & Hfc1 & _).
  destruct (weather_row_forecast _ _ _ _ _ Hfc1 E1)
    as (day' & info & Hday' & Hinfo & Hfc2 & _).
  rewrite Hday in Hday'. injection Hday' as <-.
  destruct (weather_rows_other_days _ _ _ _ _ day Hfc2 Hfold Hlater)
    as (fc & Hfc & Hlook).
  rewrite lookup_insert_eq in Hlook.
  apply WeatherInformation_validate_Ok in Hrun as [_ Hv].
  unfold required in Hv. rewrite Hfc in Hv.
  destruct (v_dict_lookup _ _ _ _ _ _ Hv Hlook) as (wf & Hwf & Hvalid).
  exists wf. split; [done|]. cbn [v_model] in Hvalid.
  by eapply weather_info_temperatures.
Qed.

End ExtractorProperties.

(** * Further properties *)

(** ** [get_abs_image] *)

(** [get_abs_image] in closed form: the text between the first and the
    second [https://] of the link, with [https://] put in front. *)
Lemma get_abs_image_outcome (yimg_link : option (list N)) :
  get_abs_image yimg_link =
    match yimg_link with
    | None => Ok []
    | Some [] => Ok []
    | Some link =>
        match break_on (u "https://") link with
        | None => Raise IndexError
        | Some (_, after) => Ok (u "https://" ++ before (u "https://") after)
        end
    end.
Proof.
  destruct yimg_link as [[|c link]|]; try reflexivity.
  unfold get_abs_image. rewrite split_second by literal_neq.
  by destruct (break_on (u "https://") (c :: link)) as [[a b]|].
Qed.

(** Where [https://] starts right after [pre] and [pre] holds none, the
    leftmost occurrence is that one. *)
Lemma break_on_https (pre rest : list N) :
  contains (u "https://") pre = false ->
  break_on (u "https://") (pre ++ u "https://" ++ rest) = Some (pre, rest).
Proof.
  unfold contains. induction pre as [|c pre IH]; intros Hfree.
  - reflexivity.
  - cbn [break_on app] in *.
    destruct (strip_prefix (u "https://") (c :: pre)) eqn:E; [discriminate|].
    destruct (break_on (u "https://") pre) as [[a b]|] eqn:Hb; [discriminate|].
    rewrite (IH eq_refl).
    destruct (strip_prefix (u "https://") (c :: pre ++ u "https://" ++ rest))
      eqn:E'; [|reflexivity].
    exfalso. apply strip_prefix_Some in E'.
    change (u "https://") with [104; 116; 116; 112; 115; 58; 47; 47] in E, E'.
    destruct pre as [|c1 [|c2 [|c3 [|c4 [|c5 [|c6 [|c7 pre]]]]]]];
      simpl in E'; simplify_eq.
Qed.

Lemma before_free_id (sep s : list N) :
  contains sep s = false -> before sep s = s.
Proof.
  unfold contains, before. by destruct (break_on sep s) as [[a b]|].
Qed.

(** A link with a first [https://] after [pre]: what follows it, up to a
    second [https://], is returned behind a fresh [https://]. *)
Lemma get_abs_image_cut (pre tail : list N) :
  contains (u "https://") pre = false ->
  get_abs_image (Some (pre ++ u "https://" ++ tail))
  = Ok (u "https://" ++ before (u "https://") tail).
Proof.
  intros Hpre. rewrite get_abs_image_outcome.
  destruct (pre ++ u "https://" ++ tail) as [|c l] eqn:Hl.
  - destruct pre; discriminate Hl.
  - rewrite <- Hl. by rewrite break_on_https.
Qed.

(** X1: [get_abs_image] gives the empty string for an absent or empty link and
    raises [IndexError] for any other link without [https://]; otherwise
    it returns the first embedded [https://] URL, cut where a second
    [https://] begins. *)
Theorem get_abs_image_first_url :
  get_abs_image None = Ok []
  /\ get_abs_image (Some []) = Ok []
  /\ (forall link : list N,
        link <> [] -> contains (u "https://") link = false ->
        get_abs_image (Some link) = Raise IndexError)
  /\ (forall pre url rest : list N,
        contains (u "https://") pre = false ->
        contains (u "https://") url = false ->
        get_abs_image (Some (pre ++ u "https://" ++ url))
        = Ok (u "https://" ++ url)
        /\ get_abs_image (Some (pre ++ u "https://" ++ url ++ u "https://" ++ rest))
           = Ok (u "https://" ++ url)).
Proof.
  split; [reflexivity|]. split; [reflexivity|]. split.
  - intros link Hne Hfree. rewrite get_abs_image_outcome.
    destruct link; [congruence|]. unfold contains in Hfree.
    by destruct (break_on (u "https://") (n :: link)) as [[a b]|].
  - intros pre url rest Hpre Hurl.
    rewrite !get_abs_image_cut by done. split.
    + by rewrite before_free_id.
    + unfold before. by rewrite break_on_https.
Qed.

(** X2: [get_abs_image] leaves its own results as they are. *)
Theorem get_abs_image_idempotent (yimg_link : option (list N)) (s : list N) :
  get_abs_image yimg_link = Ok s -> get_abs_image (Some s) = Ok s.
Proof.
  rewrite get_abs_image_outcome.
  destruct yimg_link as [[|c link]|]; try (intros [= <-]; reflexivity).
  destruct (break_on (u "https://") (c :: link)) as [[a b]|]; [|discriminate].
  intros [= <-].
  pose proof (get_abs_image_cut [] (before (u "https://") b) eq_refl) as Hcut.
  rewrite (before_free_id (u "https://") (before (u "https://") b)) in Hcut;
    [exact Hcut|].
  apply before_free. literal_neq.
Qed.

(** ** [get_abs_link]: any segment *)

Lemma before_cons (sep : list N) (c : N) (s : list N) :
  strip_prefix sep (c :: s) = None ->
  before sep (c :: s) = c :: before sep s.
Proof.
  intros Hnone. unfold before. cbn [break_on]. rewrite Hnone.
  by destruct (break_on sep s) as [[a b]|].
Qed.

(** A segment without marker and slash that is followed by a slash ends
    there, wherever the next marker is. *)
Lemma segment_before_slash (seg rest : list N) :
  contains (u "/") seg = false ->
  contains (u "RU=") seg = false ->
  before (u "/") (before (u "RU=") (seg ++ u "/" ++ rest)) = seg.
Proof.
  unfold contains. induction seg as [|c seg IH]; intros Hslash Hmarker.
  - unfold before at 2. compute_literals. cbn.
    destruct (break_on [82; 85; 61] rest) as [[a b]|]; reflexivity.
  - cbn [break_on] in Hslash, Hmarker.
    destruct (strip_prefix (u "/") (c :: seg)) eqn:Es; [discriminate|].
    destruct (break_on (u "/") seg) as [[a b]|] eqn:Hbs; [discriminate|].
    destruct (strip_prefix (u "RU=") (c :: seg)) eqn:Em; [discriminate|].
    destruct (break_on (u "RU=") seg) as [[a b]|] eqn:Hbm; [discriminate|].
    cbn [app]. rewrite before_cons.
    + rewrite before_cons.
      * f_equal. by apply IH.
      * change (u "/") with [47] in *. cbn [strip_prefix] in *.
        by destruct (47 =? c).
    + destruct (strip_prefix (u "RU=") (c :: seg ++ u "/" ++ rest)) eqn:E';
        [|reflexivity].
      exfalso. apply strip_prefix_Some in E'.
      change (u "RU=") with [82; 85; 61] in Em, E'.
      change (u "/") with [47] in E'.
      destruct seg as [|c1 [|c2 seg]]; simpl in E'; simplify_eq.
Qed.

(** Without a percent sign there is nothing to decode. *)
Lemma unquote_without_percent (s : list N) : 37 ∉ s -> unquote s = s.
Proof.
  unfold unquote. induction s as [|c s IH]; intros Hfree; [reflexivity|].
  apply not_elem_of_cons in Hfree as [Hc Hs].
  cbn [unquote_to_bytes]. destruct (N.eqb_spec c 37) as [->|_]; [done|].
  destruct (c <? 128) eqn:Hlt; cbn [utf8_decode].
  - rewrite Hlt. f_equal. by apply IH.
  - f_equal. by apply IH.
Qed.

(** X3: For a link whose path holds a first marker followed by a segment
    without marker and slash, and then nothing or a slash, [get_abs_link]
    returns the segment percent-decoded, and the segment itself when it
    has no percent sign. *)
Theorem get_abs_link_segment `{PyLib} (link : list N) (parts : SplitResult)
    (pre seg tail : list N) :
  link <> [] ->
  urlsplit link = Ok parts ->
  path parts = pre ++ u "RU=" ++ seg ++ tail ->
  tail = [] \/ (exists rest, tail = u "/" ++ rest) ->
  contains (u "RU=") pre = false ->
  contains (u "RU=") seg = false ->
  contains (u "/") seg = false ->
  get_abs_link (Some link) = Ok (unquote seg)
  /\ (37 ∉ seg -> get_abs_link (Some link) = Ok seg).
Proof.
  intros Hne Hsplit Hpath Htail Hpre Hmarker Hslash.
  assert (get_abs_link (Some link) = Ok (unquote seg)) as Hres.
  { rewrite get_abs_link_outcome. destruct link; [congruence|].
    rewrite Hsplit, Hpath. rewrite break_on_marker by exact Hpre. do 2 f_equal.
    destruct Htail as [->|[rest ->]].
    - rewrite app_nil_r, (before_free_id (u "RU=") seg) by done.
      by rewrite before_free_id.
    - by apply segment_before_slash. }
  split; [done|]. intros Hfree. by rewrite Hres, unquote_without_percent.
Qed.

(** The predicate is exact: it holds of what [get_abs_link] returns and
    of nothing else. *)
Lemma decoded_destination_exact `{PyLib} (href : option (list N)) (s : list N) :
  decoded_destination href s -> get_abs_link href = Ok s.
Proof.
  intros [[[-> | ->] ->] | (link & parts & pre & seg & post & -> & Hne & Hsplit
                            & Hpath & Hpre & Hmarker & Hslash & Hpost & ->)];
    [reflexivity..|].
  rewrite get_abs_link_outcome. destruct link; [congruence|].
  rewrite Hsplit, Hpath. rewrite break_on_marker by exact Hpre. do 2 f_equal.
  destruct Hpost as [-> | [[rest ->] | [rest ->]]].
  - rewrite app_nil_r, (before_free_id (u "RU=") seg) by done.
    by rewrite before_free_id.
  - by apply segment_before_slash.
  - unfold before at 2. rewrite break_on_marker by exact Hmarker.
    by rewrite before_free_id.
Qed.

(** So the link of a page is what [get_abs_link] returns for the [href]
    of the last heading anchor of its block, and nothing else. *)
Lemma page_link_exact `{PyLib} `{Selectolax} (parser : document) (block : node)
    (s : list N) :
  page_link parser block s
  <-> exists (a : node) (href : option (list N)),
        last (css parser (Some block) (u "div.compTitle h3 a")) = Some a
        /\ attributes parser a !! u "href" = Some href
        /\ get_abs_link href = Ok s.
Proof.
  unfold page_link. split.
  - intros (a & href & Ha & Hhref & Hd). exists a, href.
    repeat split; [done..|]. by apply decoded_destination_exact.
  - intros (a & href & Ha & Hhref & Hs). exists a, href.
    repeat split; [done..|]. by apply get_abs_link_decoded.
Qed.

Section MoreExtractorProperties.
Context `{PyLib} `{Selectolax} `{Json}.

(** ** The status of the response *)

(** X4: [search] and [search_videos] raise on a status outside 200-299
    whatever the page holds; [search_news] and [weather] never look at
    the status. *)
Theorem status_checked_by_search_and_videos (res : Response document)
    (status : Z) :
  (status < 200 \/ 300 <= status)%Z ->
  search {| status_code := status; body := body res |} = Raise HTTPStatusError
  /\ search_videos {| status_code := status; body := body res |}
     = Raise HTTPStatusError
  /\ search_news {| status_code := status; body := body res |} = search_news res
  /\ weather {| status_code := status; body := body res |} = weather res.
Proof.
  intros Hstatus.
  assert (raise_for_status {| status_code := status; body := body res |}
          = Raise HTTPStatusError) as Hraise.
  { unfold raise_for_status. cbn [status_code].
    destruct (200 <=? status)%Z eqn:H200; [|reflexivity].
    destruct (status <? 300)%Z eqn:H300; [|reflexivity]. lia. }
  unfold search, search_videos. rewrite Hraise. repeat split.
Qed.

(** ** [search]: one entry per element *)

(** X5: Whenever [search] returns, its lists follow the page position by
    position: the [i]-th page has the title of the last heading anchor of
    the [i]-th result block, the [i]-th "also try" item the text of the
    [i]-th anchor of the "also try" list, the [i]-th related search the
    cleaned text of the [i]-th anchor of the footer table; each list is as
    long as the list of its elements, so that no element is skipped and
    none is reported twice. *)
Theorem search_one_entry_per_element (res : Response document)
    (r : SearchResult.t) :
  search res = Ok r -> texts_by_position (body res) r.
Proof.
  unfold search. intros Hrun. bind_inv Hrun.
  destruct (search_middle _ _ E0) as [middle Hmiddle].
  destruct (search_collect_entries _ _ _ Hmiddle E0)
    as (st & contents & lp & la & lr & Hlists & Hlp & Hla & Hlr
        & Hlenp & Hallp & Hlena & Halla & Hlenr & Hallr).
  apply SearchResult_validate_Ok in Hrun as (Hva & Hvp & _ & Hvr).
  apply (required_list_lookup _ _ _ _ _ Hlp) in Hvp as [Hnp Hvp].
  apply (required_list_lookup _ _ _ _ _ Hla) in Hva as [Hna Hva].
  apply (required_list_lookup _ _ _ _ _ Hlr) in Hvr as [Hnr Hvr].
  exists middle, st, contents. split; [done|]. split; [done|].
  split; [congruence|]. split; [|split; [congruence|split; [|split; [congruence|]]]].
  - intros i block p Hi Hp.
    destruct (Hallp i block Hi) as (sti & d & Hsti & Hd & Hentry).
    destruct (Hvp i p Hp) as (v & Hv & Hvalid).
    rewrite Hd in Hv. injection Hv as <-. cbn [v_model] in Hvalid.
    unfold PageResult.validate in Hvalid. bind_inv Hvalid.
    injection Hvalid as <-. cbn [PageResult.title].
    apply required_str in E1. unfold page_entry in Hentry.
    destruct (last (css sti.1 (Some block) (u "div.compTitle h3 a")))
      as [anchor|] eqn:Hlast.
    + destruct Hentry as (href & s & _ & _ & _ & Htitle).
      exists sti, anchor. split; [done|]. split; [done|]. congruence.
    + destruct Hentry as [_ Hno]. congruence.
  - intros i anchor e Hi He.
    destruct (Halla i anchor Hi) as (href & Hhref & Hd).
    destruct (Hva i e He) as (v & Hv & Hvalid).
    rewrite Hd in Hv. injection Hv as <-. cbn [v_model] in Hvalid.
    unfold AlsoTryItem.validate in Hvalid. bind_inv Hvalid.
    injection Hvalid as <-. cbn [AlsoTryItem.text].
    apply required_str in E2. rewrite lookup_insert_eq in E2.
    by injection E2 as ->.
  - intros i anchor e Hi He.
    destruct (Hallr i anchor Hi) as (sti & href & Hsti & Hhref & Hd).
    destruct (Hvr i e He) as (v & Hv & Hvalid).
    rewrite Hd in Hv. injection Hv as <-. cbn [v_model] in Hvalid.
    unfold RelatedSearch.validate in Hvalid. bind_inv Hvalid.
    injection Hvalid as <-. cbn [RelatedSearch.text].
    apply required_str in E2. rewrite lookup_insert_eq in E2.
    exists sti. split; [done|]. by injection E2 as <-.
Qed.

(** ** [search]: result blocks without a usable heading *)

Lemma search_collect_pages_prefix
    (st0 st : document * gmap (list N) pyval) (l : list pyval)
    (blocks : list node) :
  st0.2 !! u "pages" = Some (VList l) ->
  (st1 <- res_fold search_webpage st0 blocks;;
   st2 <- match css_first st1.1 None (u ".cardReg.searchRightTop") with
          | Some card => search_card st1 card
          | None => Ok st1
          end;;
   contents <-
     res_fold (search_also_try st2.1) st2.2
              (css st2.1 None (u "ol.cardReg.searchTop .compDlink li span a"));;
   res_fold search_related (st2.1, contents)
            (css st2.1 None (u "ol.scf.reg.searchCenterFooter tbody tr td a")))
  = Ok st ->
  exists l', st.2 !! u "pages" = Some (VList (l ++ l')).
Proof.
  intros Hl Hrun. bind_inv Hrun.
  destruct (search_webpages_append _ _ _ _ Hl E) as (l' & Hl' & _).
  exists l'.
  assert (a0.2 !! u "pages" = a.2 !! u "pages") as Hcard.
  { destruct (css_first a.1 None (u ".cardReg.searchRightTop")) as [card|].
    - eapply search_card_other; [done|literal_neq].
    - by injection E0 as <-. }
  rewrite <- Hl', <- Hcard.
  assert (a1 !! u "pages" = a0.2 !! u "pages") as Hat.
  { revert E1. apply (res_fold_preserved (fun c => c !! u "pages")).
    intros c x c' Hstep. unfold search_also_try in Hstep. bind_inv Hstep.
    injection Hstep as <-. apply append_in_other. literal_neq. }
  rewrite <- Hat.
  change (a1 !! u "pages") with ((a0.1, a1).2 !! u "pages").
  revert Hrun. apply (res_fold_preserved (fun s => s.2 !! u "pages")).
  intros s x s' Hstep. unfold search_related in Hstep.
  destruct (clean_text s.1 x) as [p t]. bind_inv Hstep.
  injection Hstep as <-. cbn [snd]. apply append_in_other. literal_neq.
Qed.

(** X6: A result block in which [div.compTitle h3 a] finds no anchor makes
    [search] raise, whatever the rest of the page holds: the block's page
    has no title and no link, and both are required. *)
Theorem search_requires_heading (res : Response document) (middle : node)
    (earlier later : list node) (webpage : node)
    (st : document * gmap (list N) pyval) :
  css_first (body res) None (u ".reg.searchCenterMiddle") = Some middle ->
  css (body res) (Some middle) (u ".dd.algo.algo-sr")
  = earlier ++ webpage :: later ->
  res_fold search_webpage (body res, search_contents) earlier = Ok st ->
  css st.1 (Some webpage) (u "div.compTitle h3 a") = [] ->
  raised (search res).
Proof.
  intros Hsearch Hblocks Hst Hnone.
  destruct (search res) as [r|e] eqn:Hrun; [exfalso|exact I].
  unfold search in Hrun. bind_inv Hrun.
  unfold search_collect, search_pages in E0. rewrite Hsearch, Hblocks in E0.
  rewrite res_fold_app, Hst in E0. cbn [res_bind res_fold] in E0.
  destruct (search_webpage st webpage) as [st1|] eqn:Hstep;
    cbn [res_bind] in E0; [|discriminate].
  assert (exists l, st.2 !! u "pages" = Some (VList l)) as [l Hl].
  { destruct (search_webpages_append earlier (body res, search_contents) st []
                eq_refl Hst) as (l & Hl & _). eauto. }
  destruct (search_webpage_appends _ _ _ _ Hl Hstep) as (pr & Hpr & Hnotitle).
  destruct (search_collect_pages_prefix _ _ _ _ Hpr E0) as (l' & Hpages).
  apply SearchResult_validate_Ok in Hrun as (_ & Hvp & _).
  unfold required in Hvp. rewrite Hpages in Hvp. cbn [v_list] in Hvp.
  apply res_map_Forall2 in Hvp.
  apply Forall2_app_inv_l in Hvp as (p1 & p2 & Hp1 & _ & _).
  apply Forall2_app_inv_l in Hp1 as (p3 & p4 & _ & Hp4 & _).
  inversion Hp4 as [|? p ? ? Hp]; subst. cbn [v_model] in Hp.
  unfold PageResult.validate in Hp. bind_inv Hp.
  unfold required in E1. by rewrite (Hnotitle Hnone) in E1.
Qed.

(** X7: The first heading anchor of the first result block decides: without
    an [href] attribute [search] raises [KeyError], and with an [href]
    whose path has no marker [RU=] (a link that is not wrapped in a
    redirect) it raises [IndexError]. *)
Theorem search_heading_href_errors (res : Response document) (middle : node)
    (webpage : node) (blocks : list node) (a : node) (anchors : list node) :
  raise_for_status res = Ok tt ->
  css_first (body res) None (u ".reg.searchCenterMiddle") = Some middle ->
  css (body res) (Some middle) (u ".dd.algo.algo-sr") = webpage :: blocks ->
  css (body res) (Some webpage) (u "div.compTitle h3 a") = a :: anchors ->
  (attributes (body res) a !! u "href" = None ->
   search res = Raise (KeyError (u "href")))
  /\ (forall (link : list N) (parts : SplitResult),
        attributes (body res) a !! u "href" = Some (Some link) ->
        link <> [] -> urlsplit link = Ok parts ->
        contains (u "RU=") (path parts) = false ->
        search res = Raise IndexError).
Proof.
  intros Hstatus Hsearch Hblocks Hanchors.
  assert (forall e,
            search_title (body res) ∅ a = Raise e -> search res = Raise e) as Hfail.
  { intros e He. unfold search, search_collect, search_pages.
    rewrite Hstatus, Hsearch, Hblocks. cbn [res_bind res_fold].
    unfold search_webpage. cbn [fst]. rewrite Hanchors. cbn [res_fold].
    by rewrite He. }
  split.
  - intros Hhref. apply Hfail. unfold search_title, attr_getitem.
    by rewrite Hhref.
  - intros link parts Hhref Hne Hsplit Hfree. apply Hfail.
    unfold search_title, attr_getitem. rewrite Hhref. cbn [res_bind].
    rewrite get_abs_link_outcome. destruct link; [congruence|].
    rewrite Hsplit. unfold contains in Hfree.
    by destruct (break_on (u "RU=") (path parts)) as [[x y]|].
Qed.

(** ** [search]: a page with one result block *)

Lemma search_titles_ok (parser : document) (anchors : list node)
    (d : gmap (list N) pyval) :
  (forall x, x ∈ anchors ->
     exists h l, attributes parser x !! u "href" = Some h
                 /\ get_abs_link h = Ok l) ->
  exists d', res_fold (search_title parser) d anchors = Ok d'
             /\ d' !! u "text" = d !! u "text".
Proof.
  revert d. induction anchors as [|x anchors IH]; intros d Hok.
  - by exists d.
  - destruct (Hok x) as (h & l & Hh & Hl); [by left|].
    assert (exists d1, search_title parser d x = Ok d1
                       /\ d1 !! u "text" = d !! u "text") as (d1 & Hd1 & Ht1).
    { unfold search_title, attr_getitem. rewrite Hh. cbn [res_bind].
      rewrite Hl. cbn [res_bind]. eexists. split; [reflexivity|].
      by rewrite !lookup_insert_ne by literal_neq. }
    destruct (IH d1) as (d' & Hd' & Htext).
    { intros y Hy. apply Hok. by right. }
    exists d'. cbn [res_fold]. rewrite Hd1. cbn [res_bind].
    split; [exact Hd'|]. by rewrite Htext.
Qed.

(** X8: On a page with a single result block, no card panel and no other list,
    the page's title and link come from the last heading anchor of the
    block (an earlier anchor only has to decode), the title is the text of
    that anchor's last child, and the text stays unset when the block has
    no abstract paragraph.  The card is present and empty. *)
Theorem search_last_heading_wins (res : Response document) (middle : node)
    (webpage : node) (anchors : list node) (a : node)
    (href : option (list N)) (link : list N) :
  raise_for_status res = Ok tt ->
  css_first (body res) None (u ".reg.searchCenterMiddle") = Some middle ->
  css (body res) (Some middle) (u ".dd.algo.algo-sr") = [webpage] ->
  css (body res) (Some webpage) (u "div.compTitle h3 a") = anchors ++ [a] ->
  (forall x, x ∈ anchors ->
     exists h l, attributes (body res) x !! u "href" = Some h
                 /\ get_abs_link h = Ok l) ->
  attributes (body res) a !! u "href" = Some href ->
  get_abs_link href = Ok link ->
  css (body res) (Some webpage) (u ".compText.aAbs p") = [] ->
  css (body res) None (u ".cardReg.searchRightTop") = [] ->
  css (body res) None also_try_selector = [] ->
  css (body res) None related_selector = [] ->
  search res
  = Ok {| SearchResult.also_try := [];
          SearchResult.pages :=
            [{| PageResult.title :=
                  match last_child (body res) a with
                  | Some c => text0 (body res) c
                  | None => []
                  end;
                PageResult.link := link;
                PageResult.text := None |}];
          SearchResult.card :=
            Some {| CardResult.image := None; CardResult.heading := None;
                    CardResult.text := None; CardResult.source := None |};
          SearchResult.related_searches := [] |}.
Proof.
  intros Hstatus Hsearch Hblocks Hanchors Hearlier Hhref Hlink Htexts Hcard
    Halso Hrelated.
  destruct (search_titles_ok (body res) anchors ∅ Hearlier) as (d & Hd & Htext).
  rewrite lookup_empty in Htext.
  unfold search, search_collect, search_pages.
  rewrite Hstatus, Hsearch, Hblocks. cbn [res_bind res_fold].
  unfold search_webpage. cbn [fst snd].
  rewrite Hanchors, Htexts, res_fold_app, Hd. cbn [res_bind res_fold fold_left].
  unfold search_title, attr_getitem. rewrite Hhref. cbn [res_bind].
  rewrite Hlink. cbn [res_bind fst snd].
  unfold css_first. rewrite Hcard. cbn [head res_bind fst snd].
  unfold also_try_selector in Halso. unfold related_selector in Hrelated.
  rewrite Halso, Hrelated. cbn [res_fold res_bind snd].
  unfold SearchResult.validate, required, with_default.
  rewrite (append_in_other (u "pages") (u "also_try")) by literal_neq.
  rewrite (append_in_same (u "pages") _ search_contents []) by reflexivity.
  rewrite (append_in_other (u "pages") (u "card")) by literal_neq.
  rewrite (append_in_other (u "pages") (u "related_searches")) by literal_neq.
  change (search_contents !! u "also_try") with (Some (VList [])).
  change (search_contents !! u "card") with (Some (VDict ∅)).
  change (search_contents !! u "related_searches") with (Some (VList [])).
  cbv iota. rewrite CardResult_validate_empty.
  cbn [v_list res_map res_bind app v_model].
  unfold PageResult.validate, required, with_default.
  rewrite (lookup_insert_ne _ (u "link") (u "title")) by literal_neq.
  rewrite !lookup_insert_eq.
  rewrite !(lookup_insert_ne _ _ (u "text")) by literal_neq.
  rewrite Htext. reflexivity.
Qed.

(** ** [search]: the card panel *)

(** X9: On a page without result blocks whose card panel has a paragraph and,
    in it, a source anchor: the card's text is the text of the first child
    node of the paragraph alone, the source carries the anchor's text and
    decoded link, image and heading stay unset.  The anchor's [href] is
    read with [.get]: without the attribute the link is the empty string,
    where a heading anchor would make [search] raise. *)
Theorem search_card_source (res : Response document) (middle : node)
    (card : node) (cards : list node) (inner : node) (inners : list node)
    (source : node) (sources : list node) (link : list N) :
  raise_for_status res = Ok tt ->
  css_first (body res) None (u ".reg.searchCenterMiddle") = Some middle ->
  css (body res) (Some middle) (u ".dd.algo.algo-sr") = [] ->
  css (body res) None (u ".cardReg.searchRightTop") = card :: cards ->
  css (body res) (Some card) (u "img") = [] ->
  css (body res) (Some card) (u "p.pl-15.pr-10 span") = [] ->
  css (body res) (Some card) (u "div.compText p") = inner :: inners ->
  css (body res) (Some inner) (u "a") = source :: sources ->
  get_abs_link (attr_get (attributes (body res) source) (u "href")) = Ok link ->
  css (body res) None also_try_selector = [] ->
  css (body res) None related_selector = [] ->
  search res
  = Ok {| SearchResult.also_try := [];
          SearchResult.pages := [];
          SearchResult.card :=
            Some {| CardResult.image := None; CardResult.heading := None;
                    CardResult.text :=
                      Some match first_child (body res) inner with
                           | Some t => text0 (body res) t
                           | None => []
                           end;
                    CardResult.source :=
                      Some {| CardResultSource.link := link;
                              CardResultSource.text := text0 (body res) source |}
                 |};
          SearchResult.related_searches := [] |}
  /\ (attributes (body res) source !! u "href" = None -> link = []).
Proof.
  intros Hstatus Hsearch Hblocks Hcard Himg Hheading Hinner Hsource Hlink
    Halso Hrelated.
  split.
  - unfold search, search_collect, search_pages.
    rewrite Hstatus, Hsearch, Hblocks. cbn [res_bind res_fold fst snd].
    unfold css_first at 1. rewrite Hcard. cbn [head].
    unfold search_card, css_first. cbn [fst snd].
    rewrite Himg, Hheading. cbn [head res_bind fst snd].
    rewrite Hinner. cbn [head]. rewrite Hsource. cbn [head].
    rewrite Hlink. cbn [res_bind fst snd].
    unfold also_try_selector in Halso. unfold related_selector in Hrelated.
    rewrite Halso, Hrelated. cbn [res_fold res_bind snd].
    unfold SearchResult.validate, required, with_default.
    rewrite !(update_in_other (u "card") _ (u "also_try")) by literal_neq.
    rewrite !(update_in_other (u "card") _ (u "pages")) by literal_neq.
    rewrite !(update_in_other (u "card") _ (u "related_searches")) by literal_neq.
    erewrite (update_in_same (u "card"));
      [|by apply (update_in_same (u "card") _ _ search_contents ∅)].
    change (search_contents !! u "also_try") with (Some (VList [])).
    change (search_contents !! u "pages") with (Some (VList [])).
    change (search_contents !! u "related_searches") with (Some (VList [])).
    cbn [v_list res_map res_bind v_optional v_model].
    unfold CardResult.validate, with_default. dict_lookup.
    cbn [v_optional v_str v_model res_bind].
    unfold CardResultSource.validate, required. dict_lookup.
    reflexivity.
  - intros Hnone. unfold attr_get in Hlink. rewrite Hnone in Hlink.
    by injection Hlink as <-.
Qed.

End MoreExtractorProperties.

Lemma VideoSearchResult_validate_Ok (l : list pyval) (r : VideoSearchResult.t) :
  VideoSearchResult.validate (<[u "videos" := VList l]> ∅) = Ok r ->
  Forall2 (fun v x => v_model Video.validate v = Ok x) l
          (VideoSearchResult.videos r).
Proof.
  unfold VideoSearchResult.validate, required. rewrite lookup_insert_eq.
  cbn [v_list]. intros Hv. bind_inv Hv. injection Hv as <-.
  by apply res_map_Forall2.
Qed.

Section NewsAndVideos.
Context `{PyLib} `{Selectolax} `{Json}.

(** ** [search_news]: rows and thumbnails *)

(** One round of the loop over the news rows appends the dictionary of
    the row, read in the document the round starts with. *)
Lemma news_item_entry (st : document * list pyval) (row : node)
    (st' : document * list pyval) :
  news_item st row = Ok st' ->
  exists this,
    st'.2 = st.2 ++ [VDict this]
    /\ this !! u "title"
       = (fun t => VStr (text0 st.1 t)) <$> css_first st.1 (Some row) (u "h4 a")
    /\ this !! u "source"
       = (fun t => VStr (text0 st.1 t))
           <$> css_first st.1 (Some row) (u "span.s-source")
    /\ this !! u "text"
       = (fun t => VStr (clean_text st.1 t).2)
           <$> css_first st.1 (Some row) (u "p.s-desc")
    /\ match css_first st.1 (Some row) (u "img") with
       | Some img =>
           exists src,
             attributes st.1 img !! u "src" = Some (Some src)
             /\ this !! u "thumbnail"
                = Some (if startswith (u "data:image/") src then VNone
                        else VStr src)
       | None => this !! u "thumbnail" = None
       end
    /\ this !! u "last_updated" = None.
Proof.
  unfold news_item. intros Hrun. bind_inv Hrun. cbv zeta in Hrun.
  assert (match css_first st.1 (Some row) (u "img") with
          | Some img =>
              exists src,
                attributes st.1 img !! u "src" = Some (Some src)
                /\ a !! u "thumbnail"
                   = Some (if startswith (u "data:image/") src then VNone
                           else VStr src)
          | None => a !! u "thumbnail" = None
          end
          /\ forall k, u "thumbnail" <> k -> a !! k = None) as [Ha1 Ha2].
  { destruct (css_first st.1 (Some row) (u "img")) as [img|].
    - bind_inv E. destruct a1 as [src|]; [|discriminate]. injection E as <-.
      split.
      + exists src. split; [|by rewrite lookup_insert_eq].
        unfold attr_getitem in E1.
        by destruct (attributes st.1 img !! u "src"); simplify_eq.
      + intros k Hk. by rewrite lookup_insert_ne, lookup_empty.
    - injection E as <-. split; [|intros k _]; by rewrite lookup_empty. }
  assert (a0 !! u "title"
          = (fun t => VStr (text0 st.1 t)) <$> css_first st.1 (Some row) (u "h4 a")
          /\ forall k, u "title" <> k -> u "link" <> k -> a0 !! k = a !! k)
    as [Hb1 Hb2].
  { destruct (css_first st.1 (Some row) (u "h4 a")) as [title|].
    - bind_inv E0. injection E0 as <-. split.
      + by rewrite lookup_insert_ne, lookup_insert_eq by literal_neq.
      + intros k Hk1 Hk2. by rewrite !lookup_insert_ne.
    - injection E0 as <-. split; [|done]. cbn. apply Ha2. literal_neq. }
  clear E E0.
  set (d1 := match css_first st.1 (Some row) (u "span.s-source") with
             | Some source => <[u "source" := VStr (text0 st.1 source)]> a0
             | None => a0
             end) in Hrun.
  set (d2 := match css_first st.1 (Some row) (u "span.fc-2nd.s-time") with
             | Some last_updated =>
                 <[u "time" := VStr (slice_from 2 (text0 st.1 last_updated))]> d1
             | None => d1
             end) in Hrun.
  assert (d2 !! u "source"
          = (fun t => VStr (text0 st.1 t))
              <$> css_first st.1 (Some row) (u "span.s-source")
          /\ forall k, u "source" <> k -> u "time" <> k -> d2 !! k = a0 !! k)
    as [Hd1 Hd2].
  { subst d2 d1. split.
    - rewrite optional_insert_other by literal_neq.
      rewrite (optional_insert_same _ _ (fun t => VStr (text0 st.1 t))).
      destruct (css_first st.1 (Some row) (u "span.s-source")); [done|].
      cbn. rewrite Hb2 by literal_neq. apply Ha2. literal_neq.
    - intros k Hk1 Hk2. by rewrite !optional_insert_other. }
  clearbody d2. clear d1.
  assert (forall k, u "thumbnail" <> k -> u "title" <> k -> u "link" <> k ->
            u "source" <> k -> u "time" <> k -> d2 !! k = None) as Hnone.
  { intros k ? ? ? ? ?. rewrite Hd2, Hb2 by done. by apply Ha2. }
  assert (d2 !! u "thumbnail" = a !! u "thumbnail") as Hthumb.
  { rewrite Hd2, Hb2 by literal_neq. done. }
  assert (d2 !! u "title" = a0 !! u "title") as Htitle
    by (apply Hd2; literal_neq).
  destruct (css_first st.1 (Some row) (u "p.s-desc")) as [description|].
  - unfold clean_text in Hrun at 1. cbn [fst snd] in Hrun.
    injection Hrun as <-. eexists. split; [reflexivity|].
    rewrite lookup_insert_eq, !lookup_insert_ne by literal_neq.
    rewrite Htitle, Hb1, Hd1, Hthumb. repeat split; try done.
    apply Hnone; literal_neq.
  - injection Hrun as <-. exists d2. split; [reflexivity|].
    rewrite Htitle, Hb1, Hd1, Hthumb. repeat split; try done.
    all: apply Hnone; literal_neq.
Qed.

(** X10: Whenever [search_news] returns, its records follow the rows
    position by position: there are as many records as rows matched by
    [li .dd.NewsArticle li] in the results container, and the [i]-th
    record holds the heading, source, description and thumbnail of the
    [i]-th row, read in the document as the loop reaches the row.  With
    a results container and no row it returns the empty list: a page
    without news is not an error. *)
Theorem search_news_one_record_per_row (res : Response document) :
  (forall r, search_news res = Ok r -> news_by_position (body res) r)
  /\ (forall container,
        css_first (body res) None (u "#main #web") = Some container ->
        css (body res) (Some container) (u "li .dd.NewsArticle li") = [] ->
        search_news res = Ok {| NewsSearchResult.news := [] |}).
Proof.
  split.
  2:{ intros container Hweb Hrows. unfold search_news, news_collect.
      by rewrite Hweb, Hrows. }
  intros r. unfold search_news, news_collect. intros Hrun. bind_inv Hrun.
  destruct (css_first (body res) None (u "#main #web")) as [container|] eqn:Hweb;
    [|discriminate].
  exists container. split; [done|].
  eapply (res_fold_indexed news_item snd (fun _ => True)
            (fun s x c =>
               exists this,
                 c = VDict this
                 /\ this !! u "title"
                    = (fun t => VStr (text0 s.1 t))
                        <$> css_first s.1 (Some x) (u "h4 a")
                 /\ this !! u "source"
                    = (fun t => VStr (text0 s.1 t))
                        <$> css_first s.1 (Some x) (u "span.s-source")
                 /\ this !! u "text"
                    = (fun t => VStr (clean_text s.1 t).2)
                        <$> css_first s.1 (Some x) (u "p.s-desc")
                 /\ match css_first s.1 (Some x) (u "img") with
                    | Some img =>
                        exists src,
                          attributes s.1 img !! u "src" = Some (Some src)
                          /\ this !! u "thumbnail"
                             = Some (if startswith (u "data:image/") src
                                     then VNone else VStr src)
                    | None => this !! u "thumbnail" = None
                    end
                 /\ this !! u "last_updated" = None))
    in E as (l & Hl & Hlen & Hall); cycle 1.
  { intros s x s' _ Hstep. split; [done|].
    destruct (news_item_entry _ _ _ Hstep) as (this & Hthis & Hfacts).
    exists (VDict this). split; [done|]. by exists this. }
  { done. }
  cbn [snd app] in Hl. rewrite Hl in Hrun.
  apply NewsSearchResult_validate_Ok in Hrun.
  split; [rewrite <- Hlen; symmetry; by eapply Forall2_length|].
  intros i row n Hi Hn.
  destruct (Hall i row Hi)
    as (sti & c & Hsti & Hc & this & -> & Htitle & Hsource & Htext & Hthumb & Htime).
  destruct (Forall2_lookup_r _ _ _ _ _ Hrun Hn) as (v & Hv & Hvalid).
  rewrite Hc in Hv. injection Hv as <-. cbn [v_model] in Hvalid.
  exists sti. split; [done|].
  unfold News.validate in Hvalid. bind_inv Hvalid. injection Hvalid as <-.
  cbn [News.title News.source News.text News.thumbnail News.last_updated].
  apply required_str in E. apply optional_str_field in E0, E1, E2, E3.
  unfold news_of.
  cbn [News.title News.source News.text News.thumbnail News.last_updated].
  rewrite Htitle in E. rewrite Hsource in E1. rewrite Htext in E3.
  rewrite Htime in E2.
  repeat split.
  - destruct (css_first sti.1 (Some row) (u "h4 a")) as [title|];
      [|discriminate]. injection E as <-. by exists title.
  - by destruct (css_first sti.1 (Some row) (u "span.s-source")).
  - by destruct (css_first sti.1 (Some row) (u "p.s-desc")).
  - destruct (css_first sti.1 (Some row) (u "img")) as [img|].
    + destruct Hthumb as (src & Hsrc & Hthumb). exists src. split; [done|].
      rewrite Hthumb in E0. by destruct (startswith (u "data:image/") src).
    + by rewrite Hthumb in E0.
  - done.
Qed.

(** X11: The thumbnail of the first row: an image without [src] attribute makes
    [search_news] raise [KeyError], one whose [src] has no value raises
    [AttributeError]; when the row is the only one and has a heading, the
    thumbnail is the [src] as it stands, except that an inline
    [data:image/] placeholder is reported as no thumbnail. *)
Theorem search_news_thumbnail (res : Response document) (page : node)
    (item : node) (items : list node) (img : node) (imgs : list node) :
  css_first (body res) None (u "#main #web") = Some page ->
  css (body res) (Some page) (u "li .dd.NewsArticle li") = item :: items ->
  css (body res) (Some item) (u "img") = img :: imgs ->
  (attributes (body res) img !! u "src" = None ->
   search_news res = Raise (KeyError (u "src")))
  /\ (attributes (body res) img !! u "src" = Some None ->
      search_news res = Raise AttributeError)
  /\ (forall (src : list N) (title : node) (others : list node)
             (href : option (list N)),
        attributes (body res) img !! u "src" = Some (Some src) ->
        items = [] ->
        css (body res) (Some item) (u "h4 a") = title :: others ->
        attributes (body res) title !! u "href" = Some href ->
        css (body res) (Some item) (u "span.s-source") = [] ->
        css (body res) (Some item) (u "span.fc-2nd.s-time") = [] ->
        css (body res) (Some item) (u "p.s-desc") = [] ->
        search_news res
        = Ok {| NewsSearchResult.news :=
                  [{| News.title := text0 (body res) title;
                      News.thumbnail :=
                        if startswith (u "data:image/") src then None
                        else Some src;
                      News.source := None; News.last_updated := None;
                      News.text := None |}] |}).
Proof.
  intros Hpage Hrows Himg.
  assert (forall e,
            attr_getitem (attributes (body res) img) (u "src") = Raise e
            \/ (attr_getitem (attributes (body res) img) (u "src") = Ok None
                /\ e = AttributeError) ->
            search_news res = Raise e) as Hfail.
  { intros e He. unfold search_news, news_collect. rewrite Hpage, Hrows.
    cbn [res_fold].
    assert (news_item (body res, []) item = Raise e) as ->; [|reflexivity].
    unfold news_item, css_first. cbn [fst]. rewrite Himg. cbn [head].
    destruct He as [-> | [-> ->]]; reflexivity. }
  split; [|split].
  - intros Hsrc. apply Hfail. left. unfold attr_getitem. by rewrite Hsrc.
  - intros Hsrc. apply Hfail. right. unfold attr_getitem. by rewrite Hsrc.
  - intros src title others href Hsrc -> Htitle Hhref Hsource Htime Hdesc.
    unfold search_news, news_collect. rewrite Hpage, Hrows.
    cbn [res_fold res_bind]. unfold news_item, css_first. cbn [fst snd].
    rewrite Htitle, Himg, Hsource, Htime, Hdesc. cbn [head res_bind].
    unfold attr_getitem. rewrite Hsrc, Hhref. cbn [res_bind app].
    unfold NewsSearchResult.validate, required. dict_lookup.
    cbn [v_list res_map v_model]. unfold News.validate, required, with_default.
    dict_lookup. destruct (startswith (u "data:image/") src); reflexivity.
Qed.

(** ** [search_videos] *)

(** One round of the loop appends one dictionary; its link, if any, is the
    video host followed by the [href] of an anchor. *)
Lemma video_item_appends (st : document * list pyval) (result : node)
    (st' : document * list pyval) :
  video_item st result = Ok st' ->
  exists this,
    st'.2 = st.2 ++ [VDict this]
    /\ forall x, this !! u "link" = Some x ->
         exists href, x = VStr (u "https://sg.video.search.yahoo.com" ++ href).
Proof.
  unfold video_item, css_first. intros Hrun. bind_inv Hrun.
  set (P := fun d : gmap (list N) pyval =>
              forall x, d !! u "link" = Some x ->
                exists href,
                  x = VStr (u "https://sg.video.search.yahoo.com" ++ href)).
  assert (P a) as Ha.
  { destruct (head (css st.1 (Some result) (u "a"))) as [anchor|].
    - bind_inv E. destruct a1 as [href|]; [|discriminate].
      injection E2 as <-.
      assert (P (<[u "link" :=
                     VStr (u "https://sg.video.search.yahoo.com" ++ href)]> ∅))
        as Hlink.
      { intros x. rewrite lookup_insert_eq. intros [= <-]. by exists href. }
      destruct (attr_get (attributes st.1 anchor) (u "data")) as [[|c p]|].
      + by injection E as <-.
      + bind_inv E. destruct (truthy a2).
        * bind_inv E. injection E as <-. intros x.
          rewrite lookup_insert_ne by literal_neq. apply Hlink.
        * by injection E as <-.
      + by injection E as <-.
    - injection E as <-. intros x. by rewrite lookup_empty. }
  assert (P a0) as Hb.
  { destruct (head (css st.1 (Some result) (u "img"))).
    - bind_inv E0. injection E0 as <-. intros x.
      rewrite lookup_insert_ne by literal_neq. apply Ha.
    - by injection E0 as <-. }
  clear E E0 Ha.
  assert (forall k v d, k <> u "link" -> P d -> P (<[k := v]> d)) as Hins.
  { intros k v d Hk Hd x. rewrite lookup_insert_ne by done. apply Hd. }
  destruct (head (css st.1 (Some result)
                      (u "div.pos-box .vthm .stack.grad span.v-time")));
    (destruct (head (css st.1 (Some result) (u "div.v-meta"))) as [metadata|];
     [destruct (first_child st.1 metadata) as [title|];
      [destruct (clean_text st.1 title) as [parser text]|];
      cbn [fst snd] in Hrun;
      destruct (head (css _ (Some metadata) (u ".v-age")));
      destruct (last_child _ metadata)|]);
    injection Hrun as <-; eexists; (split; [reflexivity|]);
    repeat (apply Hins; [literal_neq|]); exact Hb.
Qed.

Lemma video_items_listed (results : list node) (st st' : document * list pyval) :
  res_fold video_item st results = Ok st' ->
  exists l,
    st'.2 = st.2 ++ l
    /\ length l = length results
    /\ Forall (fun v => exists this,
                 v = VDict this
                 /\ forall x, this !! u "link" = Some x ->
                      exists href,
                        x = VStr (u "https://sg.video.search.yahoo.com" ++ href))
              l.
Proof.
  revert st. induction results as [|x results IH]; intros st Hrun.
  - injection Hrun as <-. exists []. by rewrite app_nil_r.
  - cbn [res_fold] in Hrun. bind_inv Hrun.
    destruct (video_item_appends _ _ _ E) as (this & Hthis & Hlink).
    destruct (IH _ Hrun) as (l & Hl & Hlen & Hall).
    exists (VDict this :: l). split; [|split].
    + by rewrite Hl, Hthis, <- app_assoc.
    + cbn [length]. by rewrite Hlen.
    + constructor; [eauto|done].
Qed.

(** One round of the loop over the video items appends the dictionary of
    the item, read in the document the round starts with. *)
Lemma video_item_entry (st : document * list pyval) (item : node)
    (st' : document * list pyval) :
  video_item st item = Ok st' ->
  exists this,
    st'.2 = st.2 ++ [VDict this]
    /\ match css_first st.1 (Some item) (u "a") with
       | Some a =>
           exists href,
             attributes st.1 a !! u "href" = Some (Some href)
             /\ this !! u "link"
                = Some (VStr (u "https://sg.video.search.yahoo.com" ++ href))
       | None => this !! u "link" = None
       end
    /\ match css_first st.1 (Some item) (u "img") with
       | Some img =>
           exists src,
             attributes st.1 img !! u "src" = Some src
             /\ this !! u "thumbnail" = Some (of_optional_str src)
       | None => this !! u "thumbnail" = None
       end
    /\ match css_first st.1 (Some item) (u "div.v-meta") with
       | Some metadata =>
           match first_child st.1 metadata with
           | Some t =>
               this !! u "title" = Some (VStr (clean_text st.1 t).2)
               /\ this !! u "age"
                  = (fun n => VStr (text0 (clean_text st.1 t).1 n))
                      <$> css_first (clean_text st.1 t).1 (Some metadata)
                                    (u ".v-age")
               /\ this !! u "cite"
                  = (fun n => VStr (text0 (clean_text st.1 t).1 n))
                      <$> last_child (clean_text st.1 t).1 metadata
           | None => this !! u "title" = None
           end
       | None => this !! u "title" = None
       end.
Proof.
  unfold video_item. intros Hrun. bind_inv Hrun. cbv zeta in Hrun.
  assert (match css_first st.1 (Some item) (u "a") with
          | Some a1 =>
              exists href,
                attributes st.1 a1 !! u "href" = Some (Some href)
                /\ a !! u "link"
                   = Some (VStr (u "https://sg.video.search.yahoo.com" ++ href))
          | None => a !! u "link" = None
          end
          /\ forall k, u "link" <> k -> u "video_preview" <> k -> a !! k = None)
    as [Ha1 Ha2].
  { destruct (css_first st.1 (Some item) (u "a")) as [anchor|].
    - bind_inv E. destruct a1 as [href|]; [|discriminate]. injection E2 as <-.
      unfold attr_getitem in E1.
      destruct (attributes st.1 anchor !! u "href") as [h|] eqn:Hh;
        [|discriminate]. injection E1 as ->.
      assert (a = <[u "link" :=
                      VStr (u "https://sg.video.search.yahoo.com" ++ href)]> ∅
              \/ exists url,
                   a = <[u "video_preview" := url]>
                         (<[u "link" :=
                              VStr (u "https://sg.video.search.yahoo.com"
                                      ++ href)]> ∅)) as Hshape.
      { destruct (attr_get (attributes st.1 anchor) (u "data")) as [[|c p]|].
        - injection E as <-. by left.
        - bind_inv E. destruct (truthy a2).
          + bind_inv E. injection E as <-. right. eauto.
          + injection E as <-. by left.
        - injection E as <-. by left. }
      destruct Hshape as [-> | [url ->]]; split.
      + exists href. by rewrite lookup_insert_eq.
      + intros k Hk _. by rewrite lookup_insert_ne, lookup_empty.
      + exists href. by rewrite lookup_insert_ne, lookup_insert_eq by literal_neq.
      + intros k Hk1 Hk2. by rewrite !lookup_insert_ne, lookup_empty.
    - injection E as <-. split; [|intros k _ _]; by rewrite lookup_empty. }
  assert (match css_first st.1 (Some item) (u "img") with
          | Some img =>
              exists src,
                attributes st.1 img !! u "src" = Some src
                /\ a0 !! u "thumbnail" = Some (of_optional_str src)
          | None => a0 !! u "thumbnail" = None
          end
          /\ forall k, u "thumbnail" <> k -> a0 !! k = a !! k) as [Hb1 Hb2].
  { destruct (css_first st.1 (Some item) (u "img")) as [img|].
    - bind_inv E0. injection E0 as <-. split.
      + exists a1. split; [|by rewrite lookup_insert_eq].
        unfold attr_getitem in E1.
        by destruct (attributes st.1 img !! u "src"); simplify_eq.
      + intros k Hk. by rewrite lookup_insert_ne.
    - injection E0 as <-. split; [|done]. apply Ha2; literal_neq. }
  clear E E0.
  set (d := match css_first st.1 (Some item)
                            (u "div.pos-box .vthm .stack.grad span.v-time") with
            | Some duration => <[u "duration" := VStr (text0 st.1 duration)]> a0
            | None => a0
            end) in Hrun.
  assert (forall k, u "duration" <> k -> d !! k = a0 !! k) as Hd.
  { intros k Hk. subst d. by apply optional_insert_other. }
  clearbody d.
  assert (d !! u "link" = a !! u "link") as Hlink.
  { rewrite Hd, Hb2 by literal_neq. done. }
  assert (d !! u "thumbnail" = a0 !! u "thumbnail") as Hthumb
    by (apply Hd; literal_neq).
  assert (forall k, u "link" <> k -> u "video_preview" <> k ->
            u "thumbnail" <> k -> u "duration" <> k -> d !! k = None) as Hnone.
  { intros k ? ? ? ?. rewrite Hd, Hb2 by done. by apply Ha2. }
  assert (match css_first st.1 (Some item) (u "a") with
          | Some a1 =>
              exists href,
                attributes st.1 a1 !! u "href" = Some (Some href)
                /\ d !! u "link"
                   = Some (VStr (u "https://sg.video.search.yahoo.com" ++ href))
          | None => d !! u "link" = None
          end) as Hl by (by rewrite Hlink).
  assert (match css_first st.1 (Some item) (u "img") with
          | Some img =>
              exists src,
                attributes st.1 img !! u "src" = Some src
                /\ d !! u "thumbnail" = Some (of_optional_str src)
          | None => d !! u "thumbnail" = None
          end) as Ht by (by rewrite Hthumb).
  clear Ha1 Ha2 Hb1 Hb2 Hlink Hthumb Hd.
  destruct (css_first st.1 (Some item) (u "div.v-meta")) as [metadata|].
  2:{ injection Hrun as <-. exists d. repeat split; try done.
      apply Hnone; literal_neq. }
  destruct (first_child st.1 metadata) as [t|].
  2:{ cbn [fst snd] in Hrun.
      set (d1 := match css_first st.1 (Some metadata) (u ".v-age") with
                 | Some age => <[u "age" := VStr (text0 st.1 age)]> d
                 | None => d
                 end) in Hrun.
      set (d2 := match last_child st.1 metadata with
                 | Some cite => <[u "cite" := VStr (text0 st.1 cite)]> d1
                 | None => d1
                 end) in Hrun.
      assert (forall k, u "age" <> k -> u "cite" <> k -> d2 !! k = d !! k) as Hs.
      { intros k ? ?. subst d2 d1. by rewrite !optional_insert_other. }
      injection Hrun as <-. exists d2. split; [reflexivity|].
      rewrite !Hs by literal_neq. repeat split; try done.
      apply Hnone; literal_neq. }
  unfold clean_text in Hrun at 1. cbn [fst snd] in Hrun.
  change (unwrap_tags st.1 t MD_TAGS) with (clean_text st.1 t).1 in Hrun.
  change (text (clean_text st.1 t).1 t true (u " ") true)
    with (clean_text st.1 t).2 in Hrun.
  set (p := (clean_text st.1 t).1) in *.
  set (d0 := <[u "title" := VStr (clean_text st.1 t).2]> d) in Hrun.
  set (d1 := match css_first p (Some metadata) (u ".v-age") with
             | Some age => <[u "age" := VStr (text0 p age)]> d0
             | None => d0
             end) in Hrun.
  set (d2 := match last_child p metadata with
             | Some cite => <[u "cite" := VStr (text0 p cite)]> d1
             | None => d1
             end) in Hrun.
  injection Hrun as <-. exists d2. split; [reflexivity|].
  assert (forall k, u "title" <> k -> u "age" <> k -> u "cite" <> k ->
            d2 !! k = d !! k) as Hs.
  { intros k ? ? ?. subst d2 d1 d0.
    by rewrite !optional_insert_other, lookup_insert_ne. }
  rewrite !Hs by literal_neq. split; [done|]. split; [done|].
  subst d2 d1 d0. repeat split.
  - by rewrite !optional_insert_other, lookup_insert_eq by literal_neq.
  - rewrite optional_insert_other by literal_neq.
    rewrite (optional_insert_same _ _ (fun n => VStr (text0 p n))).
    destruct (css_first p (Some metadata) (u ".v-age")); [done|].
    rewrite lookup_insert_ne by literal_neq. apply Hnone; literal_neq.
  - rewrite (optional_insert_same _ _ (fun n => VStr (text0 p n))).
    destruct (last_child p metadata); [done|].
    rewrite optional_insert_other, lookup_insert_ne by literal_neq.
    apply Hnone; literal_neq.
Qed.

(** X13: Whenever [search_videos] returns, its records follow the items
    position by position: the list is not empty, there are as many records
    as items matched by [#search li.vr.vres], and the [i]-th record holds
    the link, thumbnail, title, age and site of the [i]-th item, read in
    the document as the loop reaches the item. *)
Theorem search_videos_one_record_per_item (res : Response document)
    (r : VideoSearchResult.t) :
  search_videos res = Ok r -> videos_by_position (body res) r.
Proof.
  intros Hrun. unfold search_videos, videos_collect in Hrun. bind_inv Hrun.
  assert (css (body res) None (u "#search li.vr.vres") <> []
          /\ res_fold video_item (body res, [])
                      (css (body res) None (u "#search li.vr.vres")) = Ok a0)
    as [Hne Hfold].
  { destruct (css (body res) None (u "#search li.vr.vres")); [discriminate|].
    by split. }
  clear E0.
  eapply (res_fold_indexed video_item snd (fun _ => True)
            (fun s x c =>
               exists this,
                 c = VDict this
                 /\ match css_first s.1 (Some x) (u "a") with
                    | Some a =>
                        exists href,
                          attributes s.1 a !! u "href" = Some (Some href)
                          /\ this !! u "link"
                             = Some (VStr (u "https://sg.video.search.yahoo.com"
                                             ++ href))
                    | None => this !! u "link" = None
                    end
                 /\ match css_first s.1 (Some x) (u "img") with
                    | Some img =>
                        exists src,
                          attributes s.1 img !! u "src" = Some src
                          /\ this !! u "thumbnail" = Some (of_optional_str src)
                    | None => this !! u "thumbnail" = None
                    end
                 /\ match css_first s.1 (Some x) (u "div.v-meta") with
                    | Some metadata =>
                        match first_child s.1 metadata with
                        | Some t =>
                            this !! u "title" = Some (VStr (clean_text s.1 t).2)
                            /\ this !! u "age"
                               = (fun n => VStr (text0 (clean_text s.1 t).1 n))
                                   <$> css_first (clean_text s.1 t).1
                                                 (Some metadata) (u ".v-age")
                            /\ this !! u "cite"
                               = (fun n => VStr (text0 (clean_text s.1 t).1 n))
                                   <$> last_child (clean_text s.1 t).1 metadata
                        | None => this !! u "title" = None
                        end
                    | None => this !! u "title" = None
                    end))
    in Hfold as (l & Hl & Hlen & Hall); cycle 1.
  { intros s x s' _ Hstep. split; [done|].
    destruct (video_item_entry _ _ _ Hstep) as (this & Hthis & Hfacts).
    exists (VDict this). split; [done|]. by exists this. }
  { done. }
  cbn [snd app] in Hl. rewrite Hl in Hrun.
  apply VideoSearchResult_validate_Ok in Hrun.
  pose proof (Forall2_length _ _ _ Hrun) as Hsame.
  split; [|split; [congruence|]].
  { intros Hnil. rewrite Hnil in Hsame. cbn [length] in Hsame.
    destruct (css (body res) None (u "#search li.vr.vres")); [done|].
    cbn [length] in Hlen. lia. }
  intros i item v Hi Hv.
  destruct (Hall i item Hi)
    as (sti & c & Hsti & Hc & this & -> & Hlink & Hthumb & Hmeta).
  destruct (Forall2_lookup_r _ _ _ _ _ Hrun Hv) as (x & Hx & Hvalid).
  rewrite Hc in Hx. injection Hx as <-. cbn [v_model] in Hvalid.
  exists sti. split; [done|].
  unfold Video.validate in Hvalid. bind_inv Hvalid. injection Hvalid as <-.
  apply optional_str_field in E0, E1, E2. apply required_str in E4, E5.
  unfold video_of.
  cbn [Video.age Video.cite Video.thumbnail Video.title Video.link].
  split; [|split].
  - destruct (css_first sti.1 (Some item) (u "a")) as [anchor|].
    + destruct Hlink as (href & Hhref & Hlink). exists anchor, href.
      repeat split; [done|]. congruence.
    + congruence.
  - destruct (css_first sti.1 (Some item) (u "img")) as [img|].
    + destruct Hthumb as (src & Hsrc & Hthumb). exists src. split; [done|].
      rewrite Hthumb in E2. by destruct src.
    + by rewrite Hthumb in E2.
  - destruct (css_first sti.1 (Some item) (u "div.v-meta")) as [metadata|];
      [|congruence].
    destruct (first_child sti.1 metadata) as [t|] eqn:Hfirst; [|congruence].
    destruct Hmeta as (Htitle & Hage & Hcite).
    exists metadata, t. split; [done|]. split; [done|].
    rewrite Hage in E0. rewrite Hcite in E1. split; [congruence|]. split.
    + by destruct (css_first (clean_text sti.1 t).1 (Some metadata) (u ".v-age")).
    + by destruct (last_child (clean_text sti.1 t).1 metadata).
Qed.

(** X14: Every link [search_videos] returns starts with the address
    [https://sg.video.search.yahoo.com]. *)
Theorem search_videos_links_on_host (res : Response document)
    (r : VideoSearchResult.t) :
  search_videos res = Ok r ->
  Forall (fun v => exists href,
            Video.link v = u "https://sg.video.search.yahoo.com" ++ href)
         (VideoSearchResult.videos r).
Proof.
  intros Hrun. unfold search_videos, videos_collect in Hrun. bind_inv Hrun.
  destruct (css (body res) None (u "#search li.vr.vres")) as [|x results];
    [discriminate|].
  destruct (video_items_listed _ _ _ E0) as (l & Hl & _ & Hall).
  cbn [snd app] in Hl. rewrite Hl in Hrun.
  apply VideoSearchResult_validate_Ok in Hrun. clear Hl E0.
  revert Hall. induction Hrun as [|v rec l' recs Hv _ IH]; intros Hall.
  - constructor.
  - apply Forall_cons in Hall as [(this & -> & Hlink) Hall].
    constructor; [|by apply IH].
    cbn [v_model] in Hv. unfold Video.validate in Hv. bind_inv Hv.
    injection Hv as <-. cbn [Video.link].
    apply required_str in E5. destruct (Hlink _ E5) as (href & [= ->]).
    by exists href.
Qed.

(** X15: The [data] attribute of an item's anchor, on a page with one item: a
    value that is not JSON, or JSON without the key ["m"], makes
    [search_videos] raise what the decoder or the lookup raises; with a
    falsy ["m"] the record has no preview, with a truthy one its preview is
    the string under ["u"].  The link is the host followed by the [href],
    the title the cleaned text of the first child of the metadata block,
    the site the text of its last child.  A duration label, found or not,
    changes nothing: [Video] has no field for it. *)
Theorem search_videos_preview (res : Response document) (result : node)
    (a : node) (anchors : list node) (h d : list N) :
  raise_for_status res = Ok tt ->
  css (body res) None (u "#search li.vr.vres") = [result] ->
  css (body res) (Some result) (u "a") = a :: anchors ->
  attributes (body res) a !! u "href" = Some (Some h) ->
  attributes (body res) a !! u "data" = Some (Some d) ->
  d <> [] ->
  (forall e, json_loads d = Raise e -> search_videos res = Raise e)
  /\ (forall meta e,
        json_loads d = Ok meta -> subscript_str meta (u "m") = Raise e ->
        search_videos res = Raise e)
  /\ (forall (meta m : pyval) (metadata : node) (metas : list node)
             (t c : node),
        json_loads d = Ok meta -> subscript_str meta (u "m") = Ok m ->
        css (body res) (Some result) (u "img") = [] ->
        css (body res) (Some result) (u "div.v-meta") = metadata :: metas ->
        first_child (body res) metadata = Some t ->
        css (unwrap_tags (body res) t MD_TAGS) (Some metadata) (u ".v-age") = [] ->
        last_child (unwrap_tags (body res) t MD_TAGS) metadata = Some c ->
        forall preview : option (list N),
          (truthy m = false /\ preview = None)
          \/ (truthy m = true
              /\ exists url, subscript_str m (u "u") = Ok (VStr url)
                             /\ preview = Some url) ->
          search_videos res
          = Ok {| VideoSearchResult.videos :=
                    [{| Video.age := None;
                        Video.cite :=
                          Some (text0 (unwrap_tags (body res) t MD_TAGS) c);
                        Video.thumbnail := None;
                        Video.video_preview := preview;
                        Video.title :=
                          text (unwrap_tags (body res) t MD_TAGS) t true
                               (u " ") true;
                        Video.link :=
                          u "https://sg.video.search.yahoo.com" ++ h |}] |}).
Proof.
  intros Hstatus Hresults Hanchor Hhref Hdata Hd.
  assert (forall e,
            (meta <- json_loads d;;
             m <- subscript_str meta (u "m");;
             Ok tt) = Raise e ->
            search_videos res = Raise e) as Hfail.
  { intros e He. unfold search_videos, videos_collect.
    rewrite Hstatus, Hresults. cbn [res_bind res_fold].
    assert (video_item (body res, []) result = Raise e) as ->; [|reflexivity].
    unfold video_item, css_first, attr_getitem, attr_get. cbn [fst].
    rewrite Hanchor. cbn [head]. rewrite Hhref, Hdata. cbn [res_bind].
    destruct d as [|ch d']; [done|].
    destruct (json_loads (ch :: d')) as [meta|]; cbn [res_bind] in *;
      [|by injection He as <-].
    destruct (subscript_str meta (u "m")); cbn [res_bind] in *;
      [discriminate | by injection He as <-]. }
  split; [|split].
  - intros e He. apply Hfail. by rewrite He.
  - intros meta e Hmeta He. apply Hfail. rewrite Hmeta. cbn [res_bind].
    by rewrite He.
  - intros meta m metadata metas t c Hmeta Hm Himg Hmetadata Ht
      Hage Hcite preview Hpreview.
    unfold search_videos, videos_collect.
    rewrite Hstatus, Hresults. cbn [res_bind res_fold].
    unfold video_item, css_first, attr_getitem, attr_get, clean_text.
    cbn [fst snd].
    rewrite Hanchor, Himg, Hmetadata. cbn [head].
    destruct (css (body res) (Some result)
                  (u "div.pos-box .vthm .stack.grad span.v-time"))
      as [|duration durations]; cbn [head];
      rewrite Hhref, Hdata, Ht; cbn [res_bind fst snd];
      rewrite Hage, Hcite; cbn [head];
      (destruct d as [|ch d']; [done|]); rewrite Hmeta; cbn [res_bind];
      rewrite Hm; cbn [res_bind];
      (destruct Hpreview as [[-> ->] | (-> & url & -> & ->)];
       cbn [res_bind app];
       unfold VideoSearchResult.validate, required; dict_lookup;
       cbn [v_list res_map v_model];
       unfold Video.validate, required, with_default; dict_lookup;
       reflexivity).
Qed.

End NewsAndVideos.

Lemma WeatherInformation_validate_fields (d : gmap (list N) pyval)
    (w : WeatherInformation.t) :
  WeatherInformation.validate d = Ok w ->
  d !! u "location" = Some (VStr (WeatherInformation.location w))
  /\ d !! u "country" = Some (VStr (WeatherInformation.country w))
  /\ d !! u "time" = Some (VStr (WeatherInformation.time w))
  /\ d !! u "celsius" = Some (VInt (WeatherInformation.celsius w))
  /\ d !! u "fahrenheit" = Some (VInt (WeatherInformation.fahrenheit w))
  /\ d !! u "weather" = Some (VStr (WeatherInformation.weather w))
  /\ d !! u "weather_icon" = Some (VStr (WeatherInformation.weather_icon w)).
Proof.
  unfold WeatherInformation.validate. intros Hv. bind_inv Hv.
  injection Hv as <-.
  cbn [WeatherInformation.location WeatherInformation.country
       WeatherInformation.time WeatherInformation.celsius
       WeatherInformation.fahrenheit WeatherInformation.weather
       WeatherInformation.weather_icon].
  repeat split; first [by apply required_str | by apply required_int].
Qed.

Section WeatherProperties.
Context `{PyLib} `{Selectolax} `{Json}.

(** ** [weather]: the header *)

Lemma weather_rows_other (parser : document) (rows : list node)
    (data data' : gmap (list N) pyval) (k : list N) :
  res_fold (weather_row parser) data rows = Ok data' ->
  u "forecast" <> k -> data' !! k = data !! k.
Proof.
  intros Hrun Hk. revert Hrun.
  apply (res_fold_preserved (fun d => d !! k)).
  intros d row d' Hstep. unfold weather_row in Hstep. bind_inv Hstep.
  injection Hstep as <-. by apply update_in_other.
Qed.

(** X16: [weather] returns only when each of the eight header elements is on
    the page, and then reports them as they read: location, country and
    time are the texts of the first matches of their selectors, the two
    temperatures the integers [int] reads from theirs, the condition the
    text of the first paragraph of the heading module and the icon the
    [src] of its first image. *)
Theorem weather_header (res : Response document) (w : WeatherInformation.t) :
  weather res = Ok w ->
  exists location country now celsius fahrenheit heading img text : node,
    css_first (body res) None (u "div.M\(10px\) h1") = Some location
    /\ WeatherInformation.location w = text0 (body res) location
    /\ css_first (body res) None (u "h2.D\(b\)") = Some country
    /\ WeatherInformation.country w = text0 (body res) country
    /\ css_first (body res) None (u "time") = Some now
    /\ WeatherInformation.time w = text0 (body res) now
    /\ css_first (body res) None (u ".celsius.celsius_D\(b\)") = Some celsius
    /\ int (text0 (body res) celsius) = Ok (WeatherInformation.celsius w)
    /\ css_first (body res) None (u ".fahrenheit") = Some fahrenheit
    /\ int (text0 (body res) fahrenheit) = Ok (WeatherInformation.fahrenheit w)
    /\ css_first (body res) None (u "div#module-location-heading") = Some heading
    /\ css_first (body res) (Some heading) (u "img") = Some img
    /\ attributes (body res) img !! u "src"
       = Some (Some (WeatherInformation.weather_icon w))
    /\ css_first (body res) (Some heading) (u "p") = Some text
    /\ WeatherInformation.weather w = text0 (body res) text.
Proof.
  unfold weather. intros Hrun. bind_inv Hrun. rename a into data.
  apply WeatherInformation_validate_fields in Hrun
    as (Hloc & Hcou & Htime & Hcel & Hfah & Hwea & Hico).
  unfold weather_collect in E. cbv zeta in E. bind_inv E.
  apply optional_step_inv in E0 as (Hc_same & Hc_other).
  apply optional_step_inv in E1 as (Hf_same & Hf_other).
  destruct (css_first (body res) None (u "div#module-location-heading"))
    as [heading|].
  2:{ injection E as <-.
      rewrite Hf_other, Hc_other, !optional_insert_other in Hwea by literal_neq.
      by rewrite lookup_insert_ne, lookup_empty in Hwea by literal_neq. }
  bind_inv E. rename E0 into Himg.
  assert (forall k, u "forecast" <> k -> u "weather" <> k ->
            data !! k = a1 !! k) as Hrows.
  { intros k Hk1 Hk2. rewrite (weather_rows_other _ _ _ _ k E) by done.
    by apply optional_insert_other. }
  assert (data !! u "weather"
          = match css_first (body res) (Some heading) (u "p") with
            | Some text => Some (VStr (text0 (body res) text))
            | None => a1 !! u "weather"
            end) as Hwea'.
  { rewrite (weather_rows_other _ _ _ _ _ E) by literal_neq.
    apply (optional_insert_same _ _ (fun text => VStr (text0 (body res) text))). }
  assert (a1 !! u "weather_icon"
          = match css_first (body res) (Some heading) (u "img") with
            | Some img =>
                match attr_getitem (attributes (body res) img) (u "src") with
                | Ok src => Some (of_optional_str src)
                | Raise _ => None
                end
            | None => a0 !! u "weather_icon"
            end
          /\ forall k, u "weather_icon" <> k -> a1 !! k = a0 !! k)
    as [Hi_same Hi_other].
  { by apply optional_step_inv in Himg. }
  rewrite Hrows, Hi_other, Hf_other, Hc_other, !optional_insert_other,
    (optional_insert_same _ _ (fun n => VStr (text0 (body res) n)))
    in Hloc by literal_neq.
  rewrite Hrows, Hi_other, Hf_other, Hc_other, !optional_insert_other,
    (optional_insert_same _ _ (fun n => VStr (text0 (body res) n))),
    !optional_insert_other in Hcou by literal_neq.
  rewrite Hrows, Hi_other, Hf_other, Hc_other,
    (optional_insert_same _ _ (fun n => VStr (text0 (body res) n))),
    !optional_insert_other in Htime by literal_neq.
  rewrite Hrows, Hi_other, Hf_other, Hc_same, !optional_insert_other in Hcel
    by literal_neq.
  rewrite Hrows, Hi_other, Hf_same, Hc_other, !optional_insert_other in Hfah
    by literal_neq.
  rewrite Hwea', Hi_other, Hf_other, Hc_other, !optional_insert_other in Hwea
    by literal_neq.
  rewrite Hrows, Hi_same, Hf_other, Hc_other, !optional_insert_other in Hico
    by literal_neq.
  rewrite lookup_insert_ne, lookup_empty in Hloc, Hcou, Htime, Hcel, Hfah,
    Hwea, Hico by literal_neq.
  destruct (css_first (body res) None (u "div.M\(10px\) h1")) as [location|];
    [|discriminate].
  destruct (css_first (body res) None (u "h2.D\(b\)")) as [country|];
    [|discriminate].
  destruct (css_first (body res) None (u "time")) as [now|]; [|discriminate].
  destruct (css_first (body res) None (u ".celsius.celsius_D\(b\)"))
    as [celsius|]; [|discriminate].
  destruct (css_first (body res) None (u ".fahrenheit")) as [fahrenheit|];
    [|discriminate].
  destruct (css_first (body res) (Some heading) (u "img")) as [img|] eqn:Hi;
    [|discriminate].
  destruct (css_first (body res) (Some heading) (u "p")) as [text|] eqn:Hp;
    [|discriminate].
  destruct (int (text0 (body res) celsius)) as [c|] eqn:Hc; [|discriminate].
  destruct (int (text0 (body res) fahrenheit)) as [f|] eqn:Hf; [|discriminate].
  unfold attr_getitem in Hico.
  destruct (attributes (body res) img !! u "src") as [[src|]|] eqn:Hsrc;
    try discriminate.
  exists location, country, now, celsius, fahrenheit, heading, img, text.
  cbn [of_optional_str] in Hico. simplify_eq. repeat split; congruence.
Qed.

(** ** [weather]: the days *)

(** X17: Whenever [weather] returns, every key of the forecast is the name of
    a weekday, and every one of the first seven forecast rows is labelled
    with one: a row labelled "Today" or with a date makes [weather]
    raise. *)
Theorem weather_days_are_weekdays (res : Response document)
    (w : WeatherInformation.t) :
  weather res = Ok w ->
  (forall day, is_Some (WeatherInformation.forecast w !! day) ->
               day ∈ weekdays)
  /\ Forall (fun row => exists day,
               weather_day (body res) row = Ok day /\ day ∈ weekdays)
            (take 7 (css (body res) None forecast_selector)).
Proof.
  unfold weather. intros Hrun. bind_inv Hrun.
  destruct (weather_collect_rows _ _ _ E Hrun) as (data0 & Hfc0 & Hrows).
  destruct (weather_rows_days _ _ _ _ _ Hfc0 Hrows) as (days & fc & Hdays & Hfc & Hdom).
  apply WeatherInformation_validate_Ok in Hrun as [_ Hv].
  unfold required in Hv. rewrite Hfc in Hv.
  assert (forall day, is_Some (WeatherInformation.forecast w !! day) ->
                      day ∈ weekdays) as Hkeys.
  { intros day Hday. pose proof (v_dict_keys _ _ _ _ _ Hv Hday) as Hok.
    cbv beta in Hok. by apply bool_decide_eq_true in Hok. }
  split; [exact Hkeys|].
  apply v_dict_dom in Hv. rewrite Hdom, dom_empty_L, union_empty_l_L in Hv.
  apply res_map_Forall2 in Hdays.
  apply Forall_forall. intros row Hrow.
  apply list_elem_of_lookup in Hrow as [i Hi].
  destruct (Forall2_lookup_l _ _ _ _ _ Hdays Hi) as (day & Hi' & Hday).
  exists day. split; [done|]. apply Hkeys, elem_of_dom. rewrite Hv.
  apply elem_of_list_to_set, list_elem_of_lookup. eauto.
Qed.

End WeatherProperties.

Section WeatherRows.
Context `{PyLib} `{Selectolax} `{Json}.

(** ** [weather]: the rows *)

(** The entry of a day in the returned record is the validated dictionary
    of the last row with that label. *)
Lemma weather_day_entry (res : Response document) (w : WeatherInformation.t)
    (earlier later : list node) (row : node) (day : list N) :
  weather res = Ok w ->
  take 7 (css (body res) None forecast_selector) = earlier ++ row :: later ->
  weather_day (body res) row = Ok day ->
  (forall r, r ∈ later -> weather_day (body res) r <> Ok day) ->
  exists info wf,
    weather_info (body res) row = Ok info
    /\ WeatherForecast.validate info = Ok wf
    /\ WeatherInformation.forecast w !! day = Some wf.
Proof.
  unfold weather. intros Hrun Hrows Hday Hlater. bind_inv Hrun.
  destruct (weather_collect_rows _ _ _ E Hrun) as (data0 & Hfc0 & Hfold).
  rewrite Hrows, res_fold_app in Hfold. bind_inv Hfold.
  cbn [res_fold] in Hfold. bind_inv Hfold.
  destruct (weather_rows_days _ _ _ _ _ Hfc0 E0) as (_ & fc1 & _ & Hfc1 & _).
  destruct (weather_row_forecast _ _ _ _ _ Hfc1 E1)
    as (day' & info & Hday' & Hinfo & Hfc2 & _).
  rewrite Hday in Hday'. injection Hday' as <-.
  destruct (weather_rows_other_days _ _ _ _ _ day Hfc2 Hfold Hlater)
    as (fc & Hfc & Hlook).
  rewrite lookup_insert_eq in Hlook.
  apply WeatherInformation_validate_Ok in Hrun as [_ Hv].
  unfold required in Hv. rewrite Hfc in Hv.
  destruct (v_dict_lookup _ _ _ _ _ _ Hv Hlook) as (wf & Hwf & Hvalid).
  by exists info, wf.
Qed.

Lemma weather_temp_other (parser : document) (info info' : gmap (list N) pyval)
    (x : nat * node) (k : list N) :
  weather_temp parser info x = Ok info' ->
  u "fahrenheit" <> k -> u "celsius" <> k -> info' !! k = info !! k.
Proof.
  intros Hstep Hf Hc. unfold weather_temp in Hstep.
  destruct x.1 as [|[|[|n]]]; bind_inv Hstep; injection Hstep as <-;
    by apply update_in_other.
Qed.

(** The cells from the fourth on: each overwrites the lowest Celsius
    value, so the last one stays. *)
Lemma weather_temps_tail (parser : document) (rest : list node) (n : nat)
    (info info' c : gmap (list N) pyval) :
  (3 <= n)%nat ->
  info !! u "celsius" = Some (VDict c) ->
  res_fold (weather_temp parser) info (zip (seq n (length rest)) rest) = Ok info' ->
  info' !! u "fahrenheit" = info !! u "fahrenheit"
  /\ match last rest with
     | Some cl =>
         exists v, int (slice_to_minus1 (text0 parser cl)) = Ok v
                   /\ info' !! u "celsius"
                      = Some (VDict (<[u "lowest" := VInt v]> c))
     | None => info' = info
     end.
Proof.
  revert n info c. induction rest as [|x rest IH]; intros n info c Hn Hc Hrun.
  - by injection Hrun as <-.
  - cbn [length seq zip zip_with res_fold] in Hrun. bind_inv Hrun.
    unfold weather_temp in E. cbn [fst snd] in E.
    destruct n as [|[|[|n]]]; [lia..|]. bind_inv E. injection E as <-.
    destruct (IH (S (S (S (S n)))) _ (<[u "lowest" := VInt a0]> c)
                ltac:(lia) (update_in_same _ _ _ _ _ Hc) Hrun) as [Hf Hl].
    split.
    + rewrite Hf. apply update_in_other. literal_neq.
    + destruct rest as [|y rest].
      * cbn [last] in *. subst info'. exists a0. split; [done|].
        by apply update_in_same.
      * change (last (x :: y :: rest)) with (last (y :: rest)).
        destruct (last (y :: rest)) as [cl|] eqn:Hlast.
        -- destruct Hl as (v & Hv & Hl). exists v. split; [done|].
           by rewrite Hl, insert_insert_eq.
        -- by apply last_None in Hlast.
Qed.

(** X18: Whenever [weather] returns, each of the first seven forecast rows
    (the last one, where a label repeats) has what its entry requires: a
    condition image with valued [alt] and [src], which give the text and
    the icon of the condition; a precipitation cell whose first child
    carries the icon in a valued [src] and whose last child's last child
    gives the percentage; and at least four temperature cells. *)
Theorem weather_row_requirements (res : Response document)
    (w : WeatherInformation.t) (earlier later : list node) (row : node)
    (day : list N) :
  weather res = Ok w ->
  take 7 (css (body res) None forecast_selector) = earlier ++ row :: later ->
  weather_day (body res) row = Ok day ->
  (forall r, r ∈ later -> weather_day (body res) r <> Ok day) ->
  exists (wf : WeatherForecast.t) (img cell icon last p : node),
    WeatherInformation.forecast w !! day = Some wf
    /\ css_first (body res) (Some row) (u "td.Ta\(c\) img") = Some img
    /\ attributes (body res) img !! u "alt"
       = Some (Some (WeatherForecastInner.text (WeatherForecast.weather wf)))
    /\ attributes (body res) img !! u "src"
       = Some (Some (WeatherForecastInner.icon (WeatherForecast.weather wf)))
    /\ css_first (body res) (Some row) (u "td.D\(f\).Jc\(c\)") = Some cell
    /\ first_child (body res) cell = Some icon
    /\ attributes (body res) icon !! u "src"
       = Some (Some (Precipitation.icon (WeatherForecast.precipitation wf)))
    /\ last_child (body res) cell = Some last
    /\ last_child (body res) last = Some p
    /\ Precipitation.percentage (WeatherForecast.precipitation wf)
       = text0 (body res) p
    /\ (4 <= length (css (body res) (Some row) temperature_selector))%nat.
Proof.
  intros Hrun Hrows Hday Hlater.
  destruct (weather_day_entry _ _ _ _ _ _ Hrun Hrows Hday Hlater)
    as (info & wf & Hinfo & Hvalid & Hentry).
  exists wf. clear Hrun Hrows Hday Hlater.
  unfold WeatherForecast.validate in Hvalid. bind_inv Hvalid.
  injection Hvalid as <-.
  cbn [WeatherForecast.weather WeatherForecast.precipitation].
  rename E into Vf, E0 into Vc, E1 into Vw, E2 into Vp.
  unfold weather_info in Hinfo. cbv zeta in Hinfo. bind_inv Hinfo.
  rename E into Simg, E0 into Spre, a3 into i1, a4 into i2.
  change (u "td.D\(f\).Jc\(fe\).Ta\(end\) dl dd") with temperature_selector
    in Hinfo.
  assert (forall k, u "fahrenheit" <> k -> u "celsius" <> k ->
            info !! k = i2 !! k) as Htemps.
  { intros k Hf Hc. revert Hinfo.
    apply (res_fold_preserved (fun d => d !! k)).
    intros d x d' Hstep. by eapply weather_temp_other. }
  unfold required in Vw, Vp, Vc.
  rewrite Htemps in Vw, Vp by literal_neq.
  (* the condition image *)
  destruct (css_first (body res) (Some row) (u "td.Ta\(c\) img")) as [img|].
  2:{ injection Simg as <-. exfalso.
      destruct (css_first (body res) (Some row) (u "td.D\(f\).Jc\(c\)"));
        bind_inv Spre; injection Spre as <-;
        by rewrite !lookup_insert_ne, lookup_empty in Vw by literal_neq. }
  bind_inv Simg. injection Simg as <-.
  rename E into Halt, E0 into Hsrc, a3 into alt, a4 into src.
  (* the precipitation cell *)
  destruct (css_first (body res) (Some row) (u "td.D\(f\).Jc\(c\)")) as [cell|].
  2:{ injection Spre as <-. exfalso.
      by rewrite !lookup_insert_ne, lookup_empty in Vp by literal_neq. }
  bind_inv Spre. injection Spre as <-.
  destruct (last_child (body res) cell) as [last|] eqn:Hlast; [|discriminate].
  injection E as <-.
  destruct (first_child (body res) cell) as [icon|] eqn:Hicon; [|discriminate].
  destruct (last_child (body res) last) as [p|] eqn:Hp; [|discriminate].
  injection E1 as <-. rename E0 into Hisrc, a4 into isrc.
  exists img, cell, icon, last, p.
  rewrite lookup_insert_ne, lookup_insert_eq in Vw by literal_neq.
  rewrite lookup_insert_eq in Vp.
  cbn [v_model] in Vw, Vp.
  unfold WeatherForecastInner.validate in Vw. bind_inv Vw.
  unfold Precipitation.validate in Vp. bind_inv Vp.
  injection Vw as <-. injection Vp as <-.
  cbn [WeatherForecastInner.text WeatherForecastInner.icon
       Precipitation.icon Precipitation.percentage].
  apply required_str in E, E0, E1, E2.
  rewrite lookup_insert_ne, lookup_insert_eq in E by literal_neq.
  rewrite lookup_insert_eq in E0.
  rewrite lookup_insert_ne, lookup_insert_eq in E1 by literal_neq.
  rewrite lookup_insert_eq in E2.
  unfold attr_getitem in Halt, Hsrc, Hisrc.
  destruct (attributes (body res) img !! u "alt") as [alt'|]; [|discriminate].
  destruct (attributes (body res) img !! u "src") as [src'|]; [|discriminate].
  destruct (attributes (body res) icon !! u "src") as [isrc'|]; [|discriminate].
  injection Halt as ->. injection Hsrc as ->. injection Hisrc as ->.
  destruct alt as [alt|]; [|discriminate].
  destruct src as [src|]; [|discriminate].
  destruct isrc as [isrc|]; [|discriminate].
  injection E as <-. injection E0 as <-. injection E1 as <-.
  injection E2 as <-.
  repeat split; try done.
  (* the temperature cells *)
  set (i2 := <[u "precipitation" := _]> _) in *.
  assert (i2 !! u "celsius" = Some (VDict ∅)) as Hc0.
  { subst i2. by rewrite !lookup_insert_ne by literal_neq. }
  clearbody i2.
  assert (forall k k2 v d, k <> u "celsius" ->
            update_in k k2 v d !! u "celsius" = d !! u "celsius") as Hoc
    by (intros; by apply update_in_other).
  destruct (css (body res) (Some row) temperature_selector)
    as [|c0 [|c1 [|c2 [|c3 rest]]]]; [exfalso..|cbn [length]; lia];
    cbn [enumerate length seq zip zip_with res_fold weather_temp fst snd] in Hinfo;
    bind_inv Hinfo; injection Hinfo as <-;
    repeat match goal with
           | E : res_bind _ _ = Ok _ |- _ => bind_inv E; injection E as <-
           end.
  - rewrite Hc0 in Vc. discriminate Vc.
  - rewrite Hoc, Hc0 in Vc by literal_neq. discriminate Vc.
  - erewrite update_in_same in Vc by (by rewrite Hoc by literal_neq).
    cbn [v_model] in Vc. unfold HighLowTemperature.validate, required in Vc.
    by rewrite lookup_insert_eq, lookup_insert_ne, lookup_empty in Vc
      by literal_neq.
  - rewrite Hoc in Vc by literal_neq.
    erewrite update_in_same in Vc by (by rewrite Hoc by literal_neq).
    cbn [v_model] in Vc. unfold HighLowTemperature.validate, required in Vc.
    by rewrite lookup_insert_eq, lookup_insert_ne, lookup_empty in Vc
      by literal_neq.
Qed.

(** X19: A row with more than four temperature cells: the first three are
    read by position as for four cells, every later cell overwrites the
    lowest Celsius value, and the entry reports the last cell there. *)
Theorem weather_last_cell_is_lowest (res : Response document)
    (w : WeatherInformation.t) (earlier later : list node) (row : node)
    (day : list N) (c0 c1 c2 : node) (rest : list node) (cl : node) :
  weather res = Ok w ->
  take 7 (css (body res) None forecast_selector) = earlier ++ row :: later ->
  weather_day (body res) row = Ok day ->
  (forall r, r ∈ later -> weather_day (body res) r <> Ok day) ->
  css (body res) (Some row) temperature_selector = c0 :: c1 :: c2 :: rest ->
  last rest = Some cl ->
  exists wf,
    WeatherInformation.forecast w !! day = Some wf
    /\ int (slice_to_minus1 (text0 (body res) c0))
       = Ok (HighLowTemperature.highest (WeatherForecast.fahrenheit wf))
    /\ int (slice_to_minus1 (text0 (body res) c1))
       = Ok (HighLowTemperature.highest (WeatherForecast.celsius wf))
    /\ int (slice_to_minus1 (text0 (body res) c2))
       = Ok (HighLowTemperature.lowest (WeatherForecast.fahrenheit wf))
    /\ int (slice_to_minus1 (text0 (body res) cl))
       = Ok (HighLowTemperature.lowest (WeatherForecast.celsius wf)).
Proof.
  intros Hrun Hrows Hday Hlater Hcells Hlast.
  destruct (weather_day_entry _ _ _ _ _ _ Hrun Hrows Hday Hlater)
    as (info & wf & Hinfo & Hvalid & Hentry).
  exists wf. split; [done|]. clear Hrun Hrows Hday Hlater Hentry.
  unfold weather_info in Hinfo. cbv zeta in Hinfo. bind_inv Hinfo.
  assert (a !! u "fahrenheit" = Some (VDict ∅)
          /\ a !! u "celsius" = Some (VDict ∅)) as [Ha1 Ha2].
  { destruct_css E; bind_inv E; injection E as <-; split; by dict_lookup. }
  assert (a0 !! u "fahrenheit" = Some (VDict ∅)
          /\ a0 !! u "celsius" = Some (VDict ∅)) as [Hb1 Hb2].
  { destruct_css E0; bind_inv E0; injection E0 as <-; split; by dict_lookup. }
  clear E E0 Ha1 Ha2.
  change (u "td.D\(f\).Jc\(fe\).Ta\(end\) dl dd") with temperature_selector in Hinfo.
  rewrite Hcells in Hinfo.
  cbn [enumerate length seq zip zip_with res_fold weather_temp fst snd] in Hinfo.
  bind_inv Hinfo. bind_inv E. bind_inv E0. bind_inv E1.
  injection E as <-. injection E0 as <-. injection E1 as <-.
  assert (forall k k2 v d, k <> u "fahrenheit" ->
            update_in k k2 v d !! u "fahrenheit" = d !! u "fahrenheit") as Hof
    by (intros; by apply update_in_other).
  assert (forall k k2 v d, k <> u "celsius" ->
            update_in k k2 v d !! u "celsius" = d !! u "celsius") as Hoc
    by (intros; by apply update_in_other).
  eapply weather_temps_tail in Hinfo as [Hf Hc]; [|lia|].
  2:{ rewrite Hoc by literal_neq. apply update_in_same.
      by rewrite Hoc by literal_neq. }
  rewrite Hlast in Hc. destruct Hc as (v & Hv & Hc).
  erewrite update_in_same in Hf;
    [|rewrite Hof by literal_neq; by apply update_in_same].
  apply WeatherForecast_validate_Ok in Hvalid as [Vf Vc].
  unfold required in Vf, Vc. rewrite Hf in Vf. rewrite Hc in Vc.
  apply HighLowTemperature_validate_pair in Vf as [<- <-].
  apply HighLowTemperature_validate_pair in Vc as [<- <-].
  done.
Qed.

End WeatherRows.

Section RequiredElements.
Context `{PyLib} `{Selectolax} `{Json}.

(** ** What a news row and a video item must hold *)

(** X20: The [href] of a news heading is read although [News] has no field
    for it: when the first row has no image and its heading anchor has no
    [href] attribute, [search_news] raises [KeyError]. *)
Theorem search_news_heading_needs_href (res : Response document) (page : node)
    (item : node) (items : list node) (title : node) (others : list node) :
  css_first (body res) None (u "#main #web") = Some page ->
  css (body res) (Some page) (u "li .dd.NewsArticle li") = item :: items ->
  css (body res) (Some item) (u "img") = [] ->
  css (body res) (Some item) (u "h4 a") = title :: others ->
  attributes (body res) title !! u "href" = None ->
  search_news res = Raise (KeyError (u "href")).
Proof.
  intros Hpage Hrows Himg Htitle Hhref.
  unfold search_news, news_collect. rewrite Hpage, Hrows. cbn [res_fold].
  assert (news_item (body res, []) item = Raise (KeyError (u "href"))) as ->;
    [|reflexivity].
  unfold news_item, css_first, attr_getitem. cbn [fst].
  rewrite Himg, Htitle. cbn [head res_bind]. by rewrite Hhref.
Qed.

(** The dictionary of an item has no link without an anchor and no title
    without a metadata block that has a first child. *)
Lemma video_item_required_keys (st : document * list pyval) (result : node)
    (st' : document * list pyval) :
  video_item st result = Ok st' ->
  exists this,
    st'.2 = st.2 ++ [VDict this]
    /\ (css st.1 (Some result) (u "a") = [] -> this !! u "link" = None)
    /\ (css st.1 (Some result) (u "div.v-meta") = [] ->
        this !! u "title" = None)
    /\ (forall metadata,
          css_first st.1 (Some result) (u "div.v-meta") = Some metadata ->
          first_child st.1 metadata = None -> this !! u "title" = None).
Proof.
  unfold video_item, css_first. intros Hrun. bind_inv Hrun.
  assert ((css st.1 (Some result) (u "a") = [] -> a !! u "link" = None)
          /\ a !! u "title" = None) as [Ha1 Ha2].
  { destruct (css st.1 (Some result) (u "a")) as [|anchor anchors];
      cbn [head] in E.
    - injection E as <-. by rewrite !lookup_empty.
    - split; [done|]. bind_inv E. destruct a1 as [href|]; [|discriminate].
      injection E2 as <-.
      destruct (attr_get (attributes st.1 anchor) (u "data")) as [[|c p]|].
      + injection E as <-. by rewrite lookup_insert_ne, lookup_empty by literal_neq.
      + bind_inv E. destruct (truthy a2).
        * bind_inv E. injection E as <-.
          by rewrite !lookup_insert_ne, lookup_empty by literal_neq.
        * injection E as <-.
          by rewrite lookup_insert_ne, lookup_empty by literal_neq.
      + injection E as <-. by rewrite lookup_insert_ne, lookup_empty by literal_neq. }
  assert ((css st.1 (Some result) (u "a") = [] -> a0 !! u "link" = None)
          /\ a0 !! u "title" = None) as [Hb1 Hb2].
  { destruct (head (css st.1 (Some result) (u "img"))).
    - bind_inv E0. injection E0 as <-.
      by rewrite !lookup_insert_ne by literal_neq.
    - by injection E0 as <-. }
  clear E E0 Ha1 Ha2. cbv zeta in Hrun.
  set (d := match head (css st.1 (Some result)
                            (u "div.pos-box .vthm .stack.grad span.v-time")) with
            | Some duration => <[u "duration" := VStr (text0 st.1 duration)]> a0
            | None => a0
            end) in Hrun.
  assert ((css st.1 (Some result) (u "a") = [] -> d !! u "link" = None)
          /\ d !! u "title" = None) as [Hd1 Hd2].
  { subst d.
    destruct (head (css st.1 (Some result)
                        (u "div.pos-box .vthm .stack.grad span.v-time")));
      [|split; auto].
    split; [intros Hno|]; rewrite lookup_insert_ne by literal_neq; auto. }
  clearbody d. clear Hb1 Hb2.
  destruct (css st.1 (Some result) (u "div.v-meta")) as [|metadata metas];
    cbn [head] in Hrun.
  - injection Hrun as <-. exists d. repeat split; try done.
  - destruct (first_child st.1 metadata) as [title|] eqn:Hfirst;
      [destruct (clean_text st.1 title) as [parser text]|];
      cbn [fst snd] in Hrun;
      destruct (head (css _ (Some metadata) (u ".v-age")));
      destruct (last_child _ metadata);
      injection Hrun as <-; eexists; (split; [reflexivity|]);
      (split; [intros Hno; rewrite ?lookup_insert_ne by literal_neq; auto|]);
      (split; [discriminate|]);
      intros md [= <-] Hnone; try congruence;
      by rewrite ?lookup_insert_ne by literal_neq.
Qed.

(** X21: Every video item needs an anchor and a metadata block with a
    first child: an item (at any position) in which [a] or [div.v-meta]
    matches nothing, or whose metadata block has no child, makes
    [search_videos] raise, since [Video] requires link and title. *)
Theorem search_videos_item_requirements (res : Response document)
    (earlier later : list node) (item : node) (st : document * list pyval) :
  css (body res) None (u "#search li.vr.vres") = earlier ++ item :: later ->
  res_fold video_item (body res, []) earlier = Ok st ->
  css st.1 (Some item) (u "a") = []
  \/ css st.1 (Some item) (u "div.v-meta") = []
  \/ (exists metadata,
        css_first st.1 (Some item) (u "div.v-meta") = Some metadata
        /\ first_child st.1 metadata = None) ->
  raised (search_videos res).
Proof.
  intros Hitems Hst Hmissing.
  destruct (search_videos res) as [r|e] eqn:Hrun; [exfalso|exact I].
  unfold search_videos, videos_collect in Hrun. bind_inv Hrun.
  rewrite Hitems in E0.
  assert (res_fold video_item (body res, []) (earlier ++ item :: later) = Ok a0)
    as Hfold.
  { destruct (earlier ++ item :: later); [discriminate|exact E0]. }
  clear E0. rewrite res_fold_app, Hst in Hfold.
  cbn [res_bind res_fold] in Hfold. bind_inv Hfold.
  destruct (video_item_required_keys _ _ _ E0)
    as (this & Hthis & Hlink & Htitle & Hchild).
  destruct (video_items_listed _ _ _ Hfold) as (l & Hl & _ & _).
  rewrite Hthis in Hl. rewrite Hl in Hrun.
  apply VideoSearchResult_validate_Ok in Hrun.
  apply Forall2_app_inv_l in Hrun as (v1 & v2 & Hv1 & _ & _).
  apply Forall2_app_inv_l in Hv1 as (v3 & v4 & _ & Hv4 & _).
  inversion Hv4 as [|? v ? ? Hv]; subst. cbn [v_model] in Hv.
  unfold Video.validate in Hv. bind_inv Hv.
  unfold required in E5, E6.
  destruct Hmissing as [Ha | [Hm | (metadata & Hm & Hc)]].
  - by rewrite (Hlink Ha) in E6.
  - by rewrite (Htitle Hm) in E5.
  - by rewrite (Hchild _ Hm Hc) in E5.
Qed.

(** X22: The anchor of the first video item of a page with status 2xx:
    without [href] attribute [search_videos] raises [KeyError], with an
    [href] that has no value it raises [TypeError]. *)
Theorem search_videos_anchor_errors (res : Response document)
    (result : node) (results : list node) (a : node) (anchors : list node) :
  raise_for_status res = Ok tt ->
  css (body res) None (u "#search li.vr.vres") = result :: results ->
  css (body res) (Some result) (u "a") = a :: anchors ->
  (attributes (body res) a !! u "href" = None ->
   search_videos res = Raise (KeyError (u "href")))
  /\ (attributes (body res) a !! u "href" = Some None ->
      search_videos res = Raise TypeError).
Proof.
  intros Hstatus Hresults Hanchor.
  assert (forall e, video_item (body res, []) result = Raise e ->
                    search_videos res = Raise e) as Hfail.
  { intros e He. unfold search_videos, videos_collect.
    rewrite Hstatus, Hresults. cbn [res_bind res_fold]. by rewrite He. }
  split; intros Hhref; apply Hfail;
    unfold video_item, css_first, attr_getitem; cbn [fst];
    rewrite Hanchor; cbn [head]; by rewrite Hhref.
Qed.

(** ** [search]: the image of the card *)

(** X23: The image of the card panel, on a page with status 2xx and
    without result blocks: an image without [src] attribute makes [search]
    raise [KeyError], one whose [src] holds no [https://] raises
    [IndexError]; otherwise, when the panel has nothing else, the card's
    image is what [get_abs_image] makes of the [src] and its other fields
    are unset. *)
Theorem search_card_image (res : Response document) (middle : node)
    (card : node) (cards : list node) (image : node) (images : list node) :
  raise_for_status res = Ok tt ->
  css_first (body res) None (u ".reg.searchCenterMiddle") = Some middle ->
  css (body res) (Some middle) (u ".dd.algo.algo-sr") = [] ->
  css (body res) None (u ".cardReg.searchRightTop") = card :: cards ->
  css (body res) (Some card) (u "img") = image :: images ->
  (attributes (body res) image !! u "src" = None ->
   search res = Raise (KeyError (u "src")))
  /\ (forall src : list N,
        attributes (body res) image !! u "src" = Some (Some src) ->
        src <> [] -> contains (u "https://") src = false ->
        search res = Raise IndexError)
  /\ (forall (src : option (list N)) (abs : list N),
        attributes (body res) image !! u "src" = Some src ->
        get_abs_image src = Ok abs ->
        css (body res) (Some card) (u "p.pl-15.pr-10 span") = [] ->
        css (body res) (Some card) (u "div.compText p") = [] ->
        css (body res) None also_try_selector = [] ->
        css (body res) None related_selector = [] ->
        search res
        = Ok {| SearchResult.also_try := [];
                SearchResult.pages := [];
                SearchResult.card :=
                  Some {| CardResult.image := Some abs;
                          CardResult.heading := None;
                          CardResult.text := None;
                          CardResult.source := None |};
                SearchResult.related_searches := [] |}).
Proof.
  intros Hstatus Hsearch Hblocks Hcard Himage.
  assert (forall e,
            (src <- attr_getitem (attributes (body res) image) (u "src");;
             get_abs_image src) = Raise e ->
            search res = Raise e) as Hfail.
  { intros e He. unfold search, search_collect, search_pages.
    rewrite Hstatus, Hsearch, Hblocks. cbn [res_bind res_fold fst snd].
    unfold css_first at 1. rewrite Hcard. cbn [head].
    unfold search_card, css_first. cbn [fst snd]. rewrite Himage. cbn [head].
    destruct (attr_getitem (attributes (body res) image) (u "src")) as [src|];
      cbn [res_bind] in *; [|by injection He as <-].
    by rewrite He. }
  split; [|split].
  - intros Hsrc. apply Hfail. unfold attr_getitem. by rewrite Hsrc.
  - intros src Hsrc Hne Hfree. apply Hfail. unfold attr_getitem.
    rewrite Hsrc. cbn [res_bind]. rewrite get_abs_image_outcome.
    destruct src; [congruence|]. unfold contains in Hfree.
    by destruct (break_on (u "https://") (n :: src)) as [[x y]|].
  - intros src abs Hsrc Habs Hheading Hinner Halso Hrelated.
    unfold search, search_collect, search_pages.
    rewrite Hstatus, Hsearch, Hblocks. cbn [res_bind res_fold fst snd].
    unfold css_first at 1. rewrite Hcard. cbn [head].
    unfold search_card, css_first, attr_getitem. cbn [fst snd].
    rewrite Himage, Hheading. cbn [head]. rewrite Hsrc. cbn [res_bind].
    rewrite Habs. cbn [res_bind fst snd]. rewrite Hinner. cbn [head res_bind fst snd].
    unfold also_try_selector in Halso. unfold related_selector in Hrelated.
    rewrite Halso, Hrelated. cbn [res_fold res_bind snd].
    unfold SearchResult.validate, required, with_default.
    rewrite !(update_in_other (u "card") _ (u "also_try")) by literal_neq.
    rewrite !(update_in_other (u "card") _ (u "pages")) by literal_neq.
    rewrite !(update_in_other (u "card") _ (u "related_searches")) by literal_neq.
    rewrite (update_in_same (u "card") _ _ search_contents ∅) by reflexivity.
    change (search_contents !! u "also_try") with (Some (VList [])).
    change (search_contents !! u "pages") with (Some (VList [])).
    change (search_contents !! u "related_searches") with (Some (VList [])).
    cbn [v_list res_map res_bind v_optional v_model].
    unfold CardResult.validate, with_default. dict_lookup.
    reflexivity.
Qed.

End RequiredElements.

(** ** The extractors on the fixtures *)

Import Reference Fixtures.

Lemma search_on_search_page :
  search (page_response search_page) = Ok search_page_record.
Proof. vm_compute. reflexivity. Qed.

Lemma weather_on_weather_page :
  weather (page_response weather_page) = Ok weather_page_record.
Proof. vm_compute. reflexivity. Qed.

Lemma search_link_fields_witness :
  links_by_position (body (page_response two_results_page)) two_results_record.
Proof.
  apply (search_link_fields (page_response two_results_page)).
  vm_compute. reflexivity.
Defined.

(** The link predicate pins the whole segment: for the block of
    [search_page] it holds of the decoded destination and of no prefix of
    it. *)
Lemma page_link_rejects_prefixes :
  page_link search_page [0; 1; 0; 0]%nat (u "https://example.com/abc")
  /\ ~ page_link search_page [0; 1; 0; 0]%nat []
  /\ ~ page_link search_page [0; 1; 0; 0]%nat (u "https:").
Proof.
  split; [|split].
  - apply page_link_exact. eexists _, _. repeat split; vm_compute; reflexivity.
  - intros (a & href & Ha & Hh & Hs)%page_link_exact.
    vm_compute in Ha. injection Ha as <-. vm_compute in Hh. injection Hh as <-.
    vm_compute in Hs. discriminate.
  - intros (a & href & Ha & Hh & Hs)%page_link_exact.
    vm_compute in Ha. injection Ha as <-. vm_compute in Hh. injection Hh as <-.
    vm_compute in Hs. discriminate.
Qed.

(** C1 as stated fails: the link of the "also try" entry is the
    redirect-wrapper URL itself, marker included, while the destination
    decoded from it is another URL.  And a decoded destination may hold
    the marker, when it was escaped in the wrapper. *)
Lemma search_also_try_link_is_raw :
  search (page_response search_page) = Ok search_page_record
  /\ AlsoTryItem.link <$> SearchResult.also_try search_page_record
     = [wrapped_also_try]
  /\ contains (u "RU=") wrapped_also_try = true
  /\ get_abs_link (Some wrapped_also_try)
     = Ok (u "https://sg.search.yahoo.com/search?p=cocoa")
  /\ wrapped_also_try <> u "https://sg.search.yahoo.com/search?p=cocoa"
  /\ get_abs_link (Some wrapped_marker_url) = Ok (u "https://a.example/?RU=x")
  /\ contains (u "RU=") (u "https://a.example/?RU=x") = true.
Proof.
  repeat split; try (vm_compute; reflexivity). vm_compute. discriminate.
Qed.

Lemma search_news_requires_title_witness :
  raised (search_news (page_response bare_news_page))
  /\ search_news (page_response headline_news_page)
     = Ok {| NewsSearchResult.news :=
               [{| News.title := u "Headline"; News.thumbnail := None;
                   News.source := None; News.last_updated := None;
                   News.text := None |}] |}.
Proof.
  split.
  - refine (proj1 (search_news_requires_title (page_response bare_news_page)
                     [0; 0; 0]%nat _)
                  [] [] [0; 0; 0; 0; 0; 0; 0; 0]%nat (bare_news_page, [])
                  _ _ _).
    + vm_compute. reflexivity.
    + vm_compute. reflexivity.
    + reflexivity.
    + vm_compute. reflexivity.
  - refine (proj2 (search_news_requires_title
                     (page_response headline_news_page) [0; 0; 0]%nat _)
                  [0; 0; 0; 0; 0; 0; 0; 0]%nat
                  [0; 0; 0; 0; 0; 0; 0; 0; 0; 0]%nat []
                  (Some (u "https://news.example.com/1")) _ _ _ _ _ _ _).
    + vm_compute. reflexivity.
    + vm_compute. reflexivity.
    + vm_compute. reflexivity.
    + vm_compute. reflexivity.
    + vm_compute. reflexivity.
    + vm_compute. reflexivity.
    + vm_compute. reflexivity.
    + vm_compute. reflexivity.
Defined.

(** C5 as stated fails: on a row in which no probed element occurs,
    [search_news] raises the validation error of [News]. *)
Lemma search_news_bare_row_fails :
  let item := [0; 0; 0; 0; 0; 0; 0; 0]%nat in
  css bare_news_page (Some [0; 0; 0]%nat) (u "li .dd.NewsArticle li") = [item]
  /\ Forall (fun q => css bare_news_page (Some item) (u q) = [])
            ["img"; "h4 a"; "span.s-source"; "span.fc-2nd.s-time"; "p.s-desc"]%string
  /\ search_news (page_response bare_news_page) = Raise ValidationError.
Proof.
  cbv zeta. split; [vm_compute; reflexivity|]. split.
  - repeat constructor.
  - vm_compute. reflexivity.
Qed.

(** C6: the row of [timed_news_page] has the label ["· 2 hours ago"]; the
    dictionary of the row holds ["2 hours ago"] under ["time"] and nothing
    under ["last_updated"], and the record returned has no [last_updated]
    (and [News] has no other field for it). *)
Theorem search_news_drops_time :
  match news_collect (body (page_response timed_news_page)) with
  | Ok st => st.2 = [VDict timed_news_row]
  | Raise _ => False
  end
  /\ timed_news_row !! u "time" = Some (VStr (u "2 hours ago"))
  /\ timed_news_row !! u "last_updated" = None
  /\ search_news (page_response timed_news_page)
     = Ok {| NewsSearchResult.news :=
               [{| News.title := u "Headline"; News.thumbnail := None;
                   News.source := None; News.last_updated := None;
                   News.text := None |}] |}.
Proof. repeat split; vm_compute; reflexivity. Qed.

Lemma search_card_without_panel_witness :
  SearchResult.card search_page_record
  = Some {| CardResult.image := None; CardResult.heading := None;
            CardResult.text := None; CardResult.source := None |}.
Proof.
  apply (search_card_without_panel (page_response search_page)
           search_page_after_pages).
  - vm_compute. reflexivity.
  - vm_compute. reflexivity.
  - vm_compute. reflexivity.
Defined.

(** C7 as stated fails: the page has no card panel when the panel is
    looked up and the record has a card all the same. *)
Lemma search_card_present_without_panel :
  search_pages (body (page_response search_page)) = Ok search_page_after_pages
  /\ css search_page_after_pages.1 None (u ".cardReg.searchRightTop") = []
  /\ search (page_response search_page) = Ok search_page_record
  /\ SearchResult.card search_page_record <> None.
Proof.
  repeat split; try (vm_compute; reflexivity). discriminate.
Qed.

Lemma search_videos_empty_result_witness :
  exists e_v e_s,
    search_videos (page_response blank_page) = Raise e_v
    /\ search (page_response blank_page) = Raise e_s
    /\ e_v = AssertionError "Couldn't find any results for '#search li.vr.vres'"
    /\ e_s = AssertionError
               "Could not find '.reg.searchCCenterMiddle' (search results)"
    /\ kind_of e_v = kind_of e_s
    /\ e_v <> e_s.
Proof.
  apply (search_videos_empty_result (page_response blank_page)
           (page_response blank_page)).
  - reflexivity.
  - reflexivity.
  - vm_compute. reflexivity.
  - vm_compute. reflexivity.
Defined.

(** C8 as stated fails: the two failures are not told apart by kind. *)
Lemma search_videos_empty_result_same_kind :
  ~ (forall e_v e_s,
       search_videos (page_response blank_page) = Raise e_v ->
       search (page_response blank_page) = Raise e_s ->
       kind_of e_v <> kind_of e_s).
Proof.
  intros Hdistinct.
  apply (Hdistinct
           (AssertionError "Couldn't find any results for '#search li.vr.vres'")
           (AssertionError
              "Could not find '.reg.searchCCenterMiddle' (search results)")).
  - vm_compute. reflexivity.
  - vm_compute. reflexivity.
  - reflexivity.
Qed.

Lemma weather_forecast_entries_witness :
  size (WeatherInformation.forecast weather_page_record) = 5%nat
  /\ forall day,
       is_Some (WeatherInformation.forecast weather_page_record !! day)
       <-> day ∈ [u "Monday"; u "Tuesday"; u "Wednesday"; u "Thursday";
                  u "Friday"].
Proof.
  destruct (weather_forecast_entries (page_response weather_page)
              weather_page_record)
    as (days & Hdays & Hkeys & _ & _ & Hfive).
  - vm_compute. reflexivity.
  - vm_compute in Hdays. injection Hdays as <-. split; [|exact Hkeys].
    apply Hfive.
    + vm_compute. reflexivity.
    + apply (bool_decide_unpack _). vm_compute. reflexivity.
Defined.

Lemma weather_temperatures_by_position_witness :
  exists wf,
    WeatherInformation.forecast weather_page_record !! u "Wednesday" = Some wf
    /\ WeatherForecast.fahrenheit wf
       = {| HighLowTemperature.highest := 89; HighLowTemperature.lowest := 76 |}
    /\ WeatherForecast.celsius wf
       = {| HighLowTemperature.highest := 31; HighLowTemperature.lowest := 24 |}.
Proof.
  destruct (weather_temperatures_by_position
              (page_response weather_page) weather_page_record
              [[0; 4; 0; 0]; [0; 4; 0; 1]]%nat
              [[0; 4; 0; 3]; [0; 4; 0; 4]]%nat
              [0; 4; 0; 2]%nat (u "Wednesday")
              [0; 4; 0; 2; 3; 0; 0]%nat [0; 4; 0; 2; 3; 0; 1]%nat
              [0; 4; 0; 2; 3; 0; 2]%nat [0; 4; 0; 2; 3; 0; 3]%nat)
    as (wf & Hwf & H0 & H1 & H2 & H3).
  - vm_compute. reflexivity.
  - vm_compute. reflexivity.
  - vm_compute. reflexivity.
  - intros r [->|[->|[]%elem_of_nil]%elem_of_cons]%elem_of_cons;
      vm_compute; discriminate.
  - vm_compute. reflexivity.
  - exists wf. split; [exact Hwf|].
    destruct wf as [[fh fl] [ch cl] ? ?].
    cbn [WeatherForecast.fahrenheit WeatherForecast.celsius
         HighLowTemperature.highest HighLowTemperature.lowest] in *.
    vm_compute in H0, H1, H2, H3.
    injection H0 as <-. injection H1 as <-.
    injection H2 as <-. injection H3 as <-. split; reflexivity.
Defined.

(** ** Further runs on the fixtures *)

Lemma get_abs_image_first_url_witness :
  get_abs_image (Some (u "//s.yimg.com/fz/api/res/1.2/abc/w=120&https://real.image/pic.jpg"))
  = Ok (u "https://real.image/pic.jpg")
  /\ get_abs_image (Some (u "https://s.yimg.com/fz/api/https://real.image/pic.jpg"))
     = Ok (u "https://s.yimg.com/fz/api/")
  /\ get_abs_image (Some (u "/static/placeholder.png")) = Raise IndexError.
Proof.
  destruct get_abs_image_first_url as (_ & _ & Hnone & Hcut).
  split; [|split].
  - refine (proj1 (Hcut (u "//s.yimg.com/fz/api/res/1.2/abc/w=120&")
                        (u "real.image/pic.jpg") [] _ _)).
    + reflexivity.
    + reflexivity.
  - refine (proj2 (Hcut [] (u "s.yimg.com/fz/api/")
                        (u "real.image/pic.jpg") _ _)).
    + reflexivity.
    + reflexivity.
  - apply Hnone.
    + discriminate.
    + reflexivity.
Defined.

Lemma get_abs_image_idempotent_witness :
  get_abs_image (Some (u "https://real.image/pic.jpg"))
  = Ok (u "https://real.image/pic.jpg").
Proof.
  apply (get_abs_image_idempotent
           (Some (u "//s.yimg.com/fz/w=120&https://real.image/pic.jpg"))).
  reflexivity.
Defined.

Lemma get_abs_link_segment_witness :
  get_abs_link (Some wrapped_url) = Ok (u "https://example.com/abc")
  /\ get_abs_link (Some (u "https://r.search.yahoo.com/RU=plain.example/RK=2"))
     = Ok (u "plain.example").
Proof.
  split.
  - refine (proj1 (get_abs_link_segment wrapped_url _
                     (u "/_ylt=Awr/RV=2/RE=17/RO=10/")
                     (u "https%3A%2F%2Fexample.com%2Fabc")
                     (u "/RK=2/RS=xyz") _ _ _ _ _ _ _)).
    + discriminate.
    + vm_compute. reflexivity.
    + vm_compute. reflexivity.
    + right. by exists (u "RK=2/RS=xyz").
    + reflexivity.
    + reflexivity.
    + reflexivity.
  - refine (proj2 (get_abs_link_segment
                     (u "https://r.search.yahoo.com/RU=plain.example/RK=2") _
                     (u "/") (u "plain.example") (u "/RK=2") _ _ _ _ _ _ _) _).
    + discriminate.
    + vm_compute. reflexivity.
    + vm_compute. reflexivity.
    + right. by exists (u "RK=2").
    + reflexivity.
    + reflexivity.
    + reflexivity.
    + apply (bool_decide_unpack _). vm_compute. reflexivity.
Defined.

Lemma status_checked_by_search_and_videos_witness :
  search {| status_code := 404; body := body (page_response search_page) |}
  = Raise HTTPStatusError
  /\ search_videos {| status_code := 404; body := body (page_response search_page) |}
     = Raise HTTPStatusError
  /\ search_news {| status_code := 404; body := body (page_response search_page) |}
     = search_news (page_response search_page)
  /\ weather {| status_code := 404; body := body (page_response search_page) |}
     = weather (page_response search_page).
Proof.
  apply (status_checked_by_search_and_videos (page_response search_page) 404).
  right. lia.
Defined.

Lemma search_one_entry_per_element_witness :
  texts_by_position (body (page_response two_results_page)) two_results_record.
Proof.
  apply (search_one_entry_per_element (page_response two_results_page)).
  vm_compute. reflexivity.
Defined.

Lemma search_requires_heading_witness :
  raised (search (page_response headless_search_page)).
Proof.
  apply (search_requires_heading (page_response headless_search_page)
           [0; 0]%nat [] [[0; 0; 1; 0]]%nat [0; 0; 0; 0]%nat
           (headless_search_page, search_contents)).
  - vm_compute. reflexivity.
  - vm_compute. reflexivity.
  - reflexivity.
  - vm_compute. reflexivity.
Defined.

Lemma search_heading_href_errors_witness :
  search (page_response (result_page [E "a" [] [T "Title"]]))
  = Raise (KeyError (u "href"))
  /\ search (page_response (result_page [anchor plain_url "Title"]))
     = Raise IndexError.
Proof.
  split.
  - refine (proj1 (search_heading_href_errors
                     (page_response (result_page [E "a" [] [T "Title"]]))
                     [0; 0]%nat [0; 0; 0; 0]%nat []
                     [0; 0; 0; 0; 0; 0; 0]%nat [] _ _ _ _) _).
    + reflexivity.
    + vm_compute. reflexivity.
    + vm_compute. reflexivity.
    + vm_compute. reflexivity.
    + vm_compute. reflexivity.
  - refine (proj2 (search_heading_href_errors
                     (page_response (result_page [anchor plain_url "Title"]))
                     [0; 0]%nat [0; 0; 0; 0]%nat []
                     [0; 0; 0; 0; 0; 0; 0]%nat [] _ _ _ _)
                  plain_url _ _ _ _ _).
    + reflexivity.
    + vm_compute. reflexivity.
    + vm_compute. reflexivity.
    + vm_compute. reflexivity.
    + vm_compute. reflexivity.
    + discriminate.
    + vm_compute. reflexivity.
    + vm_compute. reflexivity.
Defined.

Lemma search_last_heading_wins_witness :
  search (page_response
            (result_page [anchor wrapped_also_try "First";
                          anchor wrapped_url "Second"]))
  = Ok {| SearchResult.also_try := [];
          SearchResult.pages :=
            [{| PageResult.title := u "Second";
                PageResult.link := u "https://example.com/abc";
                PageResult.text := None |}];
          SearchResult.card :=
            Some {| CardResult.image := None; CardResult.heading := None;
                    CardResult.text := None; CardResult.source := None |};
          SearchResult.related_searches := [] |}.
Proof.
  refine (eq_trans
            (search_last_heading_wins
               (page_response
                  (result_page [anchor wrapped_also_try "First";
                                anchor wrapped_url "Second"]))
               [0; 0]%nat [0; 0; 0; 0]%nat [[0; 0; 0; 0; 0; 0; 0]]%nat
               [0; 0; 0; 0; 0; 0; 1]%nat (Some wrapped_url)
               (u "https://example.com/abc") _ _ _ _ _ _ _ _ _ _ _) _).
  - reflexivity.
  - vm_compute. reflexivity.
  - vm_compute. reflexivity.
  - vm_compute. reflexivity.
  - intros x ->%list_elem_of_singleton.
    exists (Some wrapped_also_try), (u "https://sg.search.yahoo.com/search?p=cocoa").
    split; vm_compute; reflexivity.
  - vm_compute. reflexivity.
  - vm_compute. reflexivity.
  - vm_compute. reflexivity.
  - vm_compute. reflexivity.
  - vm_compute. reflexivity.
  - vm_compute. reflexivity.
  - vm_compute. reflexivity.
Defined.

Lemma search_card_source_witness :
  search (page_response card_page)
  = Ok {| SearchResult.also_try := [];
          SearchResult.pages := [];
          SearchResult.card :=
            Some {| CardResult.image := None; CardResult.heading := None;
                    CardResult.text := Some (u "Cocoa is a bean. ");
                    CardResult.source :=
                      Some {| CardResultSource.link := [];
                              CardResultSource.text := u "Wikipedia" |} |};
          SearchResult.related_searches := [] |}.
Proof.
  refine (eq_trans
            (proj1 (search_card_source (page_response card_page)
                      [0; 0]%nat [0; 1]%nat [] [0; 1; 0; 0]%nat []
                      [0; 1; 0; 0; 1]%nat [] [] _ _ _ _ _ _ _ _ _ _ _)) _).
  - reflexivity.
  - vm_compute. reflexivity.
  - vm_compute. reflexivity.
  - vm_compute. reflexivity.
  - vm_compute. reflexivity.
  - vm_compute. reflexivity.
  - vm_compute. reflexivity.
  - vm_compute. reflexivity.
  - vm_compute. reflexivity.
  - vm_compute. reflexivity.
  - vm_compute. reflexivity.
  - vm_compute. reflexivity.
Defined.

Lemma search_news_one_record_per_row_witness :
  news_by_position (body (page_response two_news_page)) two_news_record
  /\ search_news
       (page_response
          (E "html" [] [E "body" [] [
             E "div" [("id", "main")] [E "div" [("id", "web")] []]]]))
     = Ok {| NewsSearchResult.news := [] |}.
Proof.
  split.
  - apply (proj1 (search_news_one_record_per_row (page_response two_news_page))).
    vm_compute. reflexivity.
  - apply (proj2 (search_news_one_record_per_row
                    (page_response
                       (E "html" [] [E "body" [] [
                          E "div" [("id", "main")] [E "div" [("id", "web")] []]]])))
                 [0; 0; 0]%nat).
    + vm_compute. reflexivity.
    + vm_compute. reflexivity.
Defined.

Lemma search_news_thumbnail_witness :
  search_news (page_response (pictured_news_page []))
  = Raise (KeyError (u "src"))
  /\ search_news (page_response (pictured_news_page [(u "src", None)]))
     = Raise AttributeError
  /\ search_news
       (page_response
          (pictured_news_page [(u "src", Some (u "data:image/gif;base64,R0lG"))]))
     = Ok (pictured_news_record None)
  /\ search_news
       (page_response
          (pictured_news_page [(u "src", Some (u "https://s.yimg.com/t.jpg"))]))
     = Ok (pictured_news_record (Some (u "https://s.yimg.com/t.jpg"))).
Proof.
  assert (forall img,
            css_first (body (page_response (pictured_news_page img))) None
                      (u "#main #web") = Some [0; 0; 0]%nat
            /\ css (body (page_response (pictured_news_page img)))
                   (Some [0; 0; 0]%nat) (u "li .dd.NewsArticle li")
               = [[0; 0; 0; 0; 0; 0; 0; 0]%nat]
            /\ css (body (page_response (pictured_news_page img)))
                   (Some [0; 0; 0; 0; 0; 0; 0; 0]%nat) (u "img")
               = [[0; 0; 0; 0; 0; 0; 0; 0; 0]%nat]) as Hshape.
  { intros img. repeat split; vm_compute; reflexivity. }
  split; [|split; [|split]].
  - destruct (Hshape []) as (Hpage & Hrows & Himg).
    apply (proj1 (search_news_thumbnail _ _ _ _ _ _ Hpage Hrows Himg)).
    vm_compute. reflexivity.
  - destruct (Hshape [(u "src", None)]) as (Hpage & Hrows & Himg).
    apply (proj1 (proj2 (search_news_thumbnail _ _ _ _ _ _ Hpage Hrows Himg))).
    vm_compute. reflexivity.
  - destruct (Hshape [(u "src", Some (u "data:image/gif;base64,R0lG"))])
      as (Hpage & Hrows & Himg).
    refine (eq_trans
              (proj2 (proj2 (search_news_thumbnail _ _ _ _ _ _ Hpage Hrows Himg))
                     (u "data:image/gif;base64,R0lG")
                     [0; 0; 0; 0; 0; 0; 0; 0; 1; 0]%nat []
                     (Some (u "https://news.example.com/1")) _ _ _ _ _ _ _) _);
      vm_compute; reflexivity.
  - destruct (Hshape [(u "src", Some (u "https://s.yimg.com/t.jpg"))])
      as (Hpage & Hrows & Himg).
    refine (eq_trans
              (proj2 (proj2 (search_news_thumbnail _ _ _ _ _ _ Hpage Hrows Himg))
                     (u "https://s.yimg.com/t.jpg")
                     [0; 0; 0; 0; 0; 0; 0; 0; 1; 0]%nat []
                     (Some (u "https://news.example.com/1")) _ _ _ _ _ _ _) _);
      vm_compute; reflexivity.
Defined.

Lemma search_news_last_updated_unset_witness :
  Forall (fun n => News.last_updated n = None)
         [{| News.title := u "Headline"; News.thumbnail := None;
             News.source := None; News.last_updated := None;
             News.text := None |}].
Proof.
  apply (search_news_last_updated_unset (page_response timed_news_page)
           {| NewsSearchResult.news :=
                [{| News.title := u "Headline"; News.thumbnail := None;
                    News.source := None; News.last_updated := None;
                    News.text := None |}] |}).
  vm_compute. reflexivity.
Defined.

Lemma search_videos_one_record_per_item_witness :
  videos_by_position (body (page_response two_videos_page)) two_videos_record.
Proof.
  apply (search_videos_one_record_per_item (page_response two_videos_page)).
  vm_compute. reflexivity.
Defined.

Lemma search_videos_links_on_host_witness :
  Forall (fun v => exists href,
            Video.link v = u "https://sg.video.search.yahoo.com" ++ href)
         (VideoSearchResult.videos (video_record None)).
Proof.
  apply (search_videos_links_on_host
           (page_response (video_page [(u "href", Some (u "/video/play?vid=1"));
                                       (u "data", Some no_preview_json)]))).
  vm_compute. reflexivity.
Defined.

Lemma search_videos_preview_witness :
  search_videos
    (page_response (video_page [(u "href", Some (u "/video/play?vid=1"));
                                (u "data", Some (u "oops"))]))
  = Raise JSONDecodeError
  /\ search_videos
       (page_response (video_page [(u "href", Some (u "/video/play?vid=1"));
                                   (u "data", Some (u "{}"))]))
     = Raise (KeyError (u "m"))
  /\ search_videos
       (page_response (video_page [(u "href", Some (u "/video/play?vid=1"));
                                   (u "data", Some no_preview_json)]))
     = Ok (video_record None)
  /\ search_videos
       (page_response (video_page [(u "href", Some (u "/video/play?vid=1"));
                                   (u "data", Some preview_json)]))
     = Ok (video_record (Some (u "https://preview.example/1.mp4"))).
Proof.
  assert (forall d,
            d <> [] ->
            let res := page_response
                         (video_page [(u "href", Some (u "/video/play?vid=1"));
                                      (u "data", Some d)]) in
            (forall e, json_loads d = Raise e -> search_videos res = Raise e)
            /\ (forall meta e,
                  json_loads d = Ok meta ->
                  subscript_str meta (u "m") = Raise e ->
                  search_videos res = Raise e)
            /\ (forall meta m preview,
                  json_loads d = Ok meta -> subscript_str meta (u "m") = Ok m ->
                  (truthy m = false /\ preview = None)
                  \/ (truthy m = true
                      /\ exists url, subscript_str m (u "u") = Ok (VStr url)
                                     /\ preview = Some url) ->
                  search_videos res = Ok (video_record preview))) as Hpage.
  { intros d Hd res.
    destruct (search_videos_preview res [0; 0; 0; 0]%nat [0; 0; 0; 0; 0]%nat []
                (u "/video/play?vid=1") d) as (Hjson & Hkey & Hok).
    - reflexivity.
    - vm_compute. reflexivity.
    - vm_compute. reflexivity.
    - vm_compute. reflexivity.
    - vm_compute. reflexivity.
    - exact Hd.
    - split; [exact Hjson|]. split; [exact Hkey|].
      intros meta m preview Hmeta Hm Hpreview.
      refine (eq_trans
                (Hok meta m [0; 0; 0; 0; 1]%nat [] [0; 0; 0; 0; 1; 0]%nat
                     [0; 0; 0; 0; 1; 1]%nat Hmeta Hm _ _ _ _ _ preview Hpreview)
                _); vm_compute; reflexivity. }
  split; [|split; [|split]].
  - apply (Hpage (u "oops")); [discriminate|]. vm_compute. reflexivity.
  - apply (proj1 (proj2 (Hpage (u "{}") ltac:(discriminate))) (VDict ∅)).
    + vm_compute. reflexivity.
    + vm_compute. reflexivity.
  - apply (proj2 (proj2 (Hpage no_preview_json ltac:(discriminate)))
                 (VDict (<[u "m" := VDict ∅]> ∅)) (VDict ∅)).
    + vm_compute. reflexivity.
    + vm_compute. reflexivity.
    + left. split; reflexivity.
  - apply (proj2 (proj2 (Hpage preview_json ltac:(discriminate)))
                 (VDict (<[u "m" := VDict (<[u "u" := VStr (u "https://preview.example/1.mp4")]> ∅)]> ∅))
                 (VDict (<[u "u" := VStr (u "https://preview.example/1.mp4")]> ∅))).
    + vm_compute. reflexivity.
    + vm_compute. reflexivity.
    + right. split; [reflexivity|].
      exists (u "https://preview.example/1.mp4"). split; vm_compute; reflexivity.
Defined.

Lemma weather_header_witness :
  exists heading img : node,
    css_first (body (page_response weather_page)) None
              (u "div#module-location-heading") = Some heading
    /\ css_first (body (page_response weather_page)) (Some heading) (u "img")
       = Some img
    /\ attributes (body (page_response weather_page)) img !! u "src"
       = Some (Some (u "https://s.yimg.com/cloudy.png"))
    /\ int (u "31") = Ok 31%Z.
Proof.
  destruct (weather_header (page_response weather_page) weather_page_record)
    as (location & country & now & celsius & fahrenheit & heading & img & text
        & _ & _ & _ & _ & _ & _ & Hcel & Hc & _ & _ & Hheading & Himg & Hsrc & _).
  - vm_compute. reflexivity.
  - exists heading, img. split; [exact Hheading|]. split; [exact Himg|].
    split; [exact Hsrc|].
    vm_compute in Hcel. injection Hcel as <-. exact Hc.
Defined.

Lemma weather_days_are_weekdays_witness :
  (forall day, is_Some (WeatherInformation.forecast weather_page_record !! day) ->
               day ∈ weekdays)
  /\ Forall (fun row => exists day,
               weather_day (body (page_response weather_page)) row = Ok day
               /\ day ∈ weekdays)
            (take 7 (css (body (page_response weather_page)) None
                         forecast_selector)).
Proof.
  apply (weather_days_are_weekdays (page_response weather_page)
           weather_page_record).
  vm_compute. reflexivity.
Defined.

Lemma weather_row_requirements_witness :
  exists wf,
    WeatherInformation.forecast weather_page_record !! u "Wednesday" = Some wf
    /\ attributes (body (page_response weather_page)) [0; 4; 0; 2; 1; 0]%nat
         !! u "alt"
       = Some (Some (WeatherForecastInner.text (WeatherForecast.weather wf)))
    /\ (4 <= length (css (body (page_response weather_page))
                         (Some [0; 4; 0; 2]%nat) temperature_selector))%nat.
Proof.
  destruct (weather_row_requirements
              (page_response weather_page) weather_page_record
              [[0; 4; 0; 0]; [0; 4; 0; 1]]%nat
              [[0; 4; 0; 3]; [0; 4; 0; 4]]%nat
              [0; 4; 0; 2]%nat (u "Wednesday"))
    as (wf & img & cell & icon & last & p & Hwf & Himg & Halt & _ & _ & _ & _
        & _ & _ & _ & Hcells).
  - vm_compute. reflexivity.
  - vm_compute. reflexivity.
  - vm_compute. reflexivity.
  - intros r [->|[->|[]%elem_of_nil]%elem_of_cons]%elem_of_cons;
      vm_compute; discriminate.
  - exists wf. split; [exact Hwf|]. split; [|exact Hcells].
    vm_compute in Himg. injection Himg as <-. exact Halt.
Defined.

Lemma weather_last_cell_is_lowest_witness :
  exists wf,
    WeatherInformation.forecast long_row_weather_record !! u "Monday" = Some wf
    /\ WeatherForecast.fahrenheit wf
       = {| HighLowTemperature.highest := 91; HighLowTemperature.lowest := 78 |}
    /\ WeatherForecast.celsius wf
       = {| HighLowTemperature.highest := 33; HighLowTemperature.lowest := 25 |}.
Proof.
  destruct (weather_last_cell_is_lowest
              (page_response long_row_weather_page) long_row_weather_record
              [] [] [0; 4; 0; 0]%nat (u "Monday")
              [0; 4; 0; 0; 3; 0; 0]%nat [0; 4; 0; 0; 3; 0; 1]%nat
              [0; 4; 0; 0; 3; 0; 2]%nat
              [[0; 4; 0; 0; 3; 0; 3]; [0; 4; 0; 0; 3; 0; 4]]%nat
              [0; 4; 0; 0; 3; 0; 4]%nat)
    as (wf & Hwf & H0 & H1 & H2 & H3).
  - vm_compute. reflexivity.
  - vm_compute. reflexivity.
  - vm_compute. reflexivity.
  - intros r []%elem_of_nil.
  - vm_compute. reflexivity.
  - reflexivity.
  - exists wf. split; [exact Hwf|].
    destruct wf as [[fh fl] [ch cl] ? ?].
    cbn [WeatherForecast.fahrenheit WeatherForecast.celsius
         HighLowTemperature.highest HighLowTemperature.lowest] in *.
    vm_compute in H0, H1, H2, H3.
    injection H0 as <-. injection H1 as <-.
    injection H2 as <-. injection H3 as <-. split; reflexivity.
Defined.

Lemma search_news_heading_needs_href_witness :
  search_news (page_response (news_page [E "h4" [] [E "a" [] [T "Headline"]]]))
  = Raise (KeyError (u "href")).
Proof.
  apply (search_news_heading_needs_href
           (page_response (news_page [E "h4" [] [E "a" [] [T "Headline"]]]))
           [0; 0; 0]%nat [0; 0; 0; 0; 0; 0; 0; 0]%nat []
           [0; 0; 0; 0; 0; 0; 0; 0; 0; 0]%nat []).
  - vm_compute. reflexivity.
  - vm_compute. reflexivity.
  - vm_compute. reflexivity.
  - vm_compute. reflexivity.
  - vm_compute. reflexivity.
Defined.

Lemma search_videos_item_requirements_witness :
  raised (search_videos
            (page_response
               (E "html" [] [E "body" [] [
                  E "div" [("id", "search")] [E "ul" [] [
                    E "li" [("class", "vr vres")] [T "advertisement"]]]]])))
  /\ raised (search_videos
               (page_response
                  (E "html" [] [E "body" [] [
                     E "div" [("id", "search")] [E "ul" [] [
                       E "li" [("class", "vr vres")] [
                         E "a" [("href", "/video/play?vid=1")] [T "play"];
                         E "div" [("class", "v-meta")] []]]]]]))).
Proof.
  split.
  - apply (search_videos_item_requirements
             (page_response
                (E "html" [] [E "body" [] [
                   E "div" [("id", "search")] [E "ul" [] [
                     E "li" [("class", "vr vres")] [T "advertisement"]]]]]))
             [] [] [0; 0; 0; 0]%nat
             (E "html" [] [E "body" [] [
                E "div" [("id", "search")] [E "ul" [] [
                  E "li" [("class", "vr vres")] [T "advertisement"]]]]], [])).
    + vm_compute. reflexivity.
    + reflexivity.
    + left. vm_compute. reflexivity.
  - apply (search_videos_item_requirements
             (page_response
                (E "html" [] [E "body" [] [
                   E "div" [("id", "search")] [E "ul" [] [
                     E "li" [("class", "vr vres")] [
                       E "a" [("href", "/video/play?vid=1")] [T "play"];
                       E "div" [("class", "v-meta")] []]]]]]))
             [] [] [0; 0; 0; 0]%nat
             (E "html" [] [E "body" [] [
                E "div" [("id", "search")] [E "ul" [] [
                  E "li" [("class", "vr vres")] [
                    E "a" [("href", "/video/play?vid=1")] [T "play"];
                    E "div" [("class", "v-meta")] []]]]]], [])).
    + vm_compute. reflexivity.
    + reflexivity.
    + right. right. exists [0; 0; 0; 0; 1]%nat. split; vm_compute; reflexivity.
Defined.

Lemma search_videos_anchor_errors_witness :
  search_videos (page_response (video_page [])) = Raise (KeyError (u "href"))
  /\ search_videos (page_response (video_page [(u "href", None)]))
     = Raise TypeError.
Proof.
  split.
  - refine (proj1 (search_videos_anchor_errors (page_response (video_page []))
                     [0; 0; 0; 0]%nat [] [0; 0; 0; 0; 0]%nat [] _ _ _) _).
    + reflexivity.
    + vm_compute. reflexivity.
    + vm_compute. reflexivity.
    + vm_compute. reflexivity.
  - refine (proj2 (search_videos_anchor_errors
                     (page_response (video_page [(u "href", None)]))
                     [0; 0; 0; 0]%nat [] [0; 0; 0; 0; 0]%nat [] _ _ _) _).
    + reflexivity.
    + vm_compute. reflexivity.
    + vm_compute. reflexivity.
    + vm_compute. reflexivity.
Defined.

Lemma search_card_image_witness :
  search (page_response (pictured_card_page [])) = Raise (KeyError (u "src"))
  /\ search (page_response
               (pictured_card_page [(u "src", Some (u "/static/card.png"))]))
     = Raise IndexError
  /\ search (page_response
               (pictured_card_page
                  [(u "src",
                    Some (u "//s.yimg.com/fz/w=120&https://real.image/pic.jpg"))]))
     = Ok {| SearchResult.also_try := [];
             SearchResult.pages := [];
             SearchResult.card :=
               Some {| CardResult.image := Some (u "https://real.image/pic.jpg");
                       CardResult.heading := None;
                       CardResult.text := None;
                       CardResult.source := None |};
             SearchResult.related_searches := [] |}.
Proof.
  split; [|split].
  - refine (proj1 (search_card_image (page_response (pictured_card_page []))
                     [0; 0]%nat [0; 1]%nat [] [0; 1; 0]%nat [] _ _ _ _ _) _).
    + reflexivity.
    + vm_compute. reflexivity.
    + vm_compute. reflexivity.
    + vm_compute. reflexivity.
    + vm_compute. reflexivity.
    + vm_compute. reflexivity.
  - refine (proj1 (proj2 (search_card_image
                            (page_response
                               (pictured_card_page
                                  [(u "src", Some (u "/static/card.png"))]))
                            [0; 0]%nat [0; 1]%nat [] [0; 1; 0]%nat [] _ _ _ _ _))
                  (u "/static/card.png") _ _ _).
    + reflexivity.
    + vm_compute. reflexivity.
    + vm_compute. reflexivity.
    + vm_compute. reflexivity.
    + vm_compute. reflexivity.
    + vm_compute. reflexivity.
    + discriminate.
    + reflexivity.
  - refine (proj2 (proj2 (search_card_image
                            (page_response
                               (pictured_card_page
                                  [(u "src",
                                    Some (u "//s.yimg.com/fz/w=120&https://real.image/pic.jpg"))]))
                            [0; 0]%nat [0; 1]%nat [] [0; 1; 0]%nat [] _ _ _ _ _))
                  (Some (u "//s.yimg.com/fz/w=120&https://real.image/pic.jpg"))
                  (u "https://real.image/pic.jpg") _ _ _ _ _ _).
    + reflexivity.
    + vm_compute. reflexivity.
    + vm_compute. reflexivity.
    + vm_compute. reflexivity.
    + vm_compute. reflexivity.
    + vm_compute. reflexivity.
    + reflexivity.
    + vm_compute. reflexivity.
    + vm_compute. reflexivity.
    + vm_compute. reflexivity.
    + vm_compute. reflexivity.
Defined.
